(** * AI-Assintant: the turn engine, the code-block extractor and the executors

    A shallow embedding of [src/utils.py] and of
    [AIAssistant.interact_with_model] in [src/ai_assistant.py], followed by
    the properties of the conversational orchestration that the specification
    states about them.

    Python text is modelled by [string]; every [ascii] stands for the code
    point of the same number (the Latin-1 range of Python's [str]).  Console
    output ([console.print]) has no influence on any returned value and is
    left out. *)

From Stdlib Require Import String Ascii List Bool Arith NArith Lia.
Import ListNotations.
Local Open Scope list_scope.
Local Open Scope string_scope.

(* ===================================================================== *)
(** * Python string primitives used by the sources *)
(* ===================================================================== *)

Module PyStr.

(** The line feed, written ['\n'] in the sources. *)
Definition nl : ascii := "010"%char.
Definition NL : string := String nl EmptyString.

(** U+00E1, U+00ED and U+00F3, the accented letters of the Spanish
    messages. *)
Definition a_acute : string := String "225"%char EmptyString.
Definition i_acute : string := String "237"%char EmptyString.
Definition o_acute : string := String "243"%char EmptyString.

(** [str.isspace] on one character, restricted to code points below 256:
    U+0009..U+000D, U+001C..U+0020, U+0085 and U+00A0. *)
Definition is_space (c : ascii) : bool :=
  let n := N_of_ascii c in
  ((9 <=? n) && (n <=? 13) || (28 <=? n) && (n <=? 32)
   || (n =? 133) || (n =? 160))%N.

(** Truthiness of a [str]: [if s:] *)
Definition truthy (s : string) : bool :=
  match s with EmptyString => false | String _ _ => true end.

(** [s.startswith(p)] *)
Definition startswith (p s : string) : bool := String.prefix p s.

(** [s.endswith(suf)] *)
Fixpoint endswith (suf s : string) : bool :=
  String.eqb s suf
  || match s with
     | EmptyString => false
     | String _ s' => endswith suf s'
     end.

(** [s[n:]] *)
Fixpoint drop (n : nat) (s : string) : string :=
  match n, s with
  | O, _ => s
  | S _, EmptyString => EmptyString
  | S n', String _ s' => drop n' s'
  end.

(** [s.lstrip()] *)
Fixpoint lstrip (s : string) : string :=
  match s with
  | EmptyString => EmptyString
  | String c s' => if is_space c then lstrip s' else s
  end.

(** [s.rstrip()] *)
Fixpoint rstrip (s : string) : string :=
  match s with
  | EmptyString => EmptyString
  | String c s' =>
      match rstrip s' with
      | EmptyString => if is_space c then EmptyString else String c EmptyString
      | r => String c r
      end
  end.

(** [s.strip()] *)
Definition strip (s : string) : string := rstrip (lstrip s).

(** [s.split('\n')]: never the empty list. *)
Fixpoint split_nl (s : string) : list string :=
  match s with
  | EmptyString => [EmptyString]
  | String c s' =>
      if Ascii.eqb c nl then EmptyString :: split_nl s'
      else match split_nl s' with
           | h :: t => String c h :: t
           | [] => [String c EmptyString]
           end
  end.

(** [sub in s] *)
Fixpoint contains (sub s : string) : bool :=
  String.prefix sub s
  || match s with
     | EmptyString => false
     | String _ s' => contains sub s'
     end.

(** [s.replace(old, new)] for a non-empty [old]: occurrences are replaced
    from left to right without overlap.  [skip] counts the characters of
    an occurrence already replaced that are still to be passed over. *)
Fixpoint replace_from (skip : nat) (old new s : string) : string :=
  match s with
  | EmptyString => EmptyString
  | String c s' =>
      match skip with
      | S k => replace_from k old new s'
      | O =>
          if String.prefix old s
          then new ++ replace_from (String.length old - 1) old new s'
          else String c (replace_from 0 old new s')
      end
  end.

Definition replace (old new s : string) : string := replace_from 0 old new s.

(** Concatenation of a list of pieces, as [+=] in a loop builds it. *)
Definition join (parts : list string) : string := String.concat EmptyString parts.

End PyStr.

(* ===================================================================== *)
(** * Data model, collaborators and effects *)
(* ===================================================================== *)

Module Model.

Inductive Role : Type := system | user | assistant.

(** [{"role": ..., "content": ...}] *)
Record Message : Type := mkMessage { role : Role; content : string }.

(** How a call ends: with a value, or with an exception that leaves
    it. *)
Inductive Outcome (E A : Type) : Type :=
| Ok (a : A)
| Raise (e : E).
Arguments Ok {E A} a.
Arguments Raise {E A} e.

(** Where only an [Exception] can be raised, it is kept as its
    [str(e)]. *)
Abbreviation Result := (Outcome string).

(** The exceptions as the handlers of the sources tell them apart.  An
    [Error] is an instance of [Exception], kept as its [str(e)]: every
    [except Exception] catches it.  [KeyboardInterrupt] is no
    [Exception]: only the handler of line 274 of [run] catches it.
    [SystemExit], which [sys.exit()] raises, stands for every other
    exception that is no [Exception]: no handler of the sources catches
    it.

    The sources raise neither of the last two themselves.  They are
    taken where the input decides them or the sources provide for them:
    in what leaves a script that [exec] runs, and at the prompts of the
    driver [run].  An interrupt of the user in the middle of another call
    (the model, retrieval, a shell command, a prompt of the executors) is
    outside the model. *)
Inductive Exc : Type :=
| Error (e : string)
| KeyboardInterrupt
| SystemExit.

(** What the user and the operating system answer is not decided by the
    program; a collaborator hands it over as an answer value. *)

(** [Confirm.ask] followed by [subprocess.run]: the user declines, the
    command runs to completion with its two captured streams, or an
    exception is raised inside the [try] of [execute_bash_command]. *)
Inductive BashAnswer : Type :=
| BashDeclined
| BashRan (stdout stderr : string)
| BashRaised (e : string).

(** The three choices of [Prompt.ask] in [execute_python_code] with what
    follows each: the file name and the exception of the write, if any;
    the captured standard output of [exec] or the exception that the
    script raises, which is whatever the script makes it: an [Exception],
    or none, as when the script calls [sys.exit()].  A prompt that fails,
    as on a closed input, raises outside every [try] of the function. *)
Inductive PyAnswer : Type :=
| PyCancel
| PySave (filename : string) (write_error : option string)
| PyRun (outcome : Outcome Exc string)
| PyPromptRaised (e : string).

(** [ollama.chat(..., stream=True)] raises, or returns a stream that
    yields chunks and then ends or raises.  A chunk without
    [chunk['message']['content']] is [None]. *)
Inductive ChatOutcome : Type :=
| ChatRaised (e : string)
| ChatStream (chunks : list (option string)) (failure : option string).

(** The interactions with the collaborators and the entries into the turn
    engine, in the order they happen.  The trace is ghost state: the
    program does not read it. *)
Inductive Event : Type :=
| EvTurn (processing_code : bool)
| EvRetrieve (query : string)
| EvChat (messages : list Message)
| EvPython (code : string)
| EvBash (command : string).

(** The collaborators over a world [W] they may read and change. *)
Record Env (W : Type) : Type := mkEnv {
  get_relevant_context : string -> W -> string * W;
  ollama_chat : string -> list Message -> W -> ChatOutcome * W;
  ask_python : string -> W -> PyAnswer * W;
  ask_bash : string -> W -> BashAnswer * W
}.
Arguments mkEnv {W} _ _ _ _.
Arguments get_relevant_context {W} _ _ _.
Arguments ollama_chat {W} _ _ _ _.
Arguments ask_python {W} _ _ _.
Arguments ask_bash {W} _ _ _.

Record St (W : Type) : Type := mkSt { world : W; trace : list Event }.
Arguments mkSt {W} _ _.
Arguments world {W} _.
Arguments trace {W} _.

(** The state monad of the executors and of the engine. *)
Definition M (W A : Type) : Type := St W -> A * St W.

Definition ret {W A} (a : A) : M W A := fun st => (a, st).

Definition bind {W A B} (c : M W A) (k : A -> M W B) : M W B :=
  fun st => let (a, st') := c st in k a st'.

Definition log {W} (e : Event) : M W unit :=
  fun st => (tt, mkSt (world st) (trace st ++ [e])%list).

(** A call to a collaborator: the event is recorded, then the world
    answers. *)
Definition call {W A} (e : Event) (f : W -> A * W) : M W A :=
  fun st => let (a, w) := f (world st) in (a, mkSt w (trace st ++ [e])%list).

Module Notations.
Notation "x <- c ;; k" := (bind c (fun x => k))
  (at level 61, c at next level, right associativity).
Notation "c ;;; k" := (bind c (fun _ => k))
  (at level 61, right associativity).
End Notations.

End Model.

(* ===================================================================== *)
(** * [src/utils.py] *)
(* ===================================================================== *)

Module Utils.
Import PyStr Model Model.Notations.

(** The closing fence of every pattern. *)
Definition fence : string := "```".

(** The lazy group [(.*?)] followed by the closing fence, under
    [re.DOTALL]: the shortest text up to the first closing fence.  The
    result is the captured group and what follows the fence. *)
Fixpoint lazy_until_fence (s : string) : option (string * string) :=
  if String.prefix fence s then Some (EmptyString, drop 3 s)
  else match s with
       | EmptyString => None
       | String c s' =>
           match lazy_until_fence s' with
           | Some (body, rest) => Some (String c body, rest)
           | None => None
           end
       end.

(** One attempt of the pattern [opening(.*?)```] at the start of [s]. *)
Definition match_here (opening s : string) : option (string * string) :=
  if String.prefix opening s
  then lazy_until_fence (drop (String.length opening) s)
  else None.

(** [re.findall(opening + '(.*?)```', text, re.DOTALL | re.MULTILINE)]:
    the groups of the successive non-overlapping matches, scanning from the
    left; after a match the scan resumes behind its closing fence.  The
    fuel bounds the number of scan steps. *)
Fixpoint findall_from (fuel : nat) (opening s : string) : list string :=
  match fuel with
  | O => []
  | S fuel' =>
      match match_here opening s with
      | Some (body, rest) => body :: findall_from fuel' opening rest
      | None =>
          match s with
          | EmptyString => []
          | String _ s' => findall_from fuel' opening s'
          end
      end
  end.

Definition re_findall (opening text : string) : list string :=
  findall_from (S (String.length text)) opening text.

(** The literal openings of [bash_patterns] and [python_patterns]. *)
Definition bash_patterns : list string :=
  [ "```bash" ++ NL; "```" ++ NL ++ "$ "; "```bash" ++ NL ++ "$ " ].

Definition python_patterns : list string :=
  [ "```python" ++ NL; "```py" ++ NL ].

(** [for pattern in patterns: matches = re.findall(...);
     if matches: blocks.append(matches[0]); break] *)
Fixpoint first_block (patterns : list string) (text : string) : list string :=
  match patterns with
  | [] => []
  | p :: ps =>
      match re_findall p text with
      | m :: _ => [m]
      | [] => first_block ps text
      end
  end.

(** The inner [for line in command_lines] loop: [clean_command] at its end. *)
Fixpoint scan_command (command_lines : list string) : option string :=
  match command_lines with
  | [] => None
  | line :: more =>
      let line := strip line in
      if negb (truthy line) || startswith "#" line then scan_command more
      else
        let line := if startswith "$" line then strip (drop 1 line) else line in
        if truthy line then Some line else scan_command more
  end.

(** The body of [for block in bash_blocks]. *)
Definition clean_bash (block : string) : list string :=
  match scan_command (split_nl (strip block)) with
  | Some clean_command =>
      if truthy clean_command then [clean_command] else []
  | None => []
  end.

(** The body of [for block in python_blocks]. *)
Definition clean_python (block : string) : string :=
  let code := strip block in
  if contains "**name**" code then replace "**name**" "__name__" code
  else code.

Definition extract_code_blocks (text : string) : list string * list string :=
  let bash_blocks := first_block bash_patterns text in
  let python_blocks := first_block python_patterns text in
  let clean_bash_blocks := flat_map clean_bash bash_blocks in
  let clean_python_blocks := map clean_python python_blocks in
  (clean_bash_blocks, clean_python_blocks).




(** ** The executors *)

Section Executors.
Context {W : Type} (env : Env W).

(** [command.strip()], then one leading [$] removed (lines 28-32). *)
Definition clean_command (command : string) : string :=
  let c := strip command in
  if startswith "$" c then strip (drop 1 c) else c.

(** [if s and not s.endswith('\n'): s += '\n'] *)
Definition ensure_newline (s : string) : string :=
  if truthy s && negb (endswith NL s) then s ++ NL else s.

(** [execute_bash_command].  [None] is Python's [None]; an exception
    raised inside the [try] is turned into [(None, str(e))]. *)
Definition execute_bash_command (command : string)
  : M W (option string * option string) :=
  let clean_command := clean_command command in
  answer <- call (EvBash clean_command) (ask_bash env clean_command) ;;
  match answer with
  | BashRan stdout stderr =>
      ret (Some (ensure_newline stdout), Some (ensure_newline stderr))
  | BashDeclined => ret (None, None)
  | BashRaised e => ret (None, Some e)
  end.

(** [execute_python_code].  The handler of line 122 is an
    [except Exception]: what the script raises is turned into a text when
    it is an [Exception] and leaves the function otherwise. *)
Definition execute_python_code (code : string) : M W (Outcome Exc string) :=
  answer <- call (EvPython code) (ask_python env code) ;;
  match answer with
  | PyCancel => ret (Ok EmptyString)
  | PySave filename None =>
      ret (Ok ("C" ++ o_acute ++ "digo guardado en " ++ filename))
  | PySave filename (Some e) =>
      ret (Ok ("Error al guardar el archivo: " ++ e))
  | PyRun (Ok result) => ret (Ok result)
  | PyRun (Raise (Error e)) => ret (Ok ("Error: " ++ e))
  | PyRun (Raise x) => ret (Raise x)
  | PyPromptRaised e => ret (Raise (Error e))
  end.

End Executors.

End Utils.

(* ===================================================================== *)
(** * [src/ai_assistant.py]: the turn engine *)
(* ===================================================================== *)

Module Assistant.
Import PyStr Model Model.Notations Utils.

Definition system_commands : list string :=
  ["/help"; "/exit"; "/ihtml"; "/model"; "/rag"; "/clear_rag"].

(** [any(query.startswith(cmd) for cmd in system_commands)] *)
Definition is_system_command (query : string) : bool :=
  existsb (fun cmd => startswith cmd query) system_commands.

Definition enhanced_system_message (sys context : string) : string :=
  sys ++ NL ++ NL
  ++ "Contexto relevante para responder a la pregunta del usuario:" ++ NL
  ++ context ++ NL ++ NL
  ++ "Utiliza este contexto para dar una respuesta precisa, pero no menciones expl"
  ++ i_acute ++ "citamente que est" ++ a_acute ++ "s usando contexto.".

(** [output or ''] *)
Definition or_empty (o : option string) : string :=
  match o with Some s => s | None => EmptyString end.

Definition is_not_None {A} (o : option A) : bool :=
  match o with Some _ => true | None => false end.

(** [f"Resultado de la ejecuci\xf3n:\n{result}"] *)
Definition python_execution_result (result : string) : string :=
  "Resultado de la ejecuci" ++ o_acute ++ "n:" ++ NL ++ result.

(** [f"Resultado de '{command}':\n{output or ''}{error or ''}"] *)
Definition bash_execution_result (command : string)
    (output error : option string) : string :=
  "Resultado de '" ++ command ++ "':" ++ NL
  ++ or_empty output ++ or_empty error.

(** The pieces of a stream that carry content, in order. *)
Fixpoint response_parts (chunks : list (option string)) : list string :=
  match chunks with
  | [] => []
  | Some part :: more => part :: response_parts more
  | None :: more => response_parts more
  end.

(** How control leaves a statement inside the inner [try] (lines
    119-150): on to the next statement, by an exception that the
    [except Exception] of line 149 catches, by [return], or by an
    exception that is no [Exception] and passes that handler. *)
Inductive Flow : Type :=
| FallThrough
| Caught (e : string)
| Return (h : list Message)
| Uncaught (x : Exc).

(** An exception that reaches the handler of line 149. *)
Definition raised (x : Exc) : Flow :=
  match x with
  | Error e => Caught e
  | KeyboardInterrupt | SystemExit => Uncaught x
  end.

(** How one pass through the body of [while not response_complete]
    ends: by [return], at the end of the body, or by an exception that
    passes the handler of line 154 as well. *)
Inductive Step : Type :=
| Returned (h : list Message)
| Looping (history : list Message) (response_complete : bool)
| Escaped (x : Exc).

Section Engine.
Context {W : Type} (env : Env W) (model : string).

(** The type of [self.interact_with_model]; [None] stands for a call
    that did not finish within the call depth or the number of loop
    passes it was given. *)
Definition Self : Type :=
  list Message -> string -> bool ->
  M W (option (Outcome Exc (list Message))).

(** Lines 53-81: the history sent to the model. *)
Definition current_messages (messages : list Message) (query : string)
    (processing_code : bool) : M W (Result (list Message)) :=
  if negb processing_code then
    if negb (is_system_command query) then
      context <- call (EvRetrieve query) (get_relevant_context env query) ;;
      if truthy context then
        match messages with
        | [] => ret (Raise "list index out of range")
        | m0 :: rest =>
            ret (Ok (mkMessage system
                       (enhanced_system_message (content m0) context)
                     :: rest))
        end
      else ret (Ok messages)
    else ret (Ok messages)
  else ret (Ok messages).

(** [new_messages = messages.copy()] and the two [append]s. *)
Definition new_messages (messages : list Message)
    (full_response execution_result : string) : list Message :=
  (messages ++ [mkMessage assistant full_response;
                mkMessage user execution_result])%list.

(** [return self.interact_with_model(new_messages, execution_result, True)].
    An exception of the callee would reach the handler of line 149. *)
Definition recurse (self : Self) (messages : list Message)
    (full_response execution_result : string) : M W (option Flow) :=
  r <- self (new_messages messages full_response execution_result)
         execution_result true ;;
  ret (match r with
       | None => None
       | Some (Ok h) => Some (Return h)
       | Some (Raise x) => Some (raised x)
       end).

(** Lines 127-136. *)
Definition try_python (self : Self) (messages : list Message)
    (full_response : string) (python_blocks : list string)
  : M W (option Flow) :=
  match python_blocks with
  | code :: _ =>
      r <- execute_python_code env code ;;
      match r with
      | Raise x => ret (Some (raised x))
      | Ok result =>
          if truthy result then
            recurse self messages full_response
              (python_execution_result result)
          else ret (Some FallThrough)
      end
  | [] => ret (Some FallThrough)
  end.

(** Lines 139-147. *)
Definition try_bash (self : Self) (messages : list Message)
    (full_response : string) (bash_blocks : list string)
  : M W (option Flow) :=
  match bash_blocks with
  | command :: _ =>
      r <- execute_bash_command env command ;;
      let (output, error) := r in
      if is_not_None output || is_not_None error then
        recurse self messages full_response
          (bash_execution_result command output error)
      else ret (Some FallThrough)
  | [] => ret (Some FallThrough)
  end.

(** Lines 119-150, the inner [try] without its handler. *)
Definition process_code (self : Self) (messages : list Message)
    (full_response : string) : M W (option Flow) :=
  let (bash_blocks, python_blocks) := extract_code_blocks full_response in
  f <- try_python self messages full_response python_blocks ;;
  match f with
  | Some FallThrough => try_bash self messages full_response bash_blocks
  | _ => ret f
  end.

(** Lines 87-157: one pass through the body of the [while]. *)
Definition iteration (self : Self) (messages : list Message)
    (processing_code : bool) (history : list Message)
  : M W (option Step) :=
  out <- call (EvChat history) (ollama_chat env model history) ;;
  match out with
  | ChatRaised e =>
      ret (Some (Returned
             (messages ++ [mkMessage assistant
                             ("Error conectando con Ollama: " ++ e)])%list))
  | ChatStream _ (Some e) =>
      ret (Some (Looping
             (history ++ [mkMessage assistant ("Error: " ++ e)])%list true))
  | ChatStream chunks None =>
      let full_response := join (response_parts chunks) in
      let history :=
        (history ++ [mkMessage assistant full_response])%list in
      if negb processing_code then
        f <- process_code self messages full_response ;;
        ret (match f with
             | None => None
             | Some (Return h) => Some (Returned h)
             | Some FallThrough | Some (Caught _) =>
                 Some (Looping history true)
             | Some (Uncaught x) => Some (Escaped x)
             end)
      else ret (Some (Looping history true))
  end.

(** [while not response_complete: ...] and the final [return history],
    with at most [passes] passes through the body. *)
Fixpoint while_not_complete (passes : nat)
    (body : list Message -> M W (option Step))
    (history : list Message) (response_complete : bool)
  : M W (option (Outcome Exc (list Message))) :=
  if response_complete then ret (Some (Ok history))
  else
    match passes with
    | O => ret None
    | S n =>
        s <- body history ;;
        match s with
        | None => ret None
        | Some (Returned h) => ret (Some (Ok h))
        | Some (Looping h rc) => while_not_complete n body h rc
        | Some (Escaped x) => ret (Some (Raise x))
        end
    end.

(** The body of [interact_with_model], its calls to itself going to
    [self]. *)
Definition interact_with_model_body (self : Self) (passes : nat)
    (messages : list Message) (query : string) (processing_code : bool)
  : M W (option (Outcome Exc (list Message))) :=
  log (EvTurn processing_code) ;;;
  cur <- current_messages messages query processing_code ;;
  match cur with
  | Raise e => ret (Some (Raise (Error e)))
  | Ok history =>
      while_not_complete passes
        (iteration self messages processing_code) history false
  end.

(** [interact_with_model] with a bound on the depth of its calls and on
    the passes of its loop. *)
Fixpoint interact_with_model (depth passes : nat) {struct depth} : Self :=
  match depth with
  | O => fun _ _ _ => ret None
  | S d => interact_with_model_body (interact_with_model d passes) passes
  end.

(** The ordinary-query branch of [run] (lines 271-272):
    [history.append(...)], then [history] is rebound to what the engine
    returns; an exception leaves the appended list in place. *)
Definition run_query (depth passes : nat) (history : list Message)
    (user_input : string) : M W (option (list Message)) :=
  let history := (history ++ [mkMessage user user_input])%list in
  r <- interact_with_model depth passes history user_input false ;;
  ret (match r with
       | None => None
       | Some (Ok h) => Some h
       | Some (Raise _) => Some history
       end).

End Engine.

End Assistant.

(* ===================================================================== *)
(** * A scripted world, for running the engine on concrete inputs *)
(* ===================================================================== *)

Module Scripted.
Import PyStr Model.

(** The answers still to be given, each list in the order of the calls;
    retrieval is a function of the query. *)
Record World : Type := mkWorld {
  retrieval : string -> string;
  chats : list ChatOutcome;
  pythons : list PyAnswer;
  bashes : list BashAnswer
}.

Definition env : Env World :=
  mkEnv
    (fun query w => (retrieval w query, w))
    (fun _ _ w =>
       match chats w with
       | [] => (ChatRaised "connection refused", w)
       | c :: cs => (c, mkWorld (retrieval w) cs (pythons w) (bashes w))
       end)
    (fun _ w =>
       match pythons w with
       | [] => (PyCancel, w)
       | a :: more => (a, mkWorld (retrieval w) (chats w) more (bashes w))
       end)
    (fun _ w =>
       match bashes w with
       | [] => (BashDeclined, w)
       | a :: more => (a, mkWorld (retrieval w) (chats w) (pythons w) more)
       end).

Definition start (w : World) : St World := mkSt w [].

(** A model that answers with the given texts, one per call. *)
Definition says (texts : list string) : list ChatOutcome :=
  map (fun t => ChatStream [Some t] None) texts.

Definition no_context : string -> string := fun _ => EmptyString.

Definition model_name : string := "qwen2.5-coder:7b".

Definition sys : Message := mkMessage system "You are an assistant.".

(** The history as [run] hands it over: the system message and the query
    just appended. *)
Definition hist : list Message := [sys; mkMessage user "q"].

Definition script_only : string :=
  "```python" ++ NL ++ "print(1)" ++ NL ++ "```".

Definition shell_only : string := "```bash" ++ NL ++ "ls" ++ NL ++ "```".

Definition script_and_shell : string := script_only ++ NL ++ shell_only.

(** The world once the next answer of a kind has been given. *)
Definition after_chat (w : World) : World :=
  mkWorld (retrieval w) (tl (chats w)) (pythons w) (bashes w).

Definition after_python (w : World) : World :=
  mkWorld (retrieval w) (chats w) (tl (pythons w)) (bashes w).

Definition after_bash (w : World) : World :=
  mkWorld (retrieval w) (chats w) (pythons w) (tl (bashes w)).

(** The state of a top-level turn on [hist] at the answer of the model,
    when retrieval found nothing. *)
Definition answered (w : World) : St World :=
  mkSt (after_chat w) [EvTurn false; EvRetrieve "q"; EvChat hist].

Definition saved_text : string := "C" ++ o_acute ++ "digo guardado en script.py".

(** Retrieval finds context; the model answers without code. *)
Definition world_context : World :=
  mkWorld (fun _ => "CTX") (says ["hello"; "again"]) [] [].

(** Retrieval finds context; the call that opens the chat raises. *)
Definition world_down : World := mkWorld (fun _ => "CTX") [] [] [].

(** Retrieval finds context; the chat is opened, and the stream fails
    when its first piece is asked for. *)
Definition world_stream_down : World :=
  mkWorld (fun _ => "CTX") [ChatStream [] (Some "connection refused")] [] [].

(** The script is run and prints; a shell block stands behind it. *)
Definition world_run : World :=
  mkWorld no_context (says [script_and_shell; "done"])
    [PyRun (Ok ("1" ++ NL))] [BashRan ("file.txt" ++ NL) EmptyString].

(** The user saves the script. *)
Definition world_save : World :=
  mkWorld no_context (says [script_only; "saved"])
    [PySave "script.py" None] [].

(** The user cancels the script; a shell block stands behind it and is
    confirmed. *)
Definition world_cancel : World :=
  mkWorld no_context (says [script_and_shell; "listed"])
    [PyCancel] [BashRan ("file.txt" ++ NL) EmptyString].

(** The user cancels the script; there is no shell block. *)
Definition world_cancel_only : World :=
  mkWorld no_context (says [script_only; "unused"]) [PyCancel] [].

(** The scenario of the specification: a bash block, confirmed. *)
Definition world_shell : World :=
  mkWorld no_context (says [shell_only; "listed"])
    [] [BashRan ("file.txt" ++ NL) EmptyString].

(** The shell command is confirmed and prints nothing. *)
Definition world_silent : World :=
  mkWorld no_context (says [shell_only; "nothing"])
    [] [BashRan EmptyString EmptyString].

(** The user declines the shell command. *)
Definition world_declined : World :=
  mkWorld no_context (says [shell_only; "unused"]) [] [BashDeclined].

End Scripted.

(* ===================================================================== *)
(** * Notions used to state the properties *)
(* ===================================================================== *)

Module Notions.
Import PyStr Model Utils Assistant.

(** A line of a block is blank when nothing is left of it after stripping,
    a comment when what is left starts with the comment marker. *)
Definition blank_or_comment (line : string) : bool :=
  let l := strip line in negb (truthy l) || startswith "#" l.

(** One leading prompt marker and the whitespace behind it removed. *)
Definition strip_prompt (line : string) : string :=
  if startswith "$" line then strip (drop 1 line) else line.

(** A stripped line that is neither blank nor a comment. *)
Definition qualifying (l : string) : bool :=
  truthy l && negb (startswith "#" l).

(** A qualifying line of which something is left behind the prompt
    marker. *)
Definition actionable (l : string) : bool :=
  qualifying l && truthy (strip_prompt l).

(** The shell blocks when the command is the first qualifying line of the
    block with its prompt marker stripped. *)
Definition first_qualifying_line (block : string) : list string :=
  match find qualifying (map strip (split_nl block)) with
  | Some l => [strip_prompt l]
  | None => []
  end.

(** The shell blocks when the command is the first actionable line of the
    block with its prompt marker stripped. *)
Definition first_actionable_line (block : string) : list string :=
  match find actionable (map strip (split_nl block)) with
  | Some l => [strip_prompt l]
  | None => []
  end.

(** The stripped lines of [s] that are not blank, when [p] is what has been
    read of the current line before [s]. *)
Definition lines_after (p s : string) : list string :=
  match split_nl s with
  | h :: t => (p ++ h) :: t
  | [] => [p]
  end.

Definition nonblank_lines (p s : string) : list string :=
  filter truthy (map strip (lines_after p s)).

(** The example of the specification: a comment line, then a command
    behind a prompt marker. *)
Definition commented_ls : string :=
  "```bash" ++ NL ++ "# comment" ++ NL ++ "$ ls -la" ++ NL ++ "```".

(** A block of one comment line and one blank line. *)
Definition comment_only_block : string := "# nothing to run" ++ NL ++ "  " ++ NL.

Definition comment_only_text : string :=
  "```bash" ++ NL ++ comment_only_block ++ "```".

(** A block whose first qualifying line is a bare prompt marker. *)
Definition bare_prompt_block : string := "$" ++ NL ++ "ls" ++ NL.

Definition bare_prompt_text : string :=
  "```bash" ++ NL ++ bare_prompt_block ++ "```".

(** The assistant message that closes a turn, by what the model call
    gave: the error of the connection, the error of the stream, or the full
    response. *)
Definition closing_message (out : ChatOutcome) : Message :=
  mkMessage assistant
    match out with
    | ChatRaised e => "Error conectando con Ollama: " ++ e
    | ChatStream _ (Some e) => "Error: " ++ e
    | ChatStream chunks None => join (response_parts chunks)
    end.

(** Entries into the turn engine and calls of the model in a trace. *)
Definition count_turns (evs : list Event) : nat :=
  List.length (filter (fun e => match e with EvTurn _ => true | _ => false end) evs).

Definition count_chats (evs : list Event) : nat :=
  List.length (filter (fun e => match e with EvChat _ => true | _ => false end) evs).

Definition is_exec_event (e : Event) : bool :=
  match e with EvPython _ | EvBash _ => true | _ => false end.

Definition is_bash_event (e : Event) : bool :=
  match e with EvBash _ => true | _ => false end.

Definition is_retrieve_event (e : Event) : bool :=
  match e with EvRetrieve _ => true | _ => false end.

(** What [execute_bash_command] returns, by the answer of the world. *)
Definition bash_result (answer : BashAnswer) : option string * option string :=
  match answer with
  | BashRan stdout stderr =>
      (Some (ensure_newline stdout), Some (ensure_newline stderr))
  | BashDeclined => (None, None)
  | BashRaised e => (None, Some e)
  end.

(** What [execute_python_code] returns, by the answer of the world. *)
Definition python_result (answer : PyAnswer) : Outcome Exc string :=
  match answer with
  | PyCancel => Ok EmptyString
  | PySave filename None =>
      Ok ("C" ++ o_acute ++ "digo guardado en " ++ filename)
  | PySave filename (Some e) => Ok ("Error al guardar el archivo: " ++ e)
  | PyRun (Ok result) => Ok result
  | PyRun (Raise (Error e)) => Ok ("Error: " ++ e)
  | PyRun (Raise x) => Raise x
  | PyPromptRaised e => Raise (Error e)
  end.

(** What may follow the answer of the model in a top-level turn: at most
    one more entry into the engine, at most one more call of the model, and
    no retrieval. *)
Definition follow_up (evs : list Event) : bool :=
  Nat.leb (count_turns evs) 1 && Nat.leb (count_chats evs) 1
  && negb (existsb is_retrieve_event evs).

(** A top-level turn up to the answer of the model: the history sent, the
    full response and the state reached, when the history could be built
    and the stream ended without error. *)
Definition model_answers {W} (env : Env W) (model : string)
    (messages : list Message) (query : string) (st : St W)
  : option (list Message * string * St W) :=
  match current_messages env messages query false
          (snd (log (EvTurn false) st)) with
  | (Ok cur, st1) =>
      match call (EvChat cur) (ollama_chat env model cur) st1 with
      | (ChatStream chunks None, st2) =>
          Some (cur, join (response_parts chunks), st2)
      | _ => None
      end
  | (Raise _, _) => None
  end.

(** How a top-level turn ends once the inner [try] is left. *)
Definition finish (cur : list Message) (full_response : string)
    (f : option Flow) : option (Outcome Exc (list Message)) :=
  match f with
  | None => None
  | Some (Return h) => Some (Ok h)
  | Some FallThrough | Some (Caught _) =>
      Some (Ok (cur ++ [mkMessage assistant full_response])%list)
  | Some (Uncaught x) => Some (Raise x)
  end.

End Notions.

From Stdlib Require Import ZArith.
From Stdlib Require DecimalString.

(* ===================================================================== *)
(** * Further notions: texts and commands *)
(* ===================================================================== *)

Module TextNotions.
Import PyStr Model Utils Notions.

(** Every character of [s] passes the test [f]. *)
Fixpoint all_chars (f : ascii -> bool) (s : string) : bool :=
  match s with
  | EmptyString => true
  | String c s' => f c && all_chars f s'
  end.

Definition backtick : ascii := "`"%char.

(** No backtick occurs in [s]. *)
Definition no_backtick (s : string) : bool :=
  all_chars (fun c => negb (Ascii.eqb c backtick)) s.

(** No line feed occurs in [s]. *)
Definition single_line (s : string) : bool :=
  all_chars (fun c => negb (Ascii.eqb c nl)) s.

(** [s] does not begin with whitespace. *)
Definition begins_tight (s : string) : bool :=
  match s with
  | EmptyString => true
  | String c _ => negb (is_space c)
  end.

(** The opening fences that the first pattern of each kind looks for. *)
Definition bash_fence : string := "```bash" ++ NL.
Definition python_fence : string := "```python" ++ NL.

(** The dunder marker as some models render it, and as Python spells it. *)
Definition starred_name : string := "**name**".
Definition dunder_name : string := "__name__".

End TextNotions.

(* ===================================================================== *)
(** * Further notions: turns *)
(* ===================================================================== *)

Module TurnNotions.
Import PyStr Model Utils Assistant Notions.

(** The history with its first message replaced by the enhanced system
    message, as lines 66-72 build it. *)
Definition augmented (messages : list Message) (context : string)
  : list Message :=
  match messages with
  | [] => []
  | m0 :: rest =>
      mkMessage system (enhanced_system_message (content m0) context) :: rest
  end.

(** The three forms of a history that a top-level turn returns: the input
    and one assistant message; the augmented input and one assistant
    message; the input, the assistant response, the execution report and
    the closing assistant message. *)
Definition plain_turn (messages h : list Message) : Prop :=
  exists a, h = (messages ++ [mkMessage assistant a])%list.

Definition augmented_turn (messages h : list Message) : Prop :=
  exists a context,
    truthy context = true
    /\ h = (augmented messages context ++ [mkMessage assistant a])%list.

Definition nested_turn (messages h : list Message) : Prop :=
  exists a u a',
    h = (messages ++ [mkMessage assistant a; mkMessage user u;
                      mkMessage assistant a'])%list.

(** The flow of the inner [try], when it is a [return], returns a nested
    turn on [messages] whose first added message is the response. *)
Definition returns_nested (messages : list Message) (full : string)
    (f : Flow) : Prop :=
  match f with
  | Return h =>
      exists er out,
        h = (messages ++ [mkMessage assistant full; mkMessage user er;
                          closing_message out])%list
  | FallThrough | Caught _ | Uncaught _ => True
  end.

(** The top-level turn on [messages] and [query] that starts in [st]
    receives a response with a script, the user has it run and the script
    raises [x]; [st'] is the state at that point. *)
Definition script_raises {W} (env : Env W) (model : string)
    (messages : list Message) (query : string) (st : St W) (x : Exc)
    (st' : St W) : Prop :=
  exists cur full st2 bs code ps w3,
    model_answers env model messages query st = Some (cur, full, st2)
    /\ extract_code_blocks full = (bs, code :: ps)
    /\ ask_python env code (world st2) = (PyRun (Raise x), w3)
    /\ st' = mkSt w3 (trace st2 ++ [EvPython code])%list.

(** [isinstance(x, Exception)] *)
Definition is_Exception (x : Exc) : bool :=
  match x with
  | Error _ => true
  | KeyboardInterrupt | SystemExit => false
  end.

(** The retrieval events of a top-level turn on [query]. *)
Definition retrievals (query : string) : list Event :=
  if is_system_command query then [] else [EvRetrieve query].

End TurnNotions.

(* ===================================================================== *)
(** * Further scripted worlds *)
(* ===================================================================== *)

Module MoreWorlds.
Import PyStr Model Scripted.

(** The command prints on both streams without a final line feed. *)
Definition world_unterminated : World :=
  mkWorld no_context [] [] [BashRan "file.txt" "warning"].

(** The stream of the model breaks after a first piece that holds a
    script. *)
Definition world_broken_stream : World :=
  mkWorld no_context [ChatStream [Some script_only] (Some "reset by peer")]
    [PyRun (Ok "1")] [].

(** The script prompt fails; a shell block stands behind the script. *)
Definition world_prompt_fails : World :=
  mkWorld no_context (says [script_and_shell; "unused"])
    [PyPromptRaised "EOF"] [BashRan "x" EmptyString].

(** The script runs and prints nothing; the shell block behind it is
    confirmed. *)
Definition world_silent_script : World :=
  mkWorld no_context (says [script_and_shell; "listed"])
    [PyRun (Ok EmptyString)] [BashRan ("file.txt" ++ NL) EmptyString].

(** The model answers in prose. *)
Definition world_prose : World :=
  mkWorld no_context (says ["Use the ls command."]) [] [].

(** The script calls [sys.exit()]. *)
Definition world_script_exits : World :=
  mkWorld no_context (says [script_only; "unused"])
    [PyRun (Raise SystemExit)] [].

(** The script raises [KeyboardInterrupt]. *)
Definition world_script_interrupts : World :=
  mkWorld no_context (says [script_only; "unused"])
    [PyRun (Raise KeyboardInterrupt)] [].

(** The script raises an [Exception]. *)
Definition world_script_fails : World :=
  mkWorld no_context (says [script_only; "sorry"])
    [PyRun (Raise (Error "division by zero"))] [].

End MoreWorlds.


(* ===================================================================== *)
(** * [src/ai_assistant.py]: the session driver [run] *)
(* ===================================================================== *)

Module Driver.
Import PyStr Model Model.Notations Utils Assistant.


(** [str.lower()] on one character, restricted to code points below 256:
    the letters A-Z and U+00C0..U+00DE without the multiplication sign
    U+00D7 move up by 32. *)
Definition lower_char (c : ascii) : ascii :=
  let n := N_of_ascii c in
  if ((65 <=? n) && (n <=? 90)
      || (192 <=? n) && (n <=? 222) && negb (n =? 215))%N
  then ascii_of_N (n + 32) else c.

(** [s.lower()] *)
Fixpoint lower (s : string) : string :=
  match s with
  | EmptyString => EmptyString
  | String c s' => String (lower_char c) (lower s')
  end.


(** What the driver asks of its surroundings besides the engine: the
    indexing operations of the retrieval system, the confirmation prompt
    and the file system.  [add_html_from_url] and [clear_database] catch
    every exception themselves; [index_documents] lists the directory
    outside its [try], so it can raise; a prompt can fail, and the user can
    interrupt it. *)
Record DriverEnv (W : Type) : Type := mkDriverEnv {
  add_html_from_url : string -> W -> bool * W;
  index_documents : string -> W -> Result bool * W;
  clear_database : W -> bool * W;
  confirm : string -> W -> Outcome Exc bool * W;
  path_exists : string -> W -> bool * W;
  has_regular_file : string -> W -> Result bool * W
}.
Arguments mkDriverEnv {W} _ _ _ _ _ _.
Arguments add_html_from_url {W} _ _ _.
Arguments index_documents {W} _ _ _.
Arguments clear_database {W} _ _.
Arguments confirm {W} _ _ _.
Arguments path_exists {W} _ _ _.
Arguments has_regular_file {W} _ _ _.

(** A call that leaves no event of the engine in the trace. *)
Definition ask {W A} (f : W -> A * W) : M W A :=
  fun st => let (a, w) := f (world st) in (a, mkSt w (trace st)).

(** What the prompt [>>>] delivers: a line, or the interrupt of the
    user ([KeyboardInterrupt], taken at the prompt).  Inside a turn the
    exceptions that are no [Exception] are those that leave a script. *)
Inductive UserInput : Type :=
| Line (user_input : string)
| Interrupt.

(** The part of the assistant that [run] changes: [self.model] and the
    local [history]. *)
Record Session : Type := mkSession {
  session_model : string;
  history : list Message
}.

(** How one pass through [while self.running] ends: [continue] or the end
    of the body, [break], or an exception that leaves [run]. *)
Inductive Next : Type :=
| Continue
| Break
| Escapes (x : Exc).

Definition clear_question : string :=
  "[yellow]" ++ String "191"%char EmptyString ++ "Est" ++ a_acute
  ++ "s seguro de que deseas limpiar toda la base de datos RAG?[/yellow]".

Definition exit_question : string :=
  NL ++ String "191"%char EmptyString ++ "Deseas salir?".

(** The six tests of lines 210-261, in their order: the input is handled
    by the driver itself. *)
Definition is_driver_command (user_input : string) : bool :=
  String.eqb (lower user_input) "/exit"
  || String.eqb (lower user_input) "/help"
  || startswith "/ihtml " (lower user_input)
  || startswith "/model " (lower user_input)
  || String.eqb (lower user_input) "/rag"
  || String.eqb (lower user_input) "/clear_rag".

Section Run.
Context {W : Type} (env : Env W) (denv : DriverEnv W) (docs_dir : string).

(** Lines 274-278: the handler of [KeyboardInterrupt].  An exception of
    its prompt leaves [run]. *)
Definition on_interrupt (s : Session) : M W (option (Next * Session)) :=
  answer <- ask (confirm denv exit_question) ;;
  ret (Some (match answer with
             | Ok true => Break
             | Ok false => Continue
             | Raise x => Escapes x
             end, s)).

(** Lines 274-283: what becomes of an exception raised inside the [try].
    A [KeyboardInterrupt] goes to the handler of line 274; an [Exception]
    to the handler of line 279, which prints and goes on; any other
    leaves [run]. *)
Definition handlers (x : Exc) (s : Session) : M W (option (Next * Session)) :=
  match x with
  | KeyboardInterrupt => on_interrupt s
  | Error _ => ret (Some (Continue, s))
  | SystemExit => ret (Some (Escapes SystemExit, s))
  end.

(** Lines 207-283: the [try] of one pass with its handlers, for a line
    that was read.  When the turn engine is left by an exception, the user
    message appended at line 271 stays in the history. *)
Definition handle_line (depth passes : nat) (s : Session)
    (user_input : string) : M W (option (Next * Session)) :=
  if String.eqb (lower user_input) "/exit" then ret (Some (Break, s))
  else if String.eqb (lower user_input) "/help" then ret (Some (Continue, s))
  else if startswith "/ihtml " (lower user_input) then
    let url := strip (drop 7 user_input) in
    if truthy url then
      _ <- ask (add_html_from_url denv url) ;;
      ret (Some (Continue, s))
    else ret (Some (Continue, s))
  else if startswith "/model " (lower user_input) then
    let model_name := strip (drop 7 user_input) in
    if truthy model_name
    then ret (Some (Continue, mkSession model_name (history s)))
    else ret (Some (Continue, s))
  else if String.eqb (lower user_input) "/rag" then
    present <- ask (path_exists denv docs_dir) ;;
    if present then
      _ <- ask (index_documents denv docs_dir) ;;
      ret (Some (Continue, s))
    else ret (Some (Continue, s))
  else if String.eqb (lower user_input) "/clear_rag" then
    answer <- ask (confirm denv clear_question) ;;
    match answer with
    | Ok true =>
        _ <- ask (clear_database denv) ;;
        ret (Some (Continue, s))
    | Ok false => ret (Some (Continue, s))
    | Raise x => handlers x s
    end
  else
    let history := (history s ++ [mkMessage user user_input])%list in
    r <- interact_with_model env (session_model s) depth passes history
           user_input false ;;
    match r with
    | None => ret None
    | Some (Ok h) => ret (Some (Continue, mkSession (session_model s) h))
    | Some (Raise x) => handlers x (mkSession (session_model s) history)
    end.

(** One pass through the body of [while self.running]. *)
Definition run_step (depth passes : nat) (s : Session) (input : UserInput)
  : M W (option (Next * Session)) :=
  match input with
  | Line user_input => handle_line depth passes s user_input
  | Interrupt => on_interrupt s
  end.

(** The loop of [run] over the inputs that arrive; when they are used up
    the prompt is waiting. *)
Fixpoint run_loop (depth passes : nat) (s : Session)
    (inputs : list UserInput) : M W (option (Next * Session)) :=
  match inputs with
  | [] => ret (Some (Continue, s))
  | input :: more =>
      r <- run_step depth passes s input ;;
      match r with
      | Some (Continue, s') => run_loop depth passes s' more
      | _ => ret r
      end
  end.


End Run.

End Driver.

(* ===================================================================== *)
(** * Further notions: sessions *)
(* ===================================================================== *)

Module SessionNotions.
Import PyStr Model Utils Assistant Scripted Driver.

Definition is_system (r : Role) : bool :=
  match r with system => true | user | assistant => false end.

(** The history starts with a system message whose text begins with
    [sys]. *)
Definition led_by (sys : string) (h : list Message) : bool :=
  match h with
  | m :: _ => is_system (role m) && startswith sys (content m)
  | [] => false
  end.


Definition raised_in_loop {W} (env : Env W) (denv : DriverEnv W) (x : Exc)
  : Prop :=
  (exists w, fst (confirm denv exit_question w) = Raise x)
  \/ (x = SystemExit
      /\ ((exists w, fst (confirm denv clear_question w) = Raise SystemExit)
          \/ exists code w,
               fst (ask_python env code w) = PyRun (Raise SystemExit))).

(** Surroundings in which every indexing operation succeeds and every
    confirmation is given. *)
Definition obliging : DriverEnv World :=
  mkDriverEnv
    (fun _ w => (true, w))
    (fun _ w => (Ok true, w))
    (fun w => (true, w))
    (fun _ w => (Ok true, w))
    (fun _ w => (true, w))
    (fun _ w => (Ok true, w)).

(** Surroundings in which the user answers no to every question. *)
Definition staying : DriverEnv World :=
  mkDriverEnv
    (fun _ w => (true, w))
    (fun _ w => (Ok true, w))
    (fun w => (true, w))
    (fun _ w => (Ok false, w))
    (fun _ w => (true, w))
    (fun _ w => (Ok true, w)).

Definition docs : string := "./documents".

End SessionNotions.


(* ===================================================================== *)
(** * [src/rag_system.py]: retrieval *)
(* ===================================================================== *)

Module Rag.
Import PyStr Model Assistant.

(** A chunk as retrieval returns it: its text and the [source] of its
    metadata, when it has one. *)
Record Document : Type := mkDocument {
  page_content : string;
  source : option string
}.

(** [str(n)] of an [int]. *)
Definition str_of_Z (z : Z) : string :=
  DecimalString.NilZero.string_of_int (Z.to_int z).

(** The separator of the fragments. *)
Definition separator : string := NL ++ NL ++ "---" ++ NL ++ NL.

Section Retrieval.
(** The vector store and its scores are those of the library.
    [relevance] stands for line 195, which computes the percentage from a
    score in floating point: [round] returns an [int], or raises when the
    score is not a number ([ValueError]) or is infinite
    ([OverflowError]). *)
Context {Store Score : Type}.
Context (similarity_search_with_score :
           Store -> string -> nat -> Result (list (Document * Score))).
Context (relevance : Score -> Result Z).

(** [doc.metadata.get('source', 'desconocida')] *)
Definition source_of (doc : Document) : string :=
  match source doc with
  | Some s => s
  | None => "desconocida"
  end.

(** Lines 196-200: the header and the text of the fragment at [idx], for
    the percentage [percent]. *)
Definition fragment (idx : nat) (doc : Document) (percent : Z) : string :=
  let header :=
    "[Fragmento " ++ str_of_Z (Z.of_nat idx + 1)
    ++ " | Relevancia: " ++ str_of_Z percent
    ++ "% | Fuente: " ++ source_of doc ++ "]" in
  header ++ NL ++ page_content doc.

(** [context_parts] after the loop over [enumerate(search_results)],
    started at [idx], or the exception that ends the loop. *)
Fixpoint context_parts (idx : nat) (search_results : list (Document * Score))
  : Result (list string) :=
  match search_results with
  | [] => Ok []
  | (doc, score) :: more =>
      match relevance score with
      | Raise e => Raise e
      | Ok percent =>
          match context_parts (S idx) more with
          | Raise e => Raise e
          | Ok parts => Ok (fragment idx doc percent :: parts)
          end
      end
  end.

(** [get_relevant_context(query)] with the default [k = 5];
    [vector_store] is [self.vector_store].  The handler of line 212
    turns every exception of the search and of the loop into the empty
    text. *)
Definition get_relevant_context (vector_store : option Store)
    (query : string) : string :=
  match vector_store with
  | None => EmptyString
  | Some store =>
      match similarity_search_with_score store query 5 with
      | Raise _ => EmptyString
      | Ok [] => EmptyString
      | Ok search_results =>
          match context_parts 0 search_results with
          | Raise _ => EmptyString
          | Ok parts => String.concat separator parts
          end
      end
  end.

(** What the search gives for the query, if anything. *)
Definition hits (vector_store : option Store) (query : string)
  : list (Document * Score) :=
  match vector_store with
  | None => []
  | Some store =>
      match similarity_search_with_score store query 5 with
      | Raise _ => []
      | Ok search_results => search_results
      end
  end.

(** The percentage of every score can be computed. *)
Definition all_rounded (search_results : list (Document * Score)) : bool :=
  forallb (fun hit => match relevance (snd hit) with
                      | Ok _ => true
                      | Raise _ => false
                      end) search_results.

(** A part of the context is the fragment of a result: its text under a
    header with its percentage. *)
Definition fragment_of (part : string) (hit : Document * Score) : Prop :=
  exists idx percent,
    relevance (snd hit) = Ok percent
    /\ part = fragment idx (fst hit) percent.


End Retrieval.

(** A store that returns its chunks for every query.  A score is the
    percentage that line 195 gives for it, when there is one. *)
Definition two_chunks : list (Document * option Z) :=
  [(mkDocument "Chroma keeps vectors." (Some "notes.md"), Some 91%Z);
   (mkDocument "Ollama serves models." None, Some 58%Z)].

(** The score of the second chunk is not a number. *)
Definition nan_chunk : list (Document * option Z) :=
  [(mkDocument "Chroma keeps vectors." (Some "notes.md"), Some 91%Z);
   (mkDocument "Ollama serves models." None, None)].

Definition search_all (store : list (Document * option Z)) (_ : string)
    (_ : nat) : Result (list (Document * option Z)) := Ok store.

Definition round_percent (score : option Z) : Result Z :=
  match score with
  | Some percent => Ok percent
  | None => Raise "cannot convert float NaN to integer"
  end.

End Rag.


(* ===================================================================== *)
(** * [src/rag_system.py]: indexing *)
(* ===================================================================== *)

Module Indexing.
Import PyStr Model Model.Notations Driver Rag.

(** [posixpath.join(a, b)] for two components. *)
Definition path_join (a b : string) : string :=
  if startswith "/" b then b
  else if negb (truthy a) || endswith "/" a then a ++ b
  else a ++ "/" ++ b.

(** The file system, the loaders of the document processor and the vector
    store of the library, over a world they may read and change.  Each can
    raise where the source calls it inside a [try]; [os.path.exists] and
    [os.path.isfile] do not raise. *)
Record RagEnv (W Store : Type) : Type := mkRagEnv {
  os_path_exists : string -> W -> bool * W;
  os_listdir : string -> W -> Result (list string) * W;
  os_path_isfile : string -> W -> bool * W;
  load_pdf : string -> W -> Result (list Document) * W;
  load_markdown : string -> W -> Result (list Document) * W;
  load_html_from_url : string -> W -> Result (list Document) * W;
  chroma_from_documents : list Document -> W -> Result Store * W;
  chroma_add_documents : Store -> list Document -> W -> Result unit * W;
  chroma_persist : Store -> W -> Result unit * W;
  chroma_open : W -> Result Store * W
}.
Arguments mkRagEnv {W Store} _ _ _ _ _ _ _ _ _ _.
Arguments os_path_exists {W Store} _ _ _.
Arguments os_listdir {W Store} _ _ _.
Arguments os_path_isfile {W Store} _ _ _.
Arguments load_pdf {W Store} _ _ _.
Arguments load_markdown {W Store} _ _ _.
Arguments load_html_from_url {W Store} _ _ _.
Arguments chroma_from_documents {W Store} _ _ _.
Arguments chroma_add_documents {W Store} _ _ _ _.
Arguments chroma_persist {W Store} _ _ _.
Arguments chroma_open {W Store} _ _.

(** [if docs:] on a list. *)
Definition nonempty {A} (l : list A) : bool :=
  match l with [] => false | _ :: _ => true end.

(** [filename.lower().endswith('.pdf')] and
    [filename.lower().endswith(('.md', '.txt'))]. *)
Definition is_pdf (filename : string) : bool :=
  endswith ".pdf" (lower filename).

Definition is_text (filename : string) : bool :=
  endswith ".md" (lower filename) || endswith ".txt" (lower filename).

Section Methods.
Context {W Store : Type} (renv : RagEnv W Store).

(** Lines 114-126: the [try] for one regular file; what it adds to
    [documents]. *)
Definition load_file (filename filepath : string) : M W (list Document) :=
  if is_pdf filename then
    docs <- ask (load_pdf renv filepath) ;;
    ret (match docs with Ok docs => docs | Raise _ => [] end)
  else if is_text filename then
    docs <- ask (load_markdown renv filepath) ;;
    ret (match docs with Ok docs => docs | Raise _ => [] end)
  else ret [].

(** Lines 107-126: the loop over [all_files]; [files_found] and
    [documents] at its end. *)
Fixpoint scan_files (document_dir : string) (all_files : list string)
    (files_found : bool) (documents : list Document)
  : M W (bool * list Document) :=
  match all_files with
  | [] => ret (files_found, documents)
  | filename :: more =>
      let filepath := path_join document_dir filename in
      regular <- ask (os_path_isfile renv filepath) ;;
      if regular then
        docs <- load_file filename filepath ;;
        scan_files document_dir more true (documents ++ docs)%list
      else scan_files document_dir more files_found documents
  end.

(** Lines 138-164 and their twin in [add_html_from_url]: the documents
    go into the store that exists, or a store is created from them.  The
    result is the returned flag and [self.vector_store] afterwards. *)
Definition store_documents (vector_store : option Store)
    (documents : list Document) : M W (bool * option Store) :=
  match vector_store with
  | Some store =>
      added <- ask (chroma_add_documents renv store documents) ;;
      match added with
      | Raise _ => ret (false, vector_store)
      | Ok _ =>
          persisted <- ask (chroma_persist renv store) ;;
          match persisted with
          | Raise _ => ret (false, vector_store)
          | Ok _ => ret (true, vector_store)
          end
      end
  | None =>
      created <- ask (chroma_from_documents renv documents) ;;
      match created with
      | Raise _ => ret (false, None)
      | Ok store => ret (true, Some store)
      end
  end.

(** [index_documents(document_dir)]: the returned flag, or the exception
    of [os.listdir], and [self.vector_store] afterwards. *)
Definition index_documents (vector_store : option Store)
    (document_dir : string) : M W (Result bool * option Store) :=
  present <- ask (os_path_exists renv document_dir) ;;
  if negb present then ret (Ok false, vector_store)
  else
    listed <- ask (os_listdir renv document_dir) ;;
    match listed with
    | Raise e => ret (Raise e, vector_store)
    | Ok all_files =>
        if negb (nonempty all_files) then ret (Ok false, vector_store)
        else
          scanned <- scan_files document_dir all_files false [] ;;
          let (files_found, documents) := scanned in
          if negb files_found then ret (Ok false, vector_store)
          else if negb (nonempty documents) then ret (Ok false, vector_store)
          else
            stored <- store_documents vector_store documents ;;
            ret (Ok (fst stored), snd stored)
    end.

(** [add_html_from_url(url)]. *)
Definition add_html_from_url (vector_store : option Store) (url : string)
  : M W (bool * option Store) :=
  loaded <- ask (load_html_from_url renv url) ;;
  match loaded with
  | Raise _ => ret (false, vector_store)
  | Ok documents =>
      if negb (nonempty documents) then ret (false, vector_store)
      else store_documents vector_store documents
  end.

(** [clear_database()]. *)
Definition clear_database (vector_store : option Store)
  : M W (bool * option Store) :=
  match vector_store with
  | Some _ =>
      opened <- ask (chroma_open renv) ;;
      match opened with
      | Raise _ => ret (false, vector_store)
      | Ok store =>
          persisted <- ask (chroma_persist renv store) ;;
          match persisted with
          | Raise _ => ret (false, Some store)
          | Ok _ => ret (true, Some store)
          end
      end
  | None => ret (false, None)
  end.

(** The operations that the driver asks of the retrieval system. *)
Inductive Operation : Type :=
| IndexDocuments (document_dir : string)
| AddHtml (url : string)
| ClearDatabase.

(** One operation: whether it reported success, and the store
    afterwards. *)
Definition operate (vector_store : option Store) (op : Operation)
  : M W (bool * option Store) :=
  match op with
  | IndexDocuments document_dir =>
      r <- index_documents vector_store document_dir ;;
      ret (match fst r with Ok b => b | Raise _ => false end, snd r)
  | AddHtml url => add_html_from_url vector_store url
  | ClearDatabase => clear_database vector_store
  end.

(** A sequence of operations: the flags in order and the store at the
    end. *)
Fixpoint operate_all (vector_store : option Store) (ops : list Operation)
  : M W (list bool * option Store) :=
  match ops with
  | [] => ret ([], vector_store)
  | op :: more =>
      r <- operate vector_store op ;;
      rest <- operate_all (snd r) more ;;
      ret (fst r :: fst rest, snd rest)
  end.

Definition is_indexing (op : Operation) : bool :=
  match op with
  | IndexDocuments _ | AddHtml _ => true
  | ClearDatabase => false
  end.

Definition has_store (vector_store : option Store) : bool :=
  match vector_store with Some _ => true | None => false end.

End Methods.

(** Surroundings for examples: the directory exists and holds [entries];
    only [archive] is no regular file; the loaders return one chunk with
    the path as its source; the store is the list of the documents it
    holds. *)
Definition sample_files (entries : list string)
  : RagEnv unit (list Document) :=
  mkRagEnv
    (fun _ w => (true, w))
    (fun _ w => (Ok entries, w))
    (fun path w => (negb (String.eqb path "./documents/archive"), w))
    (fun path w => (Ok [mkDocument "page one" (Some path)], w))
    (fun path w => (Ok [mkDocument "text" (Some path)], w))
    (fun url w => (Ok [], w))
    (fun documents w => (Ok documents, w))
    (fun _ _ w => (Ok tt, w))
    (fun _ w => (Ok tt, w))
    (fun w => (Ok [], w)).

(** A sub-directory and a picture. *)
Definition other_files : RagEnv unit (list Document) :=
  sample_files ["archive"; "photo.png"].

(** One PDF with its ending in capitals. *)
Definition one_report : RagEnv unit (list Document) :=
  sample_files ["Report.PDF"].

End Indexing.


(* ===================================================================== *)
(** * Facts about the string primitives *)
(* ===================================================================== *)

Module PyStrFacts.
Import PyStr Notions.

Lemma append_empty_r (s : string) : s ++ EmptyString = s.
Proof. induction s as [|c s IH]; simpl; [reflexivity | now rewrite IH]. Qed.

Lemma append_assoc (a b c : string) : (a ++ b) ++ c = a ++ (b ++ c).
Proof. induction a as [|x a IH]; simpl; [reflexivity | now rewrite IH]. Qed.

Lemma append_snoc (p : string) (c : ascii) (s : string) :
  p ++ String c s = (p ++ String c EmptyString) ++ s.
Proof. now rewrite append_assoc. Qed.

Lemma nl_is_space : is_space nl = true.
Proof. reflexivity. Qed.

Lemma eqb_nl_is_space (c : ascii) : Ascii.eqb c nl = true -> is_space c = true.
Proof. intros H. apply Ascii.eqb_eq in H. subst c. reflexivity. Qed.

Lemma split_nl_nonempty (s : string) : exists h t, split_nl s = h :: t.
Proof.
  induction s as [|c s [h [t IH]]]; simpl.
  - now exists EmptyString, [].
  - destruct (Ascii.eqb c nl).
    + now exists EmptyString, (split_nl s).
    + rewrite IH. now exists (String c h), t.
Qed.

Lemma lines_after_empty (s : string) : lines_after EmptyString s = split_nl s.
Proof.
  unfold lines_after. destruct (split_nl_nonempty s) as [h [t E]].
  now rewrite E.
Qed.

(** Reading one more character: a line feed closes the current line, any
    other character joins it. *)
Lemma lines_after_cons (p : string) (c : ascii) (s : string) :
  lines_after p (String c s) =
  if Ascii.eqb c nl then (p ++ EmptyString) :: split_nl s
  else lines_after (p ++ String c EmptyString) s.
Proof.
  unfold lines_after. simpl.
  destruct (Ascii.eqb c nl); [reflexivity |].
  destruct (split_nl_nonempty s) as [h [t E]]. rewrite E.
  now rewrite append_snoc.
Qed.

Lemma nonblank_lines_cons (p : string) (c : ascii) (s : string) :
  nonblank_lines p (String c s) =
  if Ascii.eqb c nl
  then (filter truthy [strip p] ++ nonblank_lines EmptyString s)%list
  else nonblank_lines (p ++ String c EmptyString) s.
Proof.
  unfold nonblank_lines. rewrite lines_after_cons.
  destruct (Ascii.eqb c nl); [| reflexivity].
  rewrite append_empty_r, lines_after_empty. simpl.
  now destruct (truthy (strip p)).
Qed.

Lemma nonblank_lines_nil (p : string) :
  nonblank_lines p EmptyString = filter truthy [strip p].
Proof. unfold nonblank_lines, lines_after. simpl. now rewrite append_empty_r. Qed.

(** [lstrip] of a concatenation. *)
Lemma lstrip_app (p w : string) :
  lstrip (p ++ w) =
  match lstrip p with
  | EmptyString => lstrip w
  | String _ _ => lstrip p ++ w
  end.
Proof.
  induction p as [|c p IH]; simpl; [reflexivity |].
  destruct (is_space c); [exact IH | reflexivity].
Qed.

Lemma rstrip_snoc_space (x : string) (c : ascii) :
  is_space c = true -> rstrip (x ++ String c EmptyString) = rstrip x.
Proof.
  intros Hc. induction x as [|d x IH]; simpl.
  - now rewrite Hc.
  - now rewrite IH.
Qed.

Lemma strip_snoc_space (p : string) (c : ascii) :
  is_space c = true -> strip (p ++ String c EmptyString) = strip p.
Proof.
  intros Hc. unfold strip. rewrite lstrip_app.
  destruct (lstrip p) as [|d q] eqn:E.
  - simpl. now rewrite Hc.
  - now rewrite rstrip_snoc_space.
Qed.

Lemma strip_space_prefix (p h : string) :
  lstrip p = EmptyString -> strip (p ++ h) = strip h.
Proof. intros E. unfold strip. now rewrite lstrip_app, E. Qed.

Lemma nonblank_lines_space_prefix (p s : string) :
  lstrip p = EmptyString -> nonblank_lines p s = nonblank_lines EmptyString s.
Proof.
  intros E. unfold nonblank_lines, lines_after.
  destruct (split_nl_nonempty s) as [h [t Es]]. rewrite Es. simpl.
  now rewrite strip_space_prefix.
Qed.

(** Stripping the left end of a text does not change its non-blank
    lines. *)
Lemma nonblank_lines_lstrip (s : string) :
  nonblank_lines EmptyString (lstrip s) = nonblank_lines EmptyString s.
Proof.
  induction s as [|c s IH]; simpl; [reflexivity |].
  destruct (is_space c) eqn:Hc; [| reflexivity].
  rewrite nonblank_lines_cons, IH.
  destruct (Ascii.eqb c nl); [reflexivity |].
  symmetry. apply nonblank_lines_space_prefix. simpl. now rewrite Hc.
Qed.

(** Nor does stripping its right end, whatever was read of the first line
    before it. *)
Lemma nonblank_lines_rstrip (s : string) :
  forall p, nonblank_lines p (rstrip s) = nonblank_lines p s.
Proof.
  induction s as [|c s IH]; intros p; simpl; [reflexivity |].
  destruct (rstrip s) as [|d r] eqn:Er.
  - destruct (is_space c) eqn:Hc.
    + rewrite nonblank_lines_cons, nonblank_lines_nil.
      destruct (Ascii.eqb c nl).
      * rewrite <- IH, nonblank_lines_nil.
        change (filter truthy [strip EmptyString]) with (@nil string).
        symmetry. apply app_nil_r.
      * rewrite <- IH, nonblank_lines_nil. now rewrite strip_snoc_space.
    + rewrite !nonblank_lines_cons.
      destruct (Ascii.eqb c nl) eqn:Hn.
      * apply eqb_nl_is_space in Hn. congruence.
      * apply IH.
  - rewrite (nonblank_lines_cons p c (String d r)), (nonblank_lines_cons p c s).
    destruct (Ascii.eqb c nl); now rewrite IH.
Qed.

(** The non-blank stripped lines of [s.strip()] are those of [s]. *)
Lemma nonblank_lines_strip (s : string) :
  filter truthy (map strip (split_nl (strip s))) =
  filter truthy (map strip (split_nl s)).
Proof.
  rewrite <- !lines_after_empty.
  change (nonblank_lines EmptyString (strip s) = nonblank_lines EmptyString s).
  unfold strip. now rewrite nonblank_lines_rstrip, nonblank_lines_lstrip.
Qed.

End PyStrFacts.

(* ===================================================================== *)
(** * The extractor *)
(* ===================================================================== *)

Module ExtractorFacts.
Import PyStr Model Utils Notions PyStrFacts.

Lemma drop_length (n : nat) (s : string) :
  String.length (drop n s) = String.length s - n.
Proof.
  revert s. induction n as [|n IH]; intros [|c s]; simpl; auto using Nat.sub_0_r.
Qed.

Lemma lazy_until_fence_shorter (s body rest : string) :
  lazy_until_fence s = Some (body, rest) ->
  String.length rest < String.length s.
Proof.
  revert body rest. induction s as [|c s IH]; intros body rest.
  - simpl. discriminate.
  - unfold lazy_until_fence; fold lazy_until_fence.
    destruct (String.prefix fence (String c s)) eqn:Hp.
    + intros H. injection H as _ <-.
      destruct s as [|c1 [|c2 s]]; simpl in Hp;
        repeat match type of Hp with
               | (if ?b then _ else _) = true => destruct b; try discriminate
               end.
      simpl. lia.
    + destruct (lazy_until_fence s) as [[b r]|]; [| discriminate].
      intros H. injection H as _ <-.
      specialize (IH b r eq_refl). simpl. lia.
Qed.

Lemma match_here_shorter (opening s body rest : string) :
  match_here opening s = Some (body, rest) ->
  String.length rest < String.length s.
Proof.
  unfold match_here. destruct (String.prefix opening s); [| discriminate].
  intros H. apply lazy_until_fence_shorter in H.
  rewrite drop_length in H. lia.
Qed.

(** The scan of [re_findall] never runs out of steps: any larger budget
    gives the same matches. *)
Lemma findall_from_enough (opening : string) (n : nat) :
  forall m s, String.length s < n -> String.length s < m ->
              findall_from n opening s = findall_from m opening s.
Proof.
  induction n as [|n IH]; intros m s Hn Hm; [lia |].
  destruct m as [|m]; [lia |]. simpl.
  destruct (match_here opening s) as [[body rest]|] eqn:E.
  - apply match_here_shorter in E. f_equal. apply IH; lia.
  - destruct s as [|c s]; [reflexivity |]. simpl in Hn, Hm. apply IH; lia.
Qed.

Lemma re_findall_enough (opening text : string) (n : nat) :
  String.length text < n ->
  findall_from n opening text = re_findall opening text.
Proof. intros H. apply findall_from_enough; [exact H | lia]. Qed.

Lemma find_filter {A} (f g : A -> bool) (xs : list A) :
  (forall x, f x = true -> g x = true) ->
  find f (filter g xs) = find f xs.
Proof.
  intros Hfg. induction xs as [|x xs IH]; simpl; [reflexivity |].
  destruct (g x) eqn:Hg; simpl.
  - now rewrite IH.
  - destruct (f x) eqn:Hf; [| exact IH].
    apply Hfg in Hf. congruence.
Qed.

Lemma actionable_truthy (l : string) : actionable l = true -> truthy l = true.
Proof.
  unfold actionable, qualifying. intros H.
  now apply andb_prop in H as [H _]; apply andb_prop in H as [H _].
Qed.

(** The inner loop finds the first actionable line. *)
Lemma scan_command_find (command_lines : list string) :
  scan_command command_lines =
  option_map strip_prompt (find actionable (map strip command_lines)).
Proof.
  induction command_lines as [|line more IH]; [reflexivity |].
  cbn [scan_command map find]. rewrite IH.
  change (if startswith "$" (strip line)
          then strip (drop 1 (strip line)) else strip line)
    with (strip_prompt (strip line)).
  replace (actionable (strip line))
    with (truthy (strip line) && negb (startswith "#" (strip line))
          && truthy (strip_prompt (strip line))) by reflexivity.
  destruct (truthy (strip line)); cbn [negb orb andb]; [| reflexivity].
  destruct (startswith "#" (strip line)); cbn [negb orb andb]; [reflexivity |].
  destruct (truthy (strip_prompt (strip line))); reflexivity.
Qed.

(** What the normalization keeps of a block, in terms of the lines of the
    block itself. *)
Lemma clean_bash_first_actionable (block : string) :
  clean_bash block = first_actionable_line block.
Proof.
  unfold clean_bash, first_actionable_line.
  rewrite scan_command_find.
  rewrite <- (find_filter actionable truthy (map strip (split_nl (strip block))))
    by exact actionable_truthy.
  rewrite nonblank_lines_strip.
  rewrite find_filter by exact actionable_truthy.
  destruct (find actionable (map strip (split_nl block))) as [l|] eqn:E;
    simpl; [| reflexivity].
  apply find_some in E as [_ E]. unfold actionable in E.
  apply andb_prop in E as [_ E]. now rewrite E.
Qed.

Lemma extract_bash_first_block (text block : string) :
  first_block bash_patterns text = [block] ->
  fst (extract_code_blocks text) = clean_bash block.
Proof.
  intros H. unfold extract_code_blocks. cbv zeta. cbn [fst].
  rewrite H. cbn [flat_map]. apply app_nil_r.
Qed.

Lemma find_actionable_none (lines : list string) :
  forallb blank_or_comment lines = true ->
  find actionable (map strip lines) = None.
Proof.
  induction lines as [|l more IH]; simpl; [reflexivity |].
  intros H. apply andb_prop in H as [Hl Hmore].
  unfold blank_or_comment in Hl. unfold actionable, qualifying.
  destruct (truthy (strip l)); simpl in *; [| now apply IH].
  rewrite Hl. simpl. now apply IH.
Qed.

End ExtractorFacts.

Module ExtractorSpec.
Import PyStr Model Utils Notions PyStrFacts ExtractorFacts.

(** C7, as stated, fails: in a block whose first non-blank, non-comment
    line is a bare prompt marker the extractor passes on to the next line,
    so the command is not that first line with its marker stripped. *)
Lemma bare_prompt_line_is_skipped :
  first_block bash_patterns bare_prompt_text = [bare_prompt_block]
  /\ fst (extract_code_blocks bare_prompt_text) = ["ls"]
  /\ first_qualifying_line bare_prompt_block = [EmptyString]
  /\ fst (extract_code_blocks bare_prompt_text)
     <> first_qualifying_line bare_prompt_block.
Proof.
  repeat split; try reflexivity.
  vm_compute. discriminate.
Qed.

(** C7 (amended): shell block normalization returns only the first line of
    the matched block that is non-blank, not a comment and not empty once a
    leading prompt marker is stripped, with that marker stripped; for the
    text of the specification (a comment line, then [$ ls -la]) extraction
    yields the single shell block [ls -la]. *)
Theorem shell_block_is_first_actionable_line (text block : string)
    (Hmatch : first_block bash_patterns text = [block]) :
  fst (extract_code_blocks text) = first_actionable_line block
  /\ extract_code_blocks commented_ls = (["ls -la"], []).
Proof.
  split; [| reflexivity].
  rewrite (extract_bash_first_block text block Hmatch).
  apply clean_bash_first_actionable.
Qed.

Lemma shell_block_is_first_actionable_line_witness :
  first_block bash_patterns bare_prompt_text = [bare_prompt_block]
  /\ fst (extract_code_blocks bare_prompt_text)
     = first_actionable_line bare_prompt_block.
Proof.
  split; [reflexivity |].
  exact (proj1 (shell_block_is_first_actionable_line
                  bare_prompt_text bare_prompt_block eq_refl)).
Defined.

End ExtractorSpec.

(* ===================================================================== *)
(** * The turn engine *)
(* ===================================================================== *)

Module EngineFacts.
Import PyStr Model Utils Assistant Notions.

Section Facts.
Context {W : Type} (env : Env W) (model : string).

Lemma execute_bash_command_run (command : string) (st : St W) :
  execute_bash_command env command st =
  let (answer, w) := ask_bash env (clean_command command) (world st) in
  (bash_result answer,
   mkSt w (trace st ++ [EvBash (clean_command command)])%list).
Proof.
  unfold execute_bash_command. cbv zeta. unfold bind, call.
  destruct (ask_bash env (clean_command command) (world st)) as [[| o e | e] w];
    reflexivity.
Qed.

Lemma execute_python_code_run (code : string) (st : St W) :
  execute_python_code env code st =
  let (answer, w) := ask_python env code (world st) in
  (python_result answer, mkSt w (trace st ++ [EvPython code])%list).
Proof.
  unfold execute_python_code, bind, call.
  destruct (ask_python env code (world st))
    as [[| f [e|] | [o | [e| |]] | e] w]; reflexivity.
Qed.

Lemma while_done (p : nat) (body : list Message -> M W (option Step))
    (h : list Message) (st : St W) :
  while_not_complete p body h true st = (Some (Ok h), st).
Proof. destruct p; reflexivity. Qed.

Lemma while_pass (p : nat) (body : list Message -> M W (option Step))
    (h : list Message) (st : St W) :
  while_not_complete (S p) body h false st =
  let (s, st') := body h st in
  match s with
  | None => (None, st')
  | Some (Returned h') => (Some (Ok h'), st')
  | Some (Looping h' rc) => while_not_complete p body h' rc st'
  | Some (Escaped x) => (Some (Raise x), st')
  end.
Proof.
  cbn [while_not_complete]. unfold bind.
  destruct (body h st) as [[[h' | h' rc | x]|] st']; reflexivity.
Qed.

(** A turn that reports an execution result: one call of the model, then
    the end, whatever [self] is and whatever the response contains. *)
Lemma body_processing_code (self : Self) (p : nat) (msgs : list Message)
    (q : string) (st : St W) :
  interact_with_model_body env model self (S p) msgs q true st =
  let (out, w) := ollama_chat env model msgs (world st) in
  (Some (Ok (msgs ++ [closing_message out])%list),
   mkSt w (trace st ++ [EvTurn true; EvChat msgs])%list).
Proof.
  unfold interact_with_model_body, bind, log, current_messages, ret.
  cbn [negb world trace]. rewrite while_pass.
  unfold iteration, call, bind, ret. cbn [negb world trace].
  destruct (ollama_chat env model msgs (world st)) as [[e | chunks [e|]] w];
    rewrite ?while_done; rewrite <- app_assoc; reflexivity.
Qed.

(** A top-level turn after the answer of the model: the inner [try]
    decides. *)
Lemma body_top_level (self : Self) (p : nat) (msgs : list Message)
    (q : string) (st : St W) (cur : list Message) (full : string)
    (st2 : St W) :
  model_answers env model msgs q st = Some (cur, full, st2) ->
  interact_with_model_body env model self (S p) msgs q false st =
  let (f, st3) := process_code env self msgs full st2 in
  (finish cur full f, st3).
Proof.
  unfold model_answers, interact_with_model_body, bind. cbn [log snd negb].
  destruct (current_messages env msgs q false _) as [[cur' | e] st1];
    [| discriminate].
  rewrite while_pass. unfold iteration, bind.
  destruct (call (EvChat cur') (ollama_chat env model cur') st1)
    as [[e | chunks [e|]] st2']; try discriminate.
  intros H. injection H as -> <- ->. cbn [negb].
  destruct (process_code env self msgs _ st2) as [[[| e | h | x]|] st3];
    unfold ret; rewrite ?while_done; reflexivity.
Qed.

(** The nested call never calls again: it returns the new history
    followed by the closing message of its one model call. *)
Lemma recurse_returns (d p : nat) (msgs : list Message)
    (full er : string) (st : St W) :
  recurse (interact_with_model env model (S d) (S p)) msgs full er st =
  let nm := new_messages msgs full er in
  let (out, w) := ollama_chat env model nm (world st) in
  (Some (Return (nm ++ [closing_message out])%list),
   mkSt w (trace st ++ [EvTurn true; EvChat nm])%list).
Proof.
  unfold recurse, bind.
  change (interact_with_model env model (S d) (S p))
    with (interact_with_model_body env model
            (interact_with_model env model d (S p)) (S p)).
  rewrite body_processing_code. cbv zeta.
  destruct (ollama_chat env model _ (world st)) as [out w]. reflexivity.
Qed.

Lemma recurse_total (d p : nat) (msgs : list Message)
    (full er : string) (st : St W) :
  exists h st' evs,
    recurse (interact_with_model env model (S d) (S p)) msgs full er st
    = (Some (Return h), st')
    /\ trace st' = (trace st ++ evs)%list /\ follow_up evs = true.
Proof.
  rewrite recurse_returns. cbv zeta.
  destruct (ollama_chat env model _ (world st)) as [out w].
  eexists _, _, _. split; [reflexivity |]. split; reflexivity.
Qed.

Lemma follow_up_cons_exec (e : Event) (evs : list Event) :
  is_exec_event e = true -> follow_up evs = true ->
  follow_up (e :: evs) = true.
Proof. destruct e; try discriminate; intros _ H; exact H. Qed.

Lemma try_bash_total (d p : nat) (msgs : list Message) (full : string)
    (bs : list string) (st : St W) :
  exists f st' evs,
    try_bash env (interact_with_model env model (S d) (S p)) msgs full bs st
    = (Some f, st')
    /\ trace st' = (trace st ++ evs)%list /\ follow_up evs = true.
Proof.
  destruct bs as [|command bs]; cbn [try_bash].
  - exists FallThrough, st, []. now rewrite app_nil_r.
  - unfold bind. rewrite execute_bash_command_run.
    destruct (ask_bash env (clean_command command) (world st)) as [answer w].
    set (st1 := mkSt w (trace st ++ [EvBash (clean_command command)])%list).
    assert (Hrec : forall er,
      exists f st' evs,
        recurse (interact_with_model env model (S d) (S p)) msgs full er st1
        = (Some f, st')
        /\ trace st' = (trace st ++ evs)%list /\ follow_up evs = true).
    { intros er. destruct (recurse_total d p msgs full er st1)
        as (h & st' & evs & E & Ht & Hf).
      exists (Return h), st', (EvBash (clean_command command) :: evs).
      split; [exact E |]. split.
      - rewrite Ht. unfold st1. cbn [trace]. now rewrite <- app_assoc.
      - now apply follow_up_cons_exec. }
    destruct answer as [| out err | e]; unfold ret;
      cbn [bash_result is_not_None orb]; try apply Hrec.
    exists FallThrough, st1, [EvBash (clean_command command)].
    repeat split.
Qed.

Lemma try_python_total (d p : nat) (msgs : list Message) (full : string)
    (ps : list string) (st : St W) :
  exists f st' evs,
    try_python env (interact_with_model env model (S d) (S p)) msgs full ps st
    = (Some f, st')
    /\ trace st' = (trace st ++ evs)%list /\ follow_up evs = true
    /\ (f = FallThrough -> forallb is_exec_event evs = true)
    /\ match ps with
       | code :: _ => exists evs', evs = EvPython code :: evs'
       | [] => evs = []
       end.
Proof.
  destruct ps as [|code ps]; cbn [try_python].
  - exists FallThrough, st, []. rewrite app_nil_r. repeat split.
  - unfold bind. destruct (execute_python_code env code st) as [r st1] eqn:E.
    assert (Ht1 : trace st1 = (trace st ++ [EvPython code])%list).
    { rewrite execute_python_code_run in E.
      destruct (ask_python env code (world st)) as [answer w].
      now injection E as _ <-. }
    destruct r as [result | e].
    + destruct (truthy result).
      * destruct (recurse_total d p msgs full
                    (python_execution_result result) st1)
          as (h & st' & evs & Er & Ht & Hf).
        exists (Return h), st', (EvPython code :: evs).
        split; [exact Er |]. split.
        { rewrite Ht, Ht1. now rewrite <- app_assoc. }
        split; [now apply follow_up_cons_exec |].
        split; [discriminate | now exists evs].
      * exists FallThrough, st1, [EvPython code].
        repeat split; try assumption. now exists [].
    + exists (raised e), st1, [EvPython code].
      repeat split; try assumption; try (destruct e; discriminate).
      now exists [].
Qed.

Lemma follow_up_app_exec (a b : list Event) :
  forallb is_exec_event a = true -> follow_up b = true ->
  follow_up (a ++ b) = true.
Proof.
  induction a as [|e a IH]; cbn [forallb app]; [trivial |].
  intros H Hb. apply andb_prop in H as [He Ha].
  apply follow_up_cons_exec; auto.
Qed.

(** The inner [try] of a top-level turn always comes to an end, and the
    script, when there is one, is the first thing attempted. *)
Lemma process_code_total (d p : nat) (msgs : list Message) (full : string)
    (st : St W) :
  exists f st' evs,
    process_code env (interact_with_model env model (S d) (S p)) msgs full st
    = (Some f, st')
    /\ trace st' = (trace st ++ evs)%list /\ follow_up evs = true
    /\ match snd (extract_code_blocks full) with
       | code :: _ => exists evs', evs = EvPython code :: evs'
       | [] => True
       end.
Proof.
  unfold process_code.
  destruct (extract_code_blocks full) as [bs ps]. cbn [snd]. unfold bind.
  destruct (try_python_total d p msgs full ps st)
    as (f & st1 & evs & E & Ht & Hf & Hfall & Hfirst).
  rewrite E.
  destruct f as [| e | h | x].
  - destruct (try_bash_total d p msgs full bs st1)
      as (f2 & st2 & evs2 & E2 & Ht2 & Hf2).
    exists f2, st2, (evs ++ evs2)%list.
    split; [exact E2 |]. split; [now rewrite Ht2, Ht, app_assoc |].
    split; [apply follow_up_app_exec; auto |].
    destruct ps as [|code ps]; [exact I |].
    destruct Hfirst as [evs' ->]. now exists (evs' ++ evs2)%list.
  - exists (Caught e), st1, evs. repeat split; try assumption.
    destruct ps as [|code ps]; [exact I | exact Hfirst].
  - exists (Return h), st1, evs. repeat split; try assumption.
    destruct ps as [|code ps]; [exact I | exact Hfirst].
  - exists (Uncaught x), st1, evs. repeat split; try assumption.
    destruct ps as [|code ps]; [exact I | exact Hfirst].
Qed.

Lemma count_turns_app (a b : list Event) :
  count_turns (a ++ b) = count_turns a + count_turns b.
Proof. unfold count_turns. now rewrite filter_app, length_app. Qed.

Lemma count_chats_app (a b : list Event) :
  count_chats (a ++ b) = count_chats a + count_chats b.
Proof. unfold count_chats. now rewrite filter_app, length_app. Qed.

Lemma follow_up_counts (evs : list Event) :
  follow_up evs = true -> count_turns evs <= 1 /\ count_chats evs <= 1.
Proof.
  unfold follow_up. intros H.
  apply andb_prop in H as [H _]. apply andb_prop in H as [H1 H2].
  split; now apply Nat.leb_le.
Qed.

(** Building the history sent to the model enters no turn and calls no
    model. *)
Lemma current_messages_trace (msgs : list Message) (q : string) (pc : bool)
    (st : St W) :
  exists r st' evs,
    current_messages env msgs q pc st = (r, st')
    /\ trace st' = (trace st ++ evs)%list
    /\ count_turns evs = 0 /\ count_chats evs = 0.
Proof.
  unfold current_messages.
  destruct (negb pc); [| exists (Ok msgs), st, []; now rewrite app_nil_r].
  destruct (negb (is_system_command q));
    [| exists (Ok msgs), st, []; now rewrite app_nil_r].
  unfold bind, call.
  destruct (get_relevant_context env q (world st)) as [context w].
  destruct (truthy context); [destruct msgs as [|m0 rest] |];
    eexists _, _, [EvRetrieve q]; repeat split.
Qed.

(** Every top-level turn comes to an end within two nested calls, having
    entered the engine and called the model at most twice. *)
Lemma top_level_total (d p : nat) (msgs : list Message) (q : string)
    (st : St W) :
  exists r st' evs,
    interact_with_model env model (S (S d)) (S p) msgs q false st
    = (Some r, st')
    /\ trace st' = (trace st ++ evs)%list
    /\ count_turns evs <= 2 /\ count_chats evs <= 2.
Proof.
  change (interact_with_model env model (S (S d)) (S p))
    with (interact_with_model_body env model
            (interact_with_model env model (S d) (S p)) (S p)).
  unfold interact_with_model_body, bind. cbn [log].
  set (st0 := mkSt (world st) (trace st ++ [EvTurn false])%list).
  destruct (current_messages_trace msgs q false st0)
    as (r & st1 & evs0 & E0 & Ht0 & Hn0 & Hc0).
  rewrite E0. unfold st0 in Ht0. cbn [trace] in Ht0.
  destruct r as [cur | e].
  - rewrite while_pass. unfold iteration, bind, call.
    destruct (ollama_chat env model cur (world st1))
      as [[e | chunks [e|]] w2]; unfold ret; rewrite ?while_done;
      cbn [negb].
    + eexists _, _, ([EvTurn false] ++ evs0 ++ [EvChat cur])%list.
      split; [reflexivity |]. cbn [trace]. split.
      { rewrite Ht0, <- !app_assoc. reflexivity. }
      rewrite !count_turns_app, !count_chats_app, Hn0, Hc0. cbn. lia.
    + eexists _, _, ([EvTurn false] ++ evs0 ++ [EvChat cur])%list.
      split; [reflexivity |]. cbn [trace]. split.
      { rewrite Ht0, <- !app_assoc. reflexivity. }
      rewrite !count_turns_app, !count_chats_app, Hn0, Hc0. cbn. lia.
    + set (st2 := mkSt w2 (trace st1 ++ [EvChat cur])%list).
      destruct (process_code_total d p msgs (join (response_parts chunks)) st2)
        as (f & st3 & evs3 & E3 & Ht3 & Hf3 & _).
      rewrite E3. apply follow_up_counts in Hf3 as [Hn3 Hc3].
      assert (Ht : trace st3
                   = (trace st ++ [EvTurn false] ++ evs0 ++ [EvChat cur] ++ evs3)%list).
      { rewrite Ht3. unfold st2. cbn [trace]. rewrite Ht0, <- !app_assoc.
        reflexivity. }
      assert (Hn : count_turns ([EvTurn false] ++ evs0 ++ [EvChat cur] ++ evs3)
                   <= 2).
      { rewrite !count_turns_app, Hn0. cbn. lia. }
      assert (Hc : count_chats ([EvTurn false] ++ evs0 ++ [EvChat cur] ++ evs3)
                   <= 2).
      { rewrite !count_chats_app, Hc0. cbn. lia. }
      destruct f as [| e | h | x]; rewrite ?while_done;
        eexists _, _, _; (split; [reflexivity |]);
        (split; [exact Ht | split; [exact Hn | exact Hc]]).
  - unfold ret. eexists _, _, ([EvTurn false] ++ evs0)%list.
    split; [reflexivity |]. split.
    { rewrite Ht0, <- !app_assoc. reflexivity. }
    rewrite !count_turns_app, !count_chats_app, Hn0, Hc0. cbn. lia.
Qed.

(** A top-level turn whose response carries a script: what the answer to
    the script prompt leads to. *)
Lemma body_top_level_script (self : Self) (p : nat) (msgs : list Message)
    (q : string) (st : St W) (cur : list Message) (full : string)
    (st2 : St W) (bs : list string) (code : string) (ps : list string)
    (answer : PyAnswer) (w3 : W) :
  model_answers env model msgs q st = Some (cur, full, st2) ->
  extract_code_blocks full = (bs, code :: ps) ->
  ask_python env code (world st2) = (answer, w3) ->
  interact_with_model_body env model self (S p) msgs q false st =
  let st3 := mkSt w3 (trace st2 ++ [EvPython code])%list in
  match python_result answer with
  | Raise x => (finish cur full (Some (raised x)), st3)
  | Ok result =>
      let (f, st4) :=
        if truthy result
        then recurse self msgs full (python_execution_result result) st3
        else try_bash env self msgs full bs st3 in
      (finish cur full f, st4)
  end.
Proof.
  intros Hans Hex Hask. rewrite (body_top_level self p msgs q st _ _ _ Hans).
  unfold process_code. rewrite Hex. unfold bind. cbn [try_python].
  unfold bind. rewrite execute_python_code_run, Hask. cbv zeta.
  destruct (python_result answer) as [result | x];
    [| destruct x; reflexivity].
  destruct (truthy result).
  - unfold recurse, bind.
    destruct (self _ _ true _) as [[[h | [e | |]]|] st4]; reflexivity.
  - reflexivity.
Qed.

Lemma interact_processing_code (d p : nat) (msgs : list Message)
    (q : string) (st : St W) :
  interact_with_model env model (S d) (S p) msgs q true st =
  let (out, w) := ollama_chat env model msgs (world st) in
  (Some (Ok (msgs ++ [closing_message out])%list),
   mkSt w (trace st ++ [EvTurn true; EvChat msgs])%list).
Proof.
  change (interact_with_model env model (S d) (S p))
    with (interact_with_model_body env model
            (interact_with_model env model d (S p)) (S p)).
  apply body_processing_code.
Qed.

(** The nested call is returned as it is. *)
Lemma recurse_is_nested_call (d p : nat) (msgs : list Message)
    (full er : string) (cur : list Message) (st : St W) :
  (let (f, st') :=
     recurse (interact_with_model env model (S d) (S p)) msgs full er st in
   (finish cur full f, st'))
  = interact_with_model env model (S d) (S p) (new_messages msgs full er)
      er true st.
Proof.
  rewrite recurse_returns, interact_processing_code. cbv zeta.
  destruct (ollama_chat env model _ (world st)) as [out w]. reflexivity.
Qed.

End Facts.
End EngineFacts.

Module EngineSpec.
Import PyStr Model Utils Assistant Notions.
Import PyStrFacts ExtractorFacts EngineFacts.

Section Claims.
Context {W : Type} (env : Env W) (model : string).

(** C1: a call of the turn engine with [processing_code = True] calls the
    model once and ends there: nothing is extracted from the response,
    whatever it contains, and no further call of the engine is made (a call
    depth of one is enough, the only events are the entry and the model
    call).  Hence a top-level call ([processing_code = False]) needs a call
    depth of at most two, enters the engine at most twice and calls the
    model at most twice. *)
Theorem recursion_depth_bounded (d p : nat) (msgs : list Message)
    (q : string) (st : St W) :
  (exists out w,
      ollama_chat env model msgs (world st) = (out, w)
      /\ interact_with_model env model (S d) (S p) msgs q true st
         = (Some (Ok (msgs ++ [closing_message out])%list),
            mkSt w (trace st ++ [EvTurn true; EvChat msgs])%list))
  /\ (exists r st' evs,
        interact_with_model env model (S (S d)) (S p) msgs q false st
        = (Some r, st')
        /\ trace st' = (trace st ++ evs)%list
        /\ count_turns evs <= 2 /\ count_chats evs <= 2).
Proof.
  split.
  - change (interact_with_model env model (S d) (S p))
      with (interact_with_model_body env model
              (interact_with_model env model d (S p)) (S p)).
    rewrite body_processing_code.
    destruct (ollama_chat env model msgs (world st)) as [out w].
    now exists out, w.
  - apply top_level_total.
Qed.

Lemma startswith_app (cmd rest : string) : startswith cmd (cmd ++ rest) = true.
Proof.
  unfold startswith. induction cmd as [|c cmd IH]; simpl.
  - now destruct rest.
  - destruct (ascii_dec c c); [exact IH | contradiction].
Qed.

Lemma is_system_command_app (cmd rest : string) :
  In cmd system_commands -> is_system_command (cmd ++ rest) = true.
Proof.
  intros H. unfold is_system_command. apply existsb_exists.
  exists cmd. split; [exact H | apply startswith_app].
Qed.

(** C9: for a query that is one of the recognized command tokens or starts
    with one, building the history for the model makes no retrieval call
    (the world and the trace are left as they were) and gives the input
    history itself; the model is then called with that history and no
    retrieval happens anywhere in the turn. *)
Theorem system_command_bypasses_retrieval (cmd rest : string)
    (msgs : list Message) (st : St W) (Hcmd : In cmd system_commands) :
  current_messages env msgs (cmd ++ rest) false st = (Ok msgs, st)
  /\ forall d p, exists r st' evs,
       interact_with_model env model (S (S d)) (S p) msgs (cmd ++ rest)
         false st = (Some r, st')
       /\ trace st' = (trace st ++ EvTurn false :: EvChat msgs :: evs)%list
       /\ existsb is_retrieve_event evs = false.
Proof.
  assert (Hcur : forall st0,
             current_messages env msgs (cmd ++ rest) false st0 = (Ok msgs, st0)).
  { intros st0. unfold current_messages.
    now rewrite (is_system_command_app cmd rest Hcmd). }
  split; [apply Hcur |]. intros d p.
  change (interact_with_model env model (S (S d)) (S p))
    with (interact_with_model_body env model
            (interact_with_model env model (S d) (S p)) (S p)).
  unfold interact_with_model_body, bind. cbn [log]. rewrite Hcur.
  rewrite while_pass. unfold iteration, bind, call. cbn [world trace].
  destruct (ollama_chat env model msgs (world st))
    as [[e | chunks [e|]] w2]; unfold ret; rewrite ?while_done;
    cbn [negb].
  - eexists _, _, []. split; [reflexivity |]. cbn [trace].
    split; [now rewrite <- app_assoc | reflexivity].
  - eexists _, _, []. split; [reflexivity |]. cbn [trace].
    split; [now rewrite <- app_assoc | reflexivity].
  - match goal with
    | |- context [process_code _ _ _ ?full ?st2] =>
        destruct (process_code_total env model d p msgs full st2)
          as (f & st3 & evs3 & E3 & Ht3 & Hf3 & _)
    end.
    rewrite E3.
    assert (Hno : existsb is_retrieve_event evs3 = false).
    { unfold follow_up in Hf3. apply andb_prop in Hf3 as [_ H].
      now apply negb_true_iff in H. }
    cbn [trace] in Ht3. rewrite <- !app_assoc in Ht3. cbn [app] in Ht3.
    destruct f as [| e | h | x]; rewrite ?while_done;
      eexists _, _, evs3; (split; [reflexivity |]);
      (split; [exact Ht3 | exact Hno]).
Qed.

(** C8: when the user declines, [execute_bash_command] returns the pair
    [(None, None)], for every command; a confirmed run without output
    returns the pair of two empty strings; the two differ, and the engine
    tells them apart: it ends the turn on the first and goes on to the
    nested call on the second. *)
Theorem declined_sentinel_is_distinguishable (command : string)
    (st : St W) (w : W)
    (Hdecl : ask_bash env (clean_command command) (world st)
             = (BashDeclined, w)) :
  fst (execute_bash_command env command st) = (None, None)
  /\ (forall st' w',
        ask_bash env (clean_command command) (world st')
        = (BashRan EmptyString EmptyString, w') ->
        fst (execute_bash_command env command st')
        = (Some EmptyString, Some EmptyString))
  /\ (None, None) <> (Some EmptyString, Some EmptyString)
  /\ (forall self msgs full bs,
        try_bash env self msgs full (command :: bs) st
        = (Some FallThrough,
           mkSt w (trace st ++ [EvBash (clean_command command)])%list))
  /\ (forall self msgs full bs st' w',
        ask_bash env (clean_command command) (world st')
        = (BashRan EmptyString EmptyString, w') ->
        try_bash env self msgs full (command :: bs) st'
        = recurse self msgs full
            (bash_execution_result command (Some EmptyString)
               (Some EmptyString))
            (mkSt w' (trace st' ++ [EvBash (clean_command command)])%list)).
Proof.
  repeat split.
  - now rewrite execute_bash_command_run, Hdecl.
  - intros st' w' H. now rewrite execute_bash_command_run, H.
  - discriminate.
  - intros. cbn [try_bash]. unfold bind.
    now rewrite execute_bash_command_run, Hdecl.
  - intros self msgs full bs st' w' H. cbn [try_bash]. unfold bind.
    now rewrite execute_bash_command_run, H.
Qed.

(** C10: when the matched bash block consists only of blank lines and of
    comment lines, extraction returns no shell block, so the shell stage of
    the engine attempts nothing: it leaves the world and the trace as they
    are. *)
Theorem comment_only_block_has_no_command (text block : string)
    (Hmatch : first_block bash_patterns text = [block])
    (Hlines : forallb blank_or_comment (split_nl block) = true) :
  fst (extract_code_blocks text) = []
  /\ forall (self : Self (W := W)) msgs st,
       try_bash env self msgs text (fst (extract_code_blocks text)) st
       = (Some FallThrough, st).
Proof.
  assert (H : fst (extract_code_blocks text) = []).
  { rewrite (extract_bash_first_block text block Hmatch).
    rewrite clean_bash_first_actionable. unfold first_actionable_line.
    now rewrite find_actionable_none. }
  split; [exact H |]. intros. now rewrite H.
Qed.

(** C5: when the chosen block yields a result (a non-empty text for a
    script; for a shell command any pair that is not the declined one), the
    top-level turn is the nested call: the engine calls itself with
    [processing_code = True] on the input history followed by exactly two
    messages, the assistant response and a user message that carries the
    execution result (the text of the script result behind its heading; for
    a shell command the command, its output and its errors), and what the
    nested call returns is returned as it is.  The nested call is the only
    one: it calls the model once and ends. *)
Theorem execution_result_recurses_once (d p : nat) (msgs : list Message)
    (q : string) (st : St W) (cur : list Message) (full : string)
    (st2 : St W)
    (Hans : model_answers env model msgs q st = Some (cur, full, st2)) :
  (forall er, new_messages msgs full er
              = (msgs ++ [mkMessage assistant full; mkMessage user er])%list)
  /\ (forall bs code ps result st3,
        extract_code_blocks full = (bs, code :: ps) ->
        execute_python_code env code st2 = (Ok result, st3) ->
        result <> EmptyString ->
        let report :=
          "Resultado de la ejecuci" ++ o_acute ++ "n:" ++ NL ++ result in
        let history :=
          (msgs ++ [mkMessage assistant full; mkMessage user report])%list in
        python_execution_result result = report
        /\ interact_with_model env model (S (S d)) (S p) msgs q false st
           = interact_with_model env model (S d) (S p) history report true
               st3)
  /\ (forall command bs ps st2' output error st3,
        extract_code_blocks full = (command :: bs, ps) ->
        try_python env (interact_with_model env model (S d) (S p))
          msgs full ps st2 = (Some FallThrough, st2') ->
        execute_bash_command env command st2' = ((output, error), st3) ->
        (output, error) <> (None, None) ->
        let report :=
          "Resultado de '" ++ command ++ "':" ++ NL
          ++ match output with Some out => out | None => EmptyString end
          ++ match error with Some err => err | None => EmptyString end in
        let history :=
          (msgs ++ [mkMessage assistant full; mkMessage user report])%list in
        bash_execution_result command output error = report
        /\ interact_with_model env model (S (S d)) (S p) msgs q false st
           = interact_with_model env model (S d) (S p) history report true
               st3)
  /\ (forall history report st3, exists out w,
        ollama_chat env model history (world st3) = (out, w)
        /\ interact_with_model env model (S d) (S p) history report true st3
           = (Some (Ok (history ++ [closing_message out])%list),
              mkSt w (trace st3 ++ [EvTurn true; EvChat history])%list)).
Proof.
  assert (Htop := body_top_level env model
                    (interact_with_model env model (S d) (S p))
                    p msgs q st cur full st2 Hans).
  change (interact_with_model_body env model
            (interact_with_model env model (S d) (S p)) (S p))
    with (interact_with_model env model (S (S d)) (S p)) in Htop.
  split; [reflexivity |]. split; [| split].
  - intros bs code ps result st3 Hex Hpy Hresult. cbv zeta.
    split; [reflexivity |].
    assert (Htruthy : truthy result = true)
      by (destruct result; [contradiction | reflexivity]).
    rewrite Htop. unfold process_code. rewrite Hex. unfold bind.
    cbn [try_python]. unfold bind. rewrite Hpy, Htruthy.
    rewrite recurse_returns, interact_processing_code. cbv zeta.
    destruct (ollama_chat env model _ (world st3)) as [out w]. reflexivity.
  - intros command bs ps st2' output error st3 Hex Hpy Hsh Hsome. cbv zeta.
    split; [reflexivity |].
    assert (Hnone : is_not_None output || is_not_None error = true)
      by (destruct output, error; try reflexivity; contradiction).
    rewrite Htop. unfold process_code. rewrite Hex. unfold bind.
    rewrite Hpy. cbn [try_bash]. unfold bind. rewrite Hsh, Hnone.
    apply recurse_is_nested_call.
  - intros nm er st3. rewrite interact_processing_code.
    destruct (ollama_chat env model nm (world st3)) as [out w].
    now exists out, w.
Qed.

(** C4: when the response carries a script block and a shell block, the
    script prompt is the first event after the answer of the model, before
    anything the shell block could cause; and when the script yields a
    non-empty output the turn is the nested call at once: the remaining
    events are the entry of the nested call and its model call, none of
    them a shell event. *)
Theorem script_is_tried_before_shell (d p : nat) (msgs : list Message)
    (q : string) (st : St W) (cur : list Message) (full : string)
    (st2 : St W) (command : string) (bs : list string) (code : string)
    (ps : list string)
    (Hans : model_answers env model msgs q st = Some (cur, full, st2))
    (Hex : extract_code_blocks full = (command :: bs, code :: ps)) :
  (exists r st' evs,
      interact_with_model env model (S (S d)) (S p) msgs q false st
      = (Some r, st')
      /\ trace st' = (trace st2 ++ EvPython code :: evs)%list)
  /\ (forall result st3,
        execute_python_code env code st2 = (Ok result, st3) ->
        truthy result = true ->
        exists out w,
          ollama_chat env model
            (new_messages msgs full (python_execution_result result))
            (world st3) = (out, w)
          /\ interact_with_model env model (S (S d)) (S p) msgs q false st
             = (Some (Ok (new_messages msgs full
                            (python_execution_result result)
                          ++ [closing_message out])%list),
                mkSt w (trace st2
                        ++ [EvPython code; EvTurn true;
                            EvChat (new_messages msgs full
                                      (python_execution_result result))])%list)
          /\ existsb is_bash_event
               [EvPython code; EvTurn true;
                EvChat (new_messages msgs full
                          (python_execution_result result))] = false).
Proof.
  assert (Htop := body_top_level env model
                    (interact_with_model env model (S d) (S p))
                    p msgs q st cur full st2 Hans).
  change (interact_with_model_body env model
            (interact_with_model env model (S d) (S p)) (S p))
    with (interact_with_model env model (S (S d)) (S p)) in Htop.
  split.
  - destruct (process_code_total env model d p msgs full st2)
      as (f & st3 & evs & E & Ht & _ & Hfirst).
    rewrite Hex in Hfirst. cbn [snd] in Hfirst. destruct Hfirst as [evs' ->].
    rewrite Htop, E.
    destruct f as [| e | h | x]; eexists _, st3, evs';
      (split; [reflexivity | exact Ht]).
  - intros result st3 Hpy Htruthy.
    rewrite Htop. unfold process_code. rewrite Hex. unfold bind.
    cbn [try_python]. unfold bind. rewrite Hpy, Htruthy.
    rewrite recurse_returns. cbv zeta.
    rewrite execute_python_code_run in Hpy.
    destruct (ask_python env code (world st2)) as [answer w3].
    injection Hpy as _ <-. cbn [world trace].
    destruct (ollama_chat env model _ w3) as [out w].
    exists out, w. split; [reflexivity |]. split; [| reflexivity].
    cbn [finish]. now rewrite <- app_assoc.
Qed.

(** C3 (amended): when the chosen block is a script and the user cancels,
    no nested call is made for the script and the turn goes on with the
    shell stage as if there were no script; without a shell block the turn
    is final: a call depth of one is enough, the working history is
    returned as it is and the script prompt is the last event.  When the
    user chooses to save, the executor returns a non-empty text (the
    confirmation, or the error of the write) and the turn is the nested
    call on that text. *)
Theorem cancel_goes_on_and_save_recurses (d p : nat) (msgs : list Message)
    (q : string) (st : St W) (cur : list Message) (full : string)
    (st2 : St W) (bs : list string) (code : string) (ps : list string)
    (Hans : model_answers env model msgs q st = Some (cur, full, st2))
    (Hex : extract_code_blocks full = (bs, code :: ps)) :
  (forall w3,
      ask_python env code (world st2) = (PyCancel, w3) ->
      interact_with_model env model (S d) (S p) msgs q false st
      = (let (f, st4) :=
           try_bash env (interact_with_model env model d (S p)) msgs full bs
             (mkSt w3 (trace st2 ++ [EvPython code])%list) in
         (finish cur full f, st4))
      /\ (bs = [] ->
          interact_with_model env model (S d) (S p) msgs q false st
          = (Some (Ok (cur ++ [mkMessage assistant full])%list),
             mkSt w3 (trace st2 ++ [EvPython code])%list)))
  /\ (forall filename write_error w3,
        ask_python env code (world st2) = (PySave filename write_error, w3) ->
        exists text,
          python_result (PySave filename write_error) = Ok text
          /\ truthy text = true
          /\ interact_with_model env model (S (S d)) (S p) msgs q false st
             = interact_with_model env model (S d) (S p)
                 (new_messages msgs full (python_execution_result text))
                 (python_execution_result text) true
                 (mkSt w3 (trace st2 ++ [EvPython code])%list)).
Proof.
  split.
  - intros w3 Hask.
    assert (Hrun := body_top_level_script env model
                      (interact_with_model env model d (S p))
                      p msgs q st cur full st2 bs code ps PyCancel w3
                      Hans Hex Hask).
    change (interact_with_model_body env model
              (interact_with_model env model d (S p)) (S p))
      with (interact_with_model env model (S d) (S p)) in Hrun.
    cbv zeta in Hrun. cbn [python_result truthy] in Hrun.
    split; [exact Hrun |]. intros ->. exact Hrun.
  - intros filename write_error w3 Hask.
    assert (Hrun := body_top_level_script env model
                      (interact_with_model env model (S d) (S p))
                      p msgs q st cur full st2 bs code ps
                      (PySave filename write_error) w3 Hans Hex Hask).
    change (interact_with_model_body env model
              (interact_with_model env model (S d) (S p)) (S p))
      with (interact_with_model env model (S (S d)) (S p)) in Hrun.
    cbv zeta in Hrun.
    destruct write_error as [e|]; cbn [python_result] in Hrun |- *;
      eexists; (split; [reflexivity |]); (split; [reflexivity |]);
      rewrite Hrun; cbn [truthy append]; apply recurse_is_nested_call.
Qed.

End Claims.

Import Scripted.

Lemma system_command_bypasses_retrieval_witness :
  In "/help" system_commands
  /\ current_messages env hist "/help" false (start world_context)
     = (Ok hist, start world_context).
Proof.
  split; [now left |].
  exact (proj1 (system_command_bypasses_retrieval env model_name
                  "/help" EmptyString hist (start world_context)
                  (or_introl eq_refl))).
Defined.

Lemma declined_sentinel_is_distinguishable_witness :
  ask_bash env (clean_command "ls") (world (start world_declined))
  = (BashDeclined, after_bash world_declined)
  /\ fst (execute_bash_command env "ls" (start world_declined)) = (None, None)
  /\ ask_bash env (clean_command "ls") (world (start world_silent))
     = (BashRan EmptyString EmptyString, after_bash world_silent)
  /\ fst (execute_bash_command env "ls" (start world_silent))
     = (Some EmptyString, Some EmptyString).
Proof.
  pose proof (declined_sentinel_is_distinguishable env "ls"
                (start world_declined) (after_bash world_declined) eq_refl)
    as (Hdeclined & Hsilent & _).
  split; [reflexivity |]. split; [exact Hdeclined |].
  split; [reflexivity |].
  exact (Hsilent (start world_silent) (after_bash world_silent) eq_refl).
Defined.

Lemma comment_only_block_has_no_command_witness :
  first_block bash_patterns comment_only_text = [comment_only_block]
  /\ forallb blank_or_comment (split_nl comment_only_block) = true
  /\ fst (extract_code_blocks comment_only_text) = [].
Proof.
  split; [reflexivity |]. split; [reflexivity |].
  exact (proj1 (comment_only_block_has_no_command env
                  comment_only_text comment_only_block eq_refl eq_refl)).
Defined.

Lemma execution_result_recurses_once_witness :
  (model_answers env model_name hist "q" (start world_run)
   = Some (hist, script_and_shell, answered world_run)
   /\ execute_python_code env "print(1)" (answered world_run)
      = (Ok ("1" ++ NL),
         mkSt (after_python (after_chat world_run))
           [EvTurn false; EvRetrieve "q"; EvChat hist; EvPython "print(1)"])
   /\ interact_with_model env model_name 2 1 hist "q" false (start world_run)
      = interact_with_model env model_name 1 1
          [sys; mkMessage user "q"; mkMessage assistant script_and_shell;
           mkMessage user
             ("Resultado de la ejecuci" ++ o_acute ++ "n:" ++ NL ++ "1" ++ NL)]
          ("Resultado de la ejecuci" ++ o_acute ++ "n:" ++ NL ++ "1" ++ NL)
          true
          (mkSt (after_python (after_chat world_run))
             [EvTurn false; EvRetrieve "q"; EvChat hist; EvPython "print(1)"]))
  /\ (model_answers env model_name hist "q" (start world_shell)
      = Some (hist, shell_only, answered world_shell)
      /\ execute_bash_command env "ls" (answered world_shell)
         = ((Some ("file.txt" ++ NL), Some EmptyString),
            mkSt (after_bash (after_chat world_shell))
              [EvTurn false; EvRetrieve "q"; EvChat hist; EvBash "ls"])
      /\ interact_with_model env model_name 2 1 hist "q" false
           (start world_shell)
         = interact_with_model env model_name 1 1
             [sys; mkMessage user "q"; mkMessage assistant shell_only;
              mkMessage user ("Resultado de 'ls':" ++ NL ++ "file.txt" ++ NL)]
             ("Resultado de 'ls':" ++ NL ++ "file.txt" ++ NL) true
             (mkSt (after_bash (after_chat world_shell))
                [EvTurn false; EvRetrieve "q"; EvChat hist; EvBash "ls"])).
Proof.
  split.
  - split; [reflexivity |]. split; [reflexivity |].
    refine (proj2 (proj1 (proj2
                    (execution_result_recurses_once env model_name 0 0
                       hist "q" (start world_run) hist script_and_shell
                       (answered world_run) eq_refl))
                     ["ls"] "print(1)" [] ("1" ++ NL) _ eq_refl eq_refl _)).
    discriminate.
  - split; [reflexivity |]. split; [reflexivity |].
    refine (proj2 (proj1 (proj2 (proj2
                    (execution_result_recurses_once env model_name 0 0
                       hist "q" (start world_shell) hist shell_only
                       (answered world_shell) eq_refl)))
                     "ls" [] [] (answered world_shell)
                     (Some ("file.txt" ++ NL)) (Some EmptyString) _
                     eq_refl eq_refl eq_refl _)).
    discriminate.
Defined.

Lemma script_is_tried_before_shell_witness :
  model_answers env model_name hist "q" (start world_run)
  = Some (hist, script_and_shell, answered world_run)
  /\ extract_code_blocks script_and_shell = (["ls"], ["print(1)"])
  /\ (exists r st' evs,
        interact_with_model env model_name 2 1 hist "q" false (start world_run)
        = (Some r, st')
        /\ trace st'
           = (trace (answered world_run) ++ EvPython "print(1)" :: evs)%list)
  /\ execute_python_code env "print(1)" (answered world_run)
     = (Ok ("1" ++ NL),
        mkSt (after_python (after_chat world_run))
          [EvTurn false; EvRetrieve "q"; EvChat hist; EvPython "print(1)"])
  /\ trace (snd (interact_with_model env model_name 2 1 hist "q" false
                   (start world_run)))
     = (trace (answered world_run)
        ++ [EvPython "print(1)"; EvTurn true;
            EvChat (new_messages hist script_and_shell
                      (python_execution_result ("1" ++ NL)))])%list.
Proof.
  pose proof (script_is_tried_before_shell env model_name 0 0
                hist "q" (start world_run) hist script_and_shell
                (answered world_run) "ls" [] "print(1)" []
                eq_refl eq_refl) as [Hfirst Houtput].
  split; [reflexivity |]. split; [reflexivity |]. split; [exact Hfirst |].
  split; [reflexivity |].
  destruct (Houtput ("1" ++ NL) _ eq_refl eq_refl) as (out & w & _ & E & _).
  rewrite E. reflexivity.
Defined.

Lemma cancel_goes_on_and_save_recurses_witness :
  (model_answers env model_name hist "q" (start world_save)
   = Some (hist, script_only, answered world_save)
   /\ extract_code_blocks script_only = ([], ["print(1)"])
   /\ ask_python env "print(1)" (world (answered world_save))
      = (PySave "script.py" None, after_python (after_chat world_save))
   /\ exists text,
        python_result (PySave "script.py" None) = Ok text
        /\ truthy text = true
        /\ interact_with_model env model_name 2 1 hist "q" false
             (start world_save)
           = interact_with_model env model_name 1 1
               (new_messages hist script_only (python_execution_result text))
               (python_execution_result text) true
               (mkSt (after_python (after_chat world_save))
                  (trace (answered world_save) ++ [EvPython "print(1)"])%list))
  /\ (model_answers env model_name hist "q" (start world_cancel_only)
      = Some (hist, script_only, answered world_cancel_only)
      /\ ask_python env "print(1)" (world (answered world_cancel_only))
         = (PyCancel, after_python (after_chat world_cancel_only))
      /\ interact_with_model env model_name 1 1 hist "q" false
           (start world_cancel_only)
         = (Some (Ok (hist ++ [mkMessage assistant script_only])%list),
            mkSt (after_python (after_chat world_cancel_only))
              (trace (answered world_cancel_only)
               ++ [EvPython "print(1)"])%list)).
Proof.
  split.
  - split; [reflexivity |]. split; [reflexivity |]. split; [reflexivity |].
    exact (proj2 (cancel_goes_on_and_save_recurses env model_name 0 0
                    hist "q" (start world_save) hist script_only
                    (answered world_save) [] "print(1)" [] eq_refl eq_refl)
             "script.py" None (after_python (after_chat world_save)) eq_refl).
  - split; [reflexivity |]. split; [reflexivity |].
    exact (proj2 (proj1 (cancel_goes_on_and_save_recurses env model_name 0 0
                           hist "q" (start world_cancel_only) hist script_only
                           (answered world_cancel_only) [] "print(1)" []
                           eq_refl eq_refl)
                    (after_python (after_chat world_cancel_only)) eq_refl)
             eq_refl).
Defined.

(** The end-to-end scenario: the model emits a bash block, the user
    confirms, the command prints [file.txt]; the nested turn receives a
    user message with that output and the history returned ends with the
    follow-up of the model. *)
Example confirmed_shell_block_end_to_end :
  interact_with_model env model_name 2 1 hist "q" false (start world_shell)
  = (Some (Ok [sys; mkMessage user "q"; mkMessage assistant shell_only;
               mkMessage user
                 ("Resultado de 'ls':" ++ NL ++ "file.txt" ++ NL);
               mkMessage assistant "listed"]),
     mkSt (after_bash (after_chat (after_chat world_shell)))
       [EvTurn false; EvRetrieve "q"; EvChat hist; EvBash "ls"; EvTurn true;
        EvChat [sys; mkMessage user "q"; mkMessage assistant shell_only;
                mkMessage user
                  ("Resultado de 'ls':" ++ NL ++ "file.txt" ++ NL)]]).
Proof. reflexivity. Qed.

(** A declined shell command ends the turn with the working history. *)
Example declined_shell_block_end_to_end :
  interact_with_model env model_name 1 1 hist "q" false (start world_declined)
  = (Some (Ok [sys; mkMessage user "q"; mkMessage assistant shell_only]),
     mkSt (after_bash (after_chat world_declined))
       [EvTurn false; EvRetrieve "q"; EvChat hist; EvBash "ls"]).
Proof. reflexivity. Qed.

(** C3, as stated, fails.  When the user saves the script the turn is not
    final: the engine enters a nested call and the returned history is not
    the working history.  When the user cancels a script that is followed
    by a shell block, that block is executed in the same turn. *)
Lemma save_and_cancel_are_not_final :
  ask_python env "print(1)" (world (answered world_save))
  = (PySave "script.py" None, after_python (after_chat world_save))
  /\ fst (interact_with_model env model_name 2 1 hist "q" false
            (start world_save))
     = Some (Ok (hist ++ [mkMessage assistant script_only;
                          mkMessage user (python_execution_result saved_text);
                          mkMessage assistant "saved"])%list)
  /\ fst (interact_with_model env model_name 2 1 hist "q" false
            (start world_save))
     <> Some (Ok (hist ++ [mkMessage assistant script_only])%list)
  /\ count_turns
       (trace (snd (interact_with_model env model_name 2 1 hist "q" false
                      (start world_save)))) = 2
  /\ ask_python env "print(1)" (world (answered world_cancel))
     = (PyCancel, after_python (after_chat world_cancel))
  /\ trace (snd (interact_with_model env model_name 2 1 hist "q" false
                   (start world_cancel)))
     = [EvTurn false; EvRetrieve "q"; EvChat hist; EvPython "print(1)";
        EvBash "ls"; EvTurn true;
        EvChat (new_messages hist script_and_shell
                  (bash_execution_result "ls" (Some ("file.txt" ++ NL))
                     (Some EmptyString)))].
Proof.
  repeat split; try reflexivity.
  intros H. vm_compute in H. discriminate H.
Qed.

(** C2, on the code: a query for which retrieval finds context, answered
    without code.  The history that the engine returns, and that [run]
    keeps for the next query, starts with the augmented system message and
    not with the original one; on the next query the model receives a
    system message augmented twice. *)
Theorem augmented_system_message_is_returned :
  run_query env model_name 2 1 [sys] "q" (start world_context)
  = (Some [mkMessage system (enhanced_system_message (content sys) "CTX");
           mkMessage user "q"; mkMessage assistant "hello"],
     mkSt (after_chat world_context)
       [EvTurn false; EvRetrieve "q";
        EvChat [mkMessage system (enhanced_system_message (content sys) "CTX");
                mkMessage user "q"]])
  /\ mkMessage system (enhanced_system_message (content sys) "CTX") <> sys
  /\ fst (run_query env model_name 2 1
            [mkMessage system (enhanced_system_message (content sys) "CTX");
             mkMessage user "q"; mkMessage assistant "hello"]
            "q" (start (after_chat world_context)))
     = Some [mkMessage system
               (enhanced_system_message
                  (enhanced_system_message (content sys) "CTX") "CTX");
             mkMessage user "q"; mkMessage assistant "hello";
             mkMessage user "q"; mkMessage assistant "again"].
Proof.
  repeat split; try reflexivity.
  intros H. vm_compute in H. discriminate H.
Qed.

(** C6, on the code: retrieval finds context and the chat transport fails
    before it yields a token, on the first piece of the stream.  The engine
    appends one assistant message with the error text and ends the turn,
    but to the working copy: the history returned starts with the
    augmented system message, so it is not the input history followed by
    one message, and [run] keeps it.  When the call that opens the chat
    raises, the sibling path of line 98 returns the input history followed
    by the error message. *)
Theorem stream_failure_returns_augmented_history :
  interact_with_model env model_name 1 1 hist "q" false
    (start world_stream_down)
  = (Some (Ok [mkMessage system (enhanced_system_message (content sys) "CTX");
               mkMessage user "q";
               mkMessage assistant "Error: connection refused"]),
     mkSt (after_chat world_stream_down)
       [EvTurn false; EvRetrieve "q";
        EvChat [mkMessage system (enhanced_system_message (content sys) "CTX");
                mkMessage user "q"]])
  /\ (forall m,
        fst (interact_with_model env model_name 1 1 hist "q" false
               (start world_stream_down))
        <> Some (Ok (hist ++ [m])%list))
  /\ fst (run_query env model_name 1 1 [sys] "q" (start world_stream_down))
     = Some [mkMessage system (enhanced_system_message (content sys) "CTX");
             mkMessage user "q";
             mkMessage assistant "Error: connection refused"]
  /\ fst (interact_with_model env model_name 1 1 hist "q" false
            (start world_down))
     = Some (Ok (hist ++ [mkMessage assistant
                            "Error conectando con Ollama: connection refused"])%list).
Proof.
  split; [reflexivity |]. split; [| split; reflexivity].
  intros m H. vm_compute in H. discriminate H.
Qed.

End EngineSpec.

(* ===================================================================== *)
(** * More about the extractor *)
(* ===================================================================== *)

Module ExtractorMore.
Import PyStr Model Utils Notions TextNotions PyStrFacts ExtractorFacts.

Lemma first_block_at_most_one (patterns : list string) (text : string) :
  first_block patterns text = [] \/ exists m, first_block patterns text = [m].
Proof.
  induction patterns as [|p ps IH]; cbn [first_block]; [now left |].
  destruct (re_findall p text) as [|m ms]; [exact IH | right; now exists m].
Qed.

Lemma clean_bash_at_most_one (block : string) :
  List.length (clean_bash block) <= 1.
Proof.
  unfold clean_bash.
  destruct (scan_command _) as [c|]; [destruct (truthy c) |]; simpl; lia.
Qed.

(** X1: extraction keeps at most one block of each kind. *)
Theorem at_most_one_block_per_kind (text : string) :
  List.length (fst (extract_code_blocks text)) <= 1
  /\ List.length (snd (extract_code_blocks text)) <= 1.
Proof.
  unfold extract_code_blocks. cbv zeta. cbn [fst snd]. split.
  - destruct (first_block_at_most_one bash_patterns text) as [-> | [m ->]].
    + simpl. lia.
    + cbn [flat_map]. rewrite app_nil_r. apply clean_bash_at_most_one.
  - rewrite length_map.
    destruct (first_block_at_most_one python_patterns text) as [-> | [m ->]];
      simpl; lia.
Qed.

Lemma all_chars_app (f : ascii -> bool) (a b : string) :
  all_chars f (a ++ b) = all_chars f a && all_chars f b.
Proof.
  induction a as [|c a IH]; simpl; [reflexivity |].
  now rewrite IH, andb_assoc.
Qed.

Lemma all_chars_lstrip (f : ascii -> bool) (s : string) :
  all_chars f s = true -> all_chars f (lstrip s) = true.
Proof.
  induction s as [|c s IH]; simpl; [trivial |].
  intros H. destruct (is_space c); [| exact H].
  apply andb_prop in H as [_ H]. now apply IH.
Qed.

Lemma all_chars_rstrip (f : ascii -> bool) (s : string) :
  all_chars f s = true -> all_chars f (rstrip s) = true.
Proof.
  induction s as [|c s IH]; simpl; [trivial |].
  intros H. apply andb_prop in H as [Hc Hs]. specialize (IH Hs).
  destruct (rstrip s) as [|d r].
  - destruct (is_space c); simpl; [reflexivity | now rewrite Hc].
  - change (all_chars f (String c (String d r)))
      with (f c && all_chars f (String d r)). now rewrite Hc, IH.
Qed.

Lemma all_chars_strip (f : ascii -> bool) (s : string) :
  all_chars f s = true -> all_chars f (strip s) = true.
Proof. intros H. unfold strip. now apply all_chars_rstrip, all_chars_lstrip. Qed.

Lemma all_chars_drop (f : ascii -> bool) (n : nat) (s : string) :
  all_chars f s = true -> all_chars f (drop n s) = true.
Proof.
  revert s. induction n as [|n IH]; intros [|c s]; simpl; trivial.
  intros H. apply andb_prop in H as [_ H]. now apply IH.
Qed.

(** The lines that [split('\n')] gives carry no line feed. *)
Lemma split_nl_single_line (s : string) :
  forallb single_line (split_nl s) = true.
Proof.
  induction s as [|c s IH]; [reflexivity |]. cbn [split_nl].
  destruct (Ascii.eqb c nl) eqn:E.
  - cbn [forallb]. now rewrite IH.
  - destruct (split_nl s) as [|h t]; cbn [forallb] in *.
    + unfold single_line. simpl. now rewrite E.
    + apply andb_prop in IH as [Hh Ht]. rewrite Ht.
      unfold single_line in *. simpl. now rewrite E, Hh.
Qed.

Lemma rstrip_idempotent (s : string) : rstrip (rstrip s) = rstrip s.
Proof.
  induction s as [|c s IH]; [reflexivity |]. cbn [rstrip].
  destruct (rstrip s) as [|d r] eqn:E.
  - destruct (is_space c) eqn:Hc; [reflexivity |]. simpl. now rewrite Hc.
  - cbn [rstrip]. cbn [rstrip] in IH.
    destruct (match rstrip r with
              | EmptyString =>
                  if is_space d then EmptyString else String d EmptyString
              | String a s0 => String d (String a s0)
              end) as [|x y]; [discriminate | now rewrite IH].
Qed.

Lemma lstrip_begins_tight (s : string) : begins_tight (lstrip s) = true.
Proof.
  induction s as [|c s IH]; [reflexivity |]. simpl.
  destruct (is_space c) eqn:Hc; [exact IH |]. simpl. now rewrite Hc.
Qed.

Lemma lstrip_tight (s : string) : begins_tight s = true -> lstrip s = s.
Proof.
  destruct s as [|c s]; [reflexivity |]. simpl. intros H.
  apply negb_true_iff in H. now rewrite H.
Qed.

Lemma rstrip_begins_tight (s : string) :
  begins_tight s = true -> begins_tight (rstrip s) = true.
Proof.
  destruct s as [|c s]; [reflexivity |]. simpl. intros H.
  destruct (rstrip s); [| exact H].
  apply negb_true_iff in H. rewrite H. simpl. now rewrite H.
Qed.

Lemma strip_idempotent (s : string) : strip (strip s) = strip s.
Proof.
  unfold strip.
  rewrite (lstrip_tight (rstrip (lstrip s)))
    by apply rstrip_begins_tight, lstrip_begins_tight.
  apply rstrip_idempotent.
Qed.

Lemma strip_prompt_stripped (l : string) :
  strip (strip_prompt (strip l)) = strip_prompt (strip l).
Proof.
  unfold strip_prompt. destruct (startswith "$" (strip l));
    apply strip_idempotent.
Qed.

Lemma first_actionable_line_shape (block cmd : string) :
  In cmd (first_actionable_line block) ->
  truthy cmd = true /\ single_line cmd = true /\ strip cmd = cmd.
Proof.
  unfold first_actionable_line.
  destruct (find actionable (map strip (split_nl block))) as [l|] eqn:E;
    [| intros []].
  intros [<- | []]. apply find_some in E as [Hin Hact].
  apply in_map_iff in Hin as (line & <- & Hline).
  unfold actionable in Hact. apply andb_prop in Hact as [_ Htruthy].
  split; [exact Htruthy |]. split; [| apply strip_prompt_stripped].
  assert (Hs : single_line (strip line) = true).
  { apply all_chars_strip.
    pose proof (split_nl_single_line block) as Hall.
    rewrite forallb_forall in Hall. now apply Hall. }
  unfold strip_prompt. destruct (startswith "$" (strip line)); [| exact Hs].
  now apply all_chars_strip, all_chars_drop.
Qed.

(** X2: every shell command that extraction returns is non-empty, lies on
    one line and carries no whitespace at either end. *)
Theorem extracted_command_is_one_trimmed_line (text cmd : string)
    (Hin : In cmd (fst (extract_code_blocks text))) :
  truthy cmd = true /\ single_line cmd = true /\ strip cmd = cmd.
Proof.
  unfold extract_code_blocks in Hin. cbv zeta in Hin. cbn [fst] in Hin.
  apply in_flat_map in Hin as (block & _ & Hin).
  rewrite clean_bash_first_actionable in Hin.
  now apply (first_actionable_line_shape block).
Qed.

Lemma extracted_command_is_one_trimmed_line_witness :
  In "ls -la" (fst (extract_code_blocks commented_ls))
  /\ truthy "ls -la" = true /\ single_line "ls -la" = true
  /\ strip "ls -la" = "ls -la".
Proof.
  split; [now left |].
  exact (extracted_command_is_one_trimmed_line commented_ls "ls -la"
           (or_introl eq_refl)).
Defined.

Lemma prefix_trans (a b s : string) :
  String.prefix a b = true -> String.prefix b s = true ->
  String.prefix a s = true.
Proof.
  revert b s. induction a as [|x a IH]; intros b s Hab Hbs.
  - now destruct s.
  - destruct b as [|y b]; [discriminate |].
    destruct s as [|z s]; [discriminate |]. simpl in *.
    destruct (ascii_dec x y) as [-> |]; [| discriminate].
    destruct (ascii_dec y z) as [-> |]; [| discriminate].
    now apply (IH b s).
Qed.

Lemma match_here_fence (opening s : string) :
  String.prefix fence opening = true ->
  match_here opening s <> None -> String.prefix fence s = true.
Proof.
  intros Hf. unfold match_here.
  destruct (String.prefix opening s) eqn:E; [| congruence].
  intros _. now apply (prefix_trans fence opening s).
Qed.

Lemma findall_without_fence (opening : string) (n : nat) :
  String.prefix fence opening = true ->
  forall s, contains fence s = false -> findall_from n opening s = [].
Proof.
  intros Hf. induction n as [|n IH]; intros s Hs; [reflexivity |].
  cbn [findall_from].
  destruct (match_here opening s) as [[body rest]|] eqn:E.
  - assert (Hp : String.prefix fence s = true)
      by (apply (match_here_fence opening s Hf); congruence).
    destruct s as [|c s]; [discriminate Hp |].
    cbn [contains] in Hs. rewrite Hp in Hs. discriminate.
  - destruct s as [|c s]; [reflexivity |]. apply IH.
    cbn [contains] in Hs. now apply orb_false_elim in Hs as [_ Hs].
Qed.

Lemma first_block_without_fence (patterns : list string) (text : string) :
  forallb (String.prefix fence) patterns = true ->
  contains fence text = false -> first_block patterns text = [].
Proof.
  induction patterns as [|p ps IH]; [reflexivity |]. cbn [forallb first_block].
  intros H Ht. apply andb_prop in H as [Hp Hps].
  unfold re_findall. rewrite (findall_without_fence p _ Hp text Ht).
  now apply IH.
Qed.

Lemma extract_without_fence (text : string) :
  contains fence text = false -> extract_code_blocks text = ([], []).
Proof.
  intros Hfence. unfold extract_code_blocks. cbv zeta.
  rewrite (first_block_without_fence bash_patterns text eq_refl Hfence).
  rewrite (first_block_without_fence python_patterns text eq_refl Hfence).
  reflexivity.
Qed.

(** X3: a text in which no triple backtick occurs yields no block of
    either kind. *)
Theorem no_fence_no_block (text : string)
    (Hfence : contains fence text = false) :
  extract_code_blocks text = ([], []).
Proof. now apply extract_without_fence. Qed.

Lemma no_fence_no_block_witness :
  contains fence "Run ls -la in a `shell`." = false
  /\ extract_code_blocks "Run ls -la in a `shell`." = ([], []).
Proof.
  split; [reflexivity |].
  exact (no_fence_no_block "Run ls -la in a `shell`." eq_refl).
Defined.

Lemma prefix_app_l (p q s : string) :
  String.prefix (p ++ q) s = true -> String.prefix p s = true.
Proof.
  revert s. induction p as [|x p IH]; intros s H.
  - now destruct s.
  - destruct s as [|z s]; [discriminate |]. simpl in *.
    destruct (ascii_dec x z); [now apply IH | discriminate].
Qed.

Lemma lazy_until_fence_cons (c : ascii) (s : string) :
  lazy_until_fence s <> None -> lazy_until_fence (String c s) <> None.
Proof.
  intros H. unfold lazy_until_fence; fold lazy_until_fence.
  destruct (String.prefix fence (String c s)); [discriminate |].
  destruct (lazy_until_fence s) as [[b r]|]; [discriminate | congruence].
Qed.

Lemma lazy_until_fence_drop (k : nat) (s : string) :
  lazy_until_fence (drop k s) <> None -> lazy_until_fence s <> None.
Proof.
  revert s. induction k as [|k IH]; intros s; [trivial |].
  destruct s as [|c s]; [trivial |]. cbn [drop]. intros H.
  now apply lazy_until_fence_cons, IH.
Qed.

Lemma drop_add (a b : nat) (s : string) :
  drop (a + b) s = drop b (drop a s).
Proof.
  revert s. induction a as [|a IH]; intros s; [reflexivity |].
  destruct s as [|c s]; [now destruct b | apply IH].
Qed.

Lemma length_append (p q : string) :
  String.length (p ++ q) = String.length p + String.length q.
Proof. induction p as [|c p IH]; simpl; [reflexivity | now rewrite IH]. Qed.

(** A longer opening matches only where its beginning matches. *)
Lemma match_here_app (p q s : string) :
  match_here (p ++ q) s <> None -> match_here p s <> None.
Proof.
  unfold match_here.
  destruct (String.prefix (p ++ q) s) eqn:E; [| congruence].
  rewrite (prefix_app_l p q s E), length_append, drop_add.
  apply lazy_until_fence_drop.
Qed.

Lemma findall_nil_mono (p1 p3 : string) (n : nat) :
  (forall s, match_here p3 s <> None -> match_here p1 s <> None) ->
  forall s, findall_from n p1 s = [] -> findall_from n p3 s = [].
Proof.
  intros Hm. induction n as [|n IH]; intros s; [trivial |].
  cbn [findall_from].
  destruct (match_here p1 s) as [[b r]|] eqn:E1; [discriminate |].
  destruct (match_here p3 s) as [[b r]|] eqn:E3.
  - exfalso. apply (Hm s); congruence.
  - destruct s as [|c s]; [trivial | apply IH].
Qed.

(** X4: the third bash pattern, with the prompt marker behind the fence,
    never decides: wherever it matches the first pattern has matched
    already, so the block is taken with its prompt marker inside and the
    normalization removes it. *)
Theorem third_bash_pattern_never_decides (text : string) :
  first_block bash_patterns text
  = first_block ["```bash" ++ NL; "```" ++ NL ++ "$ "] text.
Proof.
  unfold bash_patterns. cbn [first_block].
  destruct (re_findall ("```bash" ++ NL) text) as [|m ms] eqn:E1;
    [| reflexivity].
  destruct (re_findall ("```" ++ NL ++ "$ ") text) as [|m ms]; [| reflexivity].
  unfold re_findall in *.
  rewrite (findall_nil_mono ("```bash" ++ NL) ("```bash" ++ NL ++ "$ ") _
             (fun s => match_here_app ("```bash" ++ NL) "$ " s) text E1).
  reflexivity.
Qed.

Lemma prefix_app_self (p x : string) : String.prefix p (p ++ x) = true.
Proof.
  induction p as [|c p IH]; simpl; [now destruct x |].
  destruct (ascii_dec c c); [exact IH | contradiction].
Qed.

Lemma drop_app_self (p x : string) : drop (String.length p) (p ++ x) = x.
Proof. induction p as [|c p IH]; [reflexivity | exact IH]. Qed.

Lemma prefix_cons (a c : ascii) (p s : string) :
  String.prefix (String a p) (String c s)
  = if ascii_dec a c then String.prefix p s else false.
Proof. reflexivity. Qed.

(** An opening that begins with a backtick does not match at any other
    character. *)
Lemma prefix_backtick_false (p x : string) (c : ascii) :
  String.prefix "`" p = true -> Ascii.eqb c backtick = false ->
  String.prefix p (String c x) = false.
Proof.
  destruct p as [|a p]; [discriminate |]. rewrite !prefix_cons.
  destruct (ascii_dec "`" a) as [<- |]; [| discriminate]. intros _ Hc.
  destruct (ascii_dec "`" c) as [<- |]; [| reflexivity].
  unfold backtick in Hc. now rewrite Ascii.eqb_refl in Hc.
Qed.

Lemma lazy_until_fence_here (s : string) :
  String.prefix fence s = true ->
  lazy_until_fence s = Some (EmptyString, drop 3 s).
Proof.
  intros H. destruct s as [|c s]; [discriminate H |].
  unfold lazy_until_fence; fold lazy_until_fence. now rewrite H.
Qed.

(** The lazy group stops at the closing fence when the body has no
    backtick of its own. *)
Lemma lazy_until_fence_body (body rest : string) :
  no_backtick body = true ->
  lazy_until_fence (body ++ fence ++ rest) = Some (body, rest).
Proof.
  induction body as [|c body IH]; intros H.
  - change (EmptyString ++ fence ++ rest) with (fence ++ rest).
    rewrite lazy_until_fence_here by apply prefix_app_self.
    change 3 with (String.length fence).
    now rewrite (drop_app_self fence rest).
  - unfold no_backtick in H. cbn [all_chars] in H.
    apply andb_prop in H as [Hc Hb]. apply negb_true_iff in Hc.
    change (String c body ++ fence ++ rest)
      with (String c (body ++ fence ++ rest)).
    unfold lazy_until_fence; fold lazy_until_fence.
    rewrite (prefix_backtick_false fence _ c eq_refl Hc).
    now rewrite (IH Hb).
Qed.

Lemma findall_behind_text (opening pre body rest : string) (n : nat) :
  String.prefix "`" opening = true ->
  no_backtick pre = true -> no_backtick body = true ->
  String.length pre < n ->
  exists more,
    findall_from n opening (pre ++ opening ++ body ++ fence ++ rest)
    = body :: more.
Proof.
  intros Ho Hpre Hbody. revert n.
  induction pre as [|c pre IH]; intros n Hn.
  - destruct n as [|n]; [simpl in Hn; lia |].
    cbn [findall_from append]. unfold match_here.
    rewrite prefix_app_self, drop_app_self, lazy_until_fence_body by assumption.
    now eexists.
  - destruct n as [|n]; [simpl in Hn; lia |].
    unfold no_backtick in Hpre. cbn [all_chars] in Hpre.
    apply andb_prop in Hpre as [Hc Hpre']. apply negb_true_iff in Hc.
    change (String c pre ++ opening ++ body ++ fence ++ rest)
      with (String c (pre ++ opening ++ body ++ fence ++ rest)).
    cbn [findall_from]. unfold match_here.
    rewrite (prefix_backtick_false opening _ c Ho Hc).
    apply IH; [exact Hpre' | simpl in Hn; lia].
Qed.

Lemma first_block_behind_text (opening : string) (others : list string)
    (pre body rest : string) :
  String.prefix "`" opening = true ->
  no_backtick pre = true -> no_backtick body = true ->
  first_block (opening :: others) (pre ++ opening ++ body ++ fence ++ rest)
  = [body].
Proof.
  intros Ho Hpre Hbody. cbn [first_block]. unfold re_findall.
  destruct (findall_behind_text opening pre body rest
              (S (String.length (pre ++ opening ++ body ++ fence ++ rest)))
              Ho Hpre Hbody) as [more ->]; [| reflexivity].
  rewrite length_append. lia.
Qed.

(** X5: a fenced block comes back from extraction.  When neither the text
    before the opening fence nor the body holds a backtick, whatever
    follows the closing fence, a python block is returned as its stripped,
    repaired body and a bash block as the first actionable line of its
    body. *)
Theorem fenced_block_round_trip (pre body rest : string)
    (Hpre : no_backtick pre = true) (Hbody : no_backtick body = true) :
  snd (extract_code_blocks (pre ++ python_fence ++ body ++ fence ++ rest))
  = [clean_python body]
  /\ fst (extract_code_blocks (pre ++ bash_fence ++ body ++ fence ++ rest))
     = first_actionable_line body.
Proof.
  unfold extract_code_blocks. cbv zeta. cbn [fst snd]. split.
  - unfold python_patterns. fold python_fence.
    now rewrite first_block_behind_text.
  - unfold bash_patterns. fold bash_fence.
    rewrite first_block_behind_text by (assumption || reflexivity).
    cbn [flat_map]. rewrite app_nil_r. apply clean_bash_first_actionable.
Qed.

Lemma fenced_block_round_trip_witness :
  no_backtick "Try this: " = true /\ no_backtick ("  print(1) " ++ NL) = true
  /\ snd (extract_code_blocks
            ("Try this: " ++ python_fence ++ ("  print(1) " ++ NL) ++ fence
             ++ " and ```py"))
     = ["print(1)"].
Proof.
  split; [reflexivity |]. split; [reflexivity |].
  exact (proj1 (fenced_block_round_trip "Try this: " ("  print(1) " ++ NL)
                  " and ```py" eq_refl eq_refl)).
Defined.

Lemma prefix_app_r (a b x : string) :
  String.prefix a b = true -> String.prefix a (b ++ x) = true.
Proof.
  revert b. induction a as [|c a IH]; intros b H.
  - now destruct (b ++ x).
  - destruct b as [|d b]; [discriminate H |].
    change (String d b ++ x) with (String d (b ++ x)).
    rewrite prefix_cons in *.
    destruct (ascii_dec c d); [now apply IH | discriminate H].
Qed.

Lemma endswith_app (suf s : string) : endswith suf (s ++ suf) = true.
Proof.
  induction s as [|c s IH].
  - destruct suf; cbn [append endswith]; now rewrite String.eqb_refl.
  - cbn [append endswith]. rewrite IH. apply orb_true_r.
Qed.

Lemma replace_from_skip (old new : string) (k : nat) (s : string) :
  replace_from k old new s = replace_from 0 old new (drop k s).
Proof.
  revert s. induction k as [|k IH]; intros s; [reflexivity |].
  destruct s as [|c s]; [reflexivity | apply IH].
Qed.

Lemma replace_from_cons (old new : string) (c : ascii) (s : string) :
  replace_from 0 old new (String c s)
  = if String.prefix old (String c s)
    then new ++ replace_from 0 old new (drop (String.length old - 1) s)
    else String c (replace_from 0 old new s).
Proof.
  cbn [replace_from]. destruct (String.prefix old (String c s));
    [| reflexivity].
  now rewrite replace_from_skip.
Qed.

(** What the repaired text begins with, the source began with, as long as
    it holds no underscore. *)
Lemma prefix_of_repaired (q : string) :
  all_chars (fun c => negb (Ascii.eqb c "_")) q = true ->
  forall s,
    String.prefix q (replace_from 0 starred_name dunder_name s) = true ->
    String.prefix q s = true.
Proof.
  induction q as [|a q IH]; intros Hq s H.
  - now destruct s.
  - cbn [all_chars] in Hq. apply andb_prop in Hq as [Ha Hq].
    apply negb_true_iff in Ha.
    destruct s as [|c s]; [discriminate H |].
    rewrite replace_from_cons in H.
    destruct (String.prefix starred_name (String c s)).
    + exfalso. unfold dunder_name in H. cbn [append] in H.
      rewrite prefix_cons in H.
      destruct (ascii_dec a "_") as [-> |]; [| discriminate H].
      now rewrite Ascii.eqb_refl in Ha.
    + rewrite prefix_cons in *.
      destruct (ascii_dec a c); [now apply IH | discriminate H].
Qed.

Lemma contains_behind_dunder (r : string) :
  contains starred_name (dunder_name ++ r) = contains starred_name r.
Proof.
  unfold dunder_name. cbn [append].
  repeat (cbn [contains]; unfold starred_name at 1; rewrite prefix_cons;
          match goal with
          | |- context [ascii_dec ?a ?b] =>
              destruct (ascii_dec a b) as [E | _]; [discriminate E |]
          end; cbn [orb]).
  reflexivity.
Qed.

Lemma drop_length_le (k : nat) (s : string) :
  String.length (drop k s) <= String.length s.
Proof. rewrite drop_length. lia. Qed.

Lemma repaired_has_no_starred_name (n : nat) :
  forall s, String.length s <= n ->
            contains starred_name (replace starred_name dunder_name s) = false.
Proof.
  unfold replace. induction n as [|n IH]; intros s Hn.
  - destruct s; [reflexivity | simpl in Hn; lia].
  - destruct s as [|c s]; [reflexivity |]. simpl in Hn.
    rewrite replace_from_cons.
    destruct (String.prefix starred_name (String c s)) eqn:E.
    + rewrite contains_behind_dunder. apply IH.
      pose proof (drop_length_le (String.length starred_name - 1) s). lia.
    + cbn [contains]. rewrite IH by lia. rewrite orb_false_r.
      apply not_true_is_false. intros H.
      unfold starred_name in H, E. rewrite prefix_cons in H, E.
      destruct (ascii_dec "*" c); [| discriminate H].
      apply (prefix_of_repaired "*name**" eq_refl) in H. congruence.
Qed.

(** X6: after the script normalization no [**name**] is left in the
    code, wherever and however often the block held it. *)
Theorem script_normalization_repairs_every_name (block : string) :
  contains starred_name (clean_python block) = false.
Proof.
  unfold clean_python. fold starred_name. fold dunder_name.
  destruct (contains starred_name (strip block)) eqn:E; [| exact E].
  now apply (repaired_has_no_starred_name (String.length (strip block))).
Qed.

End ExtractorMore.

(* ===================================================================== *)
(** * More about the executors *)
(* ===================================================================== *)

Module ExecutorMore.
Import PyStr Model Utils Assistant Notions TextNotions TurnNotions.
Import PyStrFacts ExtractorFacts EngineFacts ExtractorMore.

Section Executors.
Context {W : Type} (env : Env W) (model : string).

Lemma ensure_newline_ends (s : string) :
  ensure_newline s = EmptyString \/ endswith NL (ensure_newline s) = true.
Proof.
  unfold ensure_newline. destruct s as [|c s]; [now left |]. right.
  cbn [truthy andb]. destruct (endswith NL (String c s)) eqn:E; cbn [negb].
  - exact E.
  - apply endswith_app.
Qed.

(** X7: each of the two streams that a confirmed run returns is empty or
    ends with a line feed, and it is empty only when nothing was
    captured. *)
Theorem captured_streams_end_with_newline (command : string) (st st' : St W)
    (out err : string)
    (Hrun : execute_bash_command env command st = ((Some out, Some err), st')) :
  (out = EmptyString \/ endswith NL out = true)
  /\ (err = EmptyString \/ endswith NL err = true)
  /\ exists stdout stderr,
       fst (ask_bash env (clean_command command) (world st))
       = BashRan stdout stderr
       /\ (out = EmptyString <-> stdout = EmptyString)
       /\ (err = EmptyString <-> stderr = EmptyString).
Proof.
  rewrite execute_bash_command_run in Hrun.
  destruct (ask_bash env (clean_command command) (world st)) as [answer w].
  destruct answer as [| stdout stderr | e]; try discriminate Hrun.
  cbn [bash_result] in Hrun. injection Hrun as <- <- _.
  split; [apply ensure_newline_ends |]. split; [apply ensure_newline_ends |].
  exists stdout, stderr. split; [reflexivity |].
  split; unfold ensure_newline.
  - destruct stdout as [|c s]; [tauto |]. cbn [truthy andb].
    destruct (negb _); split; discriminate.
  - destruct stderr as [|c s]; [tauto |]. cbn [truthy andb].
    destruct (negb _); split; discriminate.
Qed.



(** X10: the cleaning that the shell executor does on its own leaves an
    extracted command as it is, apart from one more prompt marker: the
    command that is confirmed and run is the extracted command with a
    leading marker stripped, and the extracted command itself when it
    begins with none. *)
Theorem extracted_command_runs_as_extracted (text cmd : string)
    (Hin : In cmd (fst (extract_code_blocks text))) :
  clean_command cmd = strip_prompt cmd
  /\ (startswith "$" cmd = false -> clean_command cmd = cmd).
Proof.
  assert (Hstrip : strip cmd = cmd).
  { unfold extract_code_blocks in Hin. cbv zeta in Hin. cbn [fst] in Hin.
    apply in_flat_map in Hin as (block & _ & Hin).
    rewrite clean_bash_first_actionable in Hin.
    now apply (first_actionable_line_shape block). }
  unfold clean_command, strip_prompt. cbv zeta. rewrite Hstrip.
  split; [reflexivity |]. now intros ->.
Qed.

End Executors.

Import Scripted MoreWorlds.

Lemma extracted_command_runs_as_extracted_witness :
  In "ls -la" (fst (extract_code_blocks commented_ls))
  /\ clean_command "ls -la" = "ls -la".
Proof.
  split; [now left |].
  exact (proj2 (extracted_command_runs_as_extracted commented_ls "ls -la"
                  (or_introl eq_refl)) eq_refl).
Defined.

Lemma captured_streams_end_with_newline_witness :
  execute_bash_command env "ls" (start world_unterminated)
  = ((Some ("file.txt" ++ NL), Some ("warning" ++ NL)),
     mkSt (after_bash world_unterminated) [EvBash "ls"])
  /\ endswith NL ("file.txt" ++ NL) = true.
Proof.
  split; [reflexivity |].
  destruct (captured_streams_end_with_newline env "ls"
              (start world_unterminated)
              (mkSt (after_bash world_unterminated) [EvBash "ls"])
              ("file.txt" ++ NL) ("warning" ++ NL) eq_refl)
    as [[H | H] _]; [discriminate H | exact H].
Defined.

End ExecutorMore.

(* ===================================================================== *)
(** * More about the turn engine *)
(* ===================================================================== *)

Module EngineMore.
Import PyStr Model Utils Assistant Notions TextNotions TurnNotions.
Import PyStrFacts ExtractorFacts EngineFacts ExtractorMore.

Section Engine.
Context {W : Type} (env : Env W) (model : string).

Lemma recurse_shape (d p : nat) (msgs : list Message) (full er : string)
    (st : St W) :
  exists h st',
    recurse (interact_with_model env model (S d) (S p)) msgs full er st
    = (Some (Return h), st')
    /\ returns_nested msgs full (Return h).
Proof.
  rewrite recurse_returns. cbv zeta.
  destruct (ollama_chat env model _ (world st)) as [out w].
  eexists _, _. split; [reflexivity |]. exists er, out.
  unfold new_messages. now rewrite <- app_assoc.
Qed.

Lemma try_bash_shape (d p : nat) (msgs : list Message) (full : string)
    (bs : list string) (st : St W) :
  exists f st',
    try_bash env (interact_with_model env model (S d) (S p)) msgs full bs st
    = (Some f, st')
    /\ returns_nested msgs full f.
Proof.
  destruct bs as [|command bs]; cbn [try_bash].
  - now exists FallThrough, st.
  - unfold bind. destruct (execute_bash_command env command st)
      as [[output error] st1].
    destruct (is_not_None output || is_not_None error).
    + destruct (recurse_shape d p msgs full
                  (bash_execution_result command output error) st1)
        as (h & st' & E & Hs).
      now exists (Return h), st'.
    + now exists FallThrough, st1.
Qed.

Lemma process_code_shape (d p : nat) (msgs : list Message) (full : string)
    (st : St W) :
  exists f st',
    process_code env (interact_with_model env model (S d) (S p)) msgs full st
    = (Some f, st')
    /\ returns_nested msgs full f.
Proof.
  unfold process_code. destruct (extract_code_blocks full) as [bs ps].
  unfold bind. destruct ps as [|code ps]; cbn [try_python].
  - unfold ret. apply try_bash_shape.
  - unfold bind. destruct (execute_python_code env code st) as [[result | e] st1].
    + destruct (truthy result).
      * destruct (recurse_shape d p msgs full
                    (python_execution_result result) st1)
          as (h & st' & -> & Hs).
        now exists (Return h), st'.
      * unfold ret. apply try_bash_shape.
    + unfold ret. exists (raised e), st1. now destruct e.
Qed.

(** The shell stage is not left by an exception: the executor turns every
    [Exception] into a result (line 69 of [src/utils.py]). *)
Lemma try_bash_flow (d p : nat) (msgs : list Message) (full : string)
    (bs : list string) (st : St W) :
  exists st',
    try_bash env (interact_with_model env model (S d) (S p)) msgs full bs st
    = (Some FallThrough, st')
    \/ exists h,
         try_bash env (interact_with_model env model (S d) (S p)) msgs full bs
           st = (Some (Return h), st').
Proof.
  destruct bs as [|command bs]; cbn [try_bash].
  - exists st. now left.
  - unfold bind. destruct (execute_bash_command env command st)
      as [[output error] st1].
    destruct (is_not_None output || is_not_None error).
    + destruct (recurse_shape d p msgs full
                  (bash_execution_result command output error) st1)
        as (h & st' & E & _).
      exists st'. right. now exists h.
    + exists st1. now left.
Qed.

(** The inner [try] is left by an exception that its handler does not
    catch only when a script raised it. *)
Lemma process_code_uncaught (d p : nat) (msgs : list Message) (full : string)
    (st st3 : St W) (x : Exc) :
  process_code env (interact_with_model env model (S d) (S p)) msgs full st
  = (Some (Uncaught x), st3) ->
  exists bs code ps w3,
    extract_code_blocks full = (bs, code :: ps)
    /\ ask_python env code (world st) = (PyRun (Raise x), w3)
    /\ st3 = mkSt w3 (trace st ++ [EvPython code])%list
    /\ is_Exception x = false.
Proof.
  assert (Hbash : forall bs st1 st3',
             try_bash env (interact_with_model env model (S d) (S p))
               msgs full bs st1 <> (Some (Uncaught x), st3')).
  { intros bs st1 st3' H.
    destruct (try_bash_flow d p msgs full bs st1) as [st' [E | [h E]]];
      rewrite E in H; discriminate H. }
  unfold process_code. destruct (extract_code_blocks full) as [bs ps].
  unfold bind. destruct ps as [|code ps]; cbn [try_python].
  - unfold ret. intros H. now apply Hbash in H.
  - unfold bind. rewrite execute_python_code_run.
    destruct (ask_python env code (world st)) as [answer w3] eqn:Hask.
    destruct answer as [| f [e|] | [result | [e | |]] | e];
      cbn [python_result truthy append raised]; unfold ret;
      try match goal with
          | |- context [truthy ?r] => destruct (truthy r)
          end;
      try match goal with
          | |- context [recurse _ _ _ ?er ?s1] =>
              destruct (recurse_shape d p msgs full er s1)
                as (h & st' & -> & _)
          end;
      intros H; try discriminate H; try (now apply Hbash in H).
    + injection H as <- <-. now exists bs, code, ps, w3.
    + injection H as <- <-. now exists bs, code, ps, w3.
Qed.

(** What building the history for the model gives: the input, or the
    augmented input when retrieval found context. *)
Lemma current_messages_cases (msgs : list Message) (q : string) (pc : bool)
    (st : St W) :
  exists r st',
    current_messages env msgs q pc st = (r, st')
    /\ trace st' = (trace st ++ if pc then [] else retrievals q)%list
    /\ match r with
       | Ok cur =>
           (cur = msgs
            /\ (pc = true \/ is_system_command q = true \/ msgs <> []
                \/ truthy (fst (get_relevant_context env q (world st)))
                   = false))
           \/ (pc = false /\ is_system_command q = false
              /\ exists context,
                   fst (get_relevant_context env q (world st)) = context
                   /\ truthy context = true /\ msgs <> []
                   /\ cur = augmented msgs context)
       | Raise _ =>
           pc = false /\ msgs = [] /\ is_system_command q = false
           /\ truthy (fst (get_relevant_context env q (world st))) = true
       end.
Proof.
  unfold current_messages, retrievals.
  destruct pc; cbn [negb];
    [exists (Ok msgs), st; rewrite app_nil_r;
     split; [reflexivity | split; [reflexivity | left; auto]] |].
  destruct (is_system_command q); cbn [negb];
    [exists (Ok msgs), st; rewrite app_nil_r;
     split; [reflexivity | split; [reflexivity | left; auto]] |].
  unfold bind, call.
  destruct (get_relevant_context env q (world st)) as [context w]. cbn [fst].
  destruct (truthy context) eqn:Ht.
  - destruct msgs as [|m0 rest]; unfold ret.
    + eexists _, _. split; [reflexivity |]. auto.
    + eexists _, _. split; [reflexivity |]. split; [reflexivity |].
      right. repeat split. exists context. repeat split; auto. discriminate.
  - unfold ret. eexists _, _. split; [reflexivity |]. auto 7.
Qed.

Lemma follow_up_no_retrieval (evs : list Event) :
  follow_up evs = true -> filter is_retrieve_event evs = [].
Proof.
  unfold follow_up. intros H. apply andb_prop in H as [_ H].
  apply negb_true_iff in H.
  induction evs as [|e evs IH]; [reflexivity |]. cbn [existsb filter] in *.
  apply orb_false_elim in H as [He Hevs]. rewrite He. now apply IH.
Qed.

Lemma retrievals_filter (q : string) :
  filter is_retrieve_event (retrievals q) = retrievals q.
Proof. unfold retrievals. now destruct (is_system_command q). Qed.

Lemma augmented_or_plain (msgs cur : list Message) (a : string)
    (q : string) (st : St W) :
  cur = msgs
  \/ (exists context,
        fst (get_relevant_context env q (world st)) = context
        /\ truthy context = true /\ msgs <> []
        /\ cur = augmented msgs context) ->
  plain_turn msgs (cur ++ [mkMessage assistant a])
  \/ augmented_turn msgs (cur ++ [mkMessage assistant a]).
Proof.
  intros [-> | (context & _ & Ht & _ & ->)].
  - left. now exists a.
  - right. now exists a, context.
Qed.

(** A top-level turn, whole: it ends, with the retrievals of its query as
    its only retrieval events; it returns a history of one of three forms,
    or raises the [IndexError] of an empty history, or is left by what a
    script raised. *)
Lemma top_level_anatomy (d p : nat) (msgs : list Message) (q : string)
    (st : St W) :
  exists r st' evs,
    interact_with_model env model (S (S d)) (S p) msgs q false st
    = (Some r, st')
    /\ trace st' = (trace st ++ evs)%list
    /\ filter is_retrieve_event evs = retrievals q
    /\ match r with
       | Ok h =>
           (is_system_command q = true \/ msgs <> []
            \/ truthy (fst (get_relevant_context env q (world st))) = false)
           /\ (plain_turn msgs h \/ augmented_turn msgs h
               \/ nested_turn msgs h)
       | Raise (Error _) =>
           msgs = [] /\ is_system_command q = false
           /\ truthy (fst (get_relevant_context env q (world st))) = true
       | Raise x =>
           (is_system_command q = true \/ msgs <> []
            \/ truthy (fst (get_relevant_context env q (world st))) = false)
           /\ script_raises env model msgs q st x st'
       end.
Proof.
  change (interact_with_model env model (S (S d)) (S p))
    with (interact_with_model_body env model
            (interact_with_model env model (S d) (S p)) (S p)).
  unfold interact_with_model_body, bind. cbn [log].
  set (st0 := mkSt (world st) (trace st ++ [EvTurn false])%list).
  destruct (current_messages_cases msgs q false st0)
    as (r & st1 & E0 & Ht0 & Hr).
  rewrite E0. unfold st0 in Ht0, Hr. cbn [trace world] in Ht0, Hr.
  assert (Hfilter : forall tail,
             filter is_retrieve_event tail = [] ->
             filter is_retrieve_event ([EvTurn false] ++ retrievals q ++ tail)
             = retrievals q).
  { intros tail Htail. cbn [app filter is_retrieve_event].
    now rewrite filter_app, retrievals_filter, Htail, app_nil_r. }
  destruct r as [cur | e].
  - assert (Hcond : is_system_command q = true \/ msgs <> []
                    \/ truthy (fst (get_relevant_context env q (world st)))
                       = false).
    { destruct Hr as [[_ [H | [H | [H | H]]]] | (_ & _ & c & _ & _ & H & _)];
        auto; discriminate. }
    assert (Hcur : cur = msgs
                   \/ (exists context,
                         fst (get_relevant_context env q (world st)) = context
                         /\ truthy context = true /\ msgs <> []
                         /\ cur = augmented msgs context)).
    { destruct Hr as [[H _] | (_ & _ & H)]; auto. }
    rewrite while_pass. unfold iteration, bind, call.
    destruct (ollama_chat env model cur (world st1))
      as [[e | chunks [e|]] w2] eqn:Hchat; unfold ret; rewrite ?while_done;
      cbn [negb].
    + eexists _, _, ([EvTurn false] ++ retrievals q ++ [EvChat cur])%list.
      split; [reflexivity |]. cbn [trace]. split.
      { rewrite Ht0, <- !app_assoc. reflexivity. }
      split; [now apply Hfilter |]. split; [exact Hcond |].
      left. now eexists.
    + eexists _, _, ([EvTurn false] ++ retrievals q ++ [EvChat cur])%list.
      split; [reflexivity |]. cbn [trace]. split.
      { rewrite Ht0, <- !app_assoc. reflexivity. }
      split; [now apply Hfilter |]. split; [exact Hcond |].
      destruct (augmented_or_plain msgs cur ("Error: " ++ e) q st Hcur);
        auto.
    + set (full := join (response_parts chunks)).
      set (st2 := mkSt w2 (trace st1 ++ [EvChat cur])%list).
      assert (Hans : model_answers env model msgs q st
                     = Some (cur, full, st2)).
      { unfold model_answers. cbn [log snd]. fold st0. rewrite E0.
        unfold call. now rewrite Hchat. }
      destruct (process_code_total env model d p msgs full st2)
        as (f & st3 & evs3 & E3 & Ht3 & Hf3 & _).
      destruct (process_code_shape d p msgs full st2)
        as (f' & st3' & E3' & Hshape).
      rewrite E3 in E3'. injection E3' as <- <-. rewrite E3.
      assert (Ht : trace st3
                   = (trace st ++ [EvTurn false] ++ retrievals q
                      ++ [EvChat cur] ++ evs3)%list).
      { rewrite Ht3. unfold st2. cbn [trace]. rewrite Ht0, <- !app_assoc.
        reflexivity. }
      assert (Hret : filter is_retrieve_event
                       ([EvTurn false] ++ retrievals q ++ [EvChat cur] ++ evs3)
                     = retrievals q).
      { apply Hfilter. cbn [app filter is_retrieve_event].
        now apply follow_up_no_retrieval. }
      destruct f as [| e | h | x]; rewrite ?while_done;
        eexists _, _, _; (split; [reflexivity |]);
        (split; [exact Ht |]); (split; [exact Hret |]).
      * split; [exact Hcond |].
        destruct (augmented_or_plain msgs cur full q st Hcur); auto.
      * split; [exact Hcond |].
        destruct (augmented_or_plain msgs cur full q st Hcur); auto.
      * split; [exact Hcond |].
        right. right. destruct Hshape as (er & out & ->).
        now exists full, er,
          (content (closing_message out)).
      * destruct (process_code_uncaught d p msgs full st2 st3 x E3)
          as (bs & code & ps & w3 & Hex & Hask & Hst & Hx).
        destruct x as [e | |]; [discriminate Hx | |];
          (split; [exact Hcond |]);
          now exists cur, full, st2, bs, code, ps, w3.
  - unfold ret. eexists _, _, ([EvTurn false] ++ retrievals q ++ [])%list.
    split; [reflexivity |]. split.
    { rewrite Ht0, app_nil_r, <- !app_assoc. reflexivity. }
    split; [now apply Hfilter |].
    destruct Hr as (_ & H1 & H2 & H3). auto.
Qed.

(** A script that raises what is no [Exception] ends the turn with
    it. *)
Lemma script_raises_result (d p : nat) (msgs : list Message) (q : string)
    (st st' : St W) (x : Exc) :
  script_raises env model msgs q st x st' -> is_Exception x = false ->
  interact_with_model env model (S d) (S p) msgs q false st
  = (Some (Raise x), st').
Proof.
  intros (cur & full & st2 & bs & code & ps & w3 & Hans & Hex & Hask & ->) Hx.
  change (interact_with_model env model (S d) (S p))
    with (interact_with_model_body env model
            (interact_with_model env model d (S p)) (S p)).
  rewrite (body_top_level_script env model _ p msgs q st cur full st2
             bs code ps (PyRun (Raise x)) w3 Hans Hex Hask).
  cbv zeta. destruct x; [discriminate Hx | reflexivity | reflexivity].
Qed.


Lemma augmented_length (msgs : list Message) (context : string) :
  List.length (augmented msgs context) = List.length msgs.
Proof. now destruct msgs. Qed.

(** X12: the history that a top-level turn returns has one of three
    forms: the input history and one assistant message; the input history
    with its first message augmented and one assistant message; the input
    history, the assistant response, the execution report and the closing
    assistant message.  So it ends with an assistant message and is one or
    three messages longer than the input. *)
Theorem returned_history_forms (d p : nat) (msgs : list Message)
    (q : string) (st st' : St W) (h : list Message)
    (Hret : interact_with_model env model (S (S d)) (S p) msgs q false st
            = (Some (Ok h), st')) :
  (plain_turn msgs h \/ augmented_turn msgs h \/ nested_turn msgs h)
  /\ (exists front a, h = (front ++ [mkMessage assistant a])%list)
  /\ (List.length h = List.length msgs + 1
      \/ List.length h = List.length msgs + 3).
Proof.
  destruct (top_level_anatomy d p msgs q st)
    as (r & st1 & evs & E & _ & _ & Hr).
  rewrite Hret in E. injection E as <- _.
  destruct Hr as [_ Hforms]. split; [exact Hforms |].
  destruct Hforms as [[a ->] | [(a & c & _ & ->) | (a & u & a' & ->)]].
  - split; [now eexists _, _ |]. left. rewrite length_app. reflexivity.
  - split; [now eexists _, _ |]. left.
    rewrite length_app, augmented_length. reflexivity.
  - split.
    + exists (msgs ++ [mkMessage assistant a; mkMessage user u])%list, a'.
      now rewrite <- app_assoc.
    + right. rewrite length_app. reflexivity.
Qed.

Lemma prefix_split (p s : string) :
  String.prefix p s = true -> exists rest, s = p ++ rest.
Proof.
  revert s. induction p as [|a p IH]; intros s H.
  - now exists s.
  - destruct s as [|c s]; [discriminate H |]. rewrite prefix_cons in H.
    destruct (ascii_dec a c) as [<- |]; [| discriminate H].
    destruct (IH s H) as [rest ->]. now exists rest.
Qed.

(** X13: a query counts as a system command exactly when it is a command
    token followed by any text, and a top-level turn calls retrieval once,
    with the query itself, when the query is no command, and never when it
    is one; the nested call never retrieves. *)
Theorem one_retrieval_per_query (d p : nat) (msgs : list Message)
    (q : string) (st : St W) :
  (is_system_command q = true
   <-> exists cmd rest, In cmd system_commands /\ q = cmd ++ rest)
  /\ exists r st' evs,
       interact_with_model env model (S (S d)) (S p) msgs q false st
       = (Some r, st')
       /\ trace st' = (trace st ++ evs)%list
       /\ filter is_retrieve_event evs
          = if is_system_command q then [] else [EvRetrieve q].
Proof.
  split.
  - unfold is_system_command. rewrite existsb_exists. split.
    + intros (cmd & Hin & Hp). destruct (prefix_split cmd q Hp) as [rest ->].
      now exists cmd, rest.
    + intros (cmd & rest & Hin & ->). exists cmd. split; [exact Hin |].
      apply prefix_app_self.
  - destruct (top_level_anatomy d p msgs q st)
      as (r & st' & evs & E & Ht & Hf & _).
    now exists r, st', evs.
Qed.

(** X27: when the call that opens the chat raises, the turn engine returns
    at once the input history, not the working copy, followed by one
    assistant message that carries the error text; the model call is the
    last event of the turn: no retry, no extraction, no nested call. *)
Theorem transport_failure_is_terminal (d p : nat) (msgs : list Message)
    (q : string) (pc : bool) (st st1 : St W) (cur : list Message)
    (e : string) (w2 : W)
    (Hcur : current_messages env msgs q pc (snd (log (EvTurn pc) st))
            = (Ok cur, st1))
    (Hchat : ollama_chat env model cur (world st1) = (ChatRaised e, w2)) :
  interact_with_model env model (S d) (S p) msgs q pc st
  = (Some (Ok (msgs ++ [mkMessage assistant
                          ("Error conectando con Ollama: " ++ e)])%list),
     mkSt w2 (trace st1 ++ [EvChat cur])%list).
Proof.
  change (interact_with_model env model (S d) (S p))
    with (interact_with_model_body env model
            (interact_with_model env model d (S p)) (S p)).
  unfold interact_with_model_body, bind. cbn [log snd] in *. rewrite Hcur.
  rewrite while_pass. unfold iteration, bind, call. rewrite Hchat.
  reflexivity.
Qed.

(** X14: when the stream of the model raises while it is read, the pieces
    already received are dropped: the turn returns the history that was
    sent followed by one assistant message with the error text, and the
    model call is its last event, so nothing is extracted from the pieces
    and nothing is executed. *)
Theorem broken_stream_is_dropped (d p : nat) (msgs : list Message)
    (q : string) (pc : bool) (st st1 : St W) (cur : list Message)
    (chunks : list (option string)) (e : string) (w2 : W)
    (Hcur : current_messages env msgs q pc (snd (log (EvTurn pc) st))
            = (Ok cur, st1))
    (Hchat : ollama_chat env model cur (world st1)
             = (ChatStream chunks (Some e), w2)) :
  interact_with_model env model (S d) (S p) msgs q pc st
  = (Some (Ok (cur ++ [mkMessage assistant ("Error: " ++ e)])%list),
     mkSt w2 (trace st1 ++ [EvChat cur])%list).
Proof.
  change (interact_with_model env model (S d) (S p))
    with (interact_with_model_body env model
            (interact_with_model env model d (S p)) (S p)).
  unfold interact_with_model_body, bind. cbn [log snd] in *. rewrite Hcur.
  rewrite while_pass. unfold iteration, bind, call. rewrite Hchat.
  unfold ret. now rewrite while_done.
Qed.

(** X15: when a prompt of the script executor fails, the exception is
    caught by the turn: the working history is returned, no nested call is
    made, and a shell block of the same response is not attempted. *)
Theorem failed_prompt_ends_the_turn (d p : nat) (msgs : list Message)
    (q : string) (st : St W) (cur : list Message) (full : string)
    (st2 : St W) (bs : list string) (code : string) (ps : list string)
    (e : string) (w3 : W)
    (Hans : model_answers env model msgs q st = Some (cur, full, st2))
    (Hex : extract_code_blocks full = (bs, code :: ps))
    (Hask : ask_python env code (world st2) = (PyPromptRaised e, w3)) :
  interact_with_model env model (S d) (S p) msgs q false st
  = (Some (Ok (cur ++ [mkMessage assistant full])%list),
     mkSt w3 (trace st2 ++ [EvPython code])%list).
Proof.
  change (interact_with_model env model (S d) (S p))
    with (interact_with_model_body env model
            (interact_with_model env model d (S p)) (S p)).
  now rewrite (body_top_level_script env model _ p msgs q st cur full st2
                 bs code ps (PyPromptRaised e) w3 Hans Hex Hask).
Qed.

(** X16: a response in which no triple backtick occurs ends the turn: the
    working history is returned and nothing happens after the model call,
    no prompt and no nested call. *)
Theorem prose_response_ends_the_turn (d p : nat) (msgs : list Message)
    (q : string) (st : St W) (cur : list Message) (full : string)
    (st2 : St W)
    (Hans : model_answers env model msgs q st = Some (cur, full, st2))
    (Hfence : contains fence full = false) :
  interact_with_model env model (S d) (S p) msgs q false st
  = (Some (Ok (cur ++ [mkMessage assistant full])%list), st2).
Proof.
  change (interact_with_model env model (S d) (S p))
    with (interact_with_model_body env model
            (interact_with_model env model d (S p)) (S p)).
  rewrite (body_top_level env model _ p msgs q st cur full st2 Hans).
  unfold process_code.
  now rewrite (extract_without_fence full Hfence).
Qed.

(** X17: a script that runs and prints nothing does not end the turn: the
    shell block of the same response is attempted next, so that two blocks
    are executed in one turn. *)
Theorem silent_script_goes_on_to_shell (d p : nat) (msgs : list Message)
    (q : string) (st : St W) (cur : list Message) (full : string)
    (st2 : St W) (command : string) (bs : list string) (code : string)
    (ps : list string) (w3 : W)
    (Hans : model_answers env model msgs q st = Some (cur, full, st2))
    (Hex : extract_code_blocks full = (command :: bs, code :: ps))
    (Hask : ask_python env code (world st2) = (PyRun (Ok EmptyString), w3)) :
  exists r st' evs,
    interact_with_model env model (S (S d)) (S p) msgs q false st
    = (Some r, st')
    /\ trace st'
       = (trace st2
          ++ EvPython code :: EvBash (clean_command command) :: evs)%list.
Proof.
  change (interact_with_model env model (S (S d)) (S p))
    with (interact_with_model_body env model
            (interact_with_model env model (S d) (S p)) (S p)).
  rewrite (body_top_level_script env model _ p msgs q st cur full st2
             (command :: bs) code ps (PyRun (Ok EmptyString)) w3
             Hans Hex Hask).
  cbv zeta. cbn [python_result truthy try_bash]. unfold bind.
  rewrite execute_bash_command_run. cbn [world trace].
  destruct (ask_bash env (clean_command command) w3) as [answer w4].
  destruct answer as [| out err | e']; cbn [bash_result is_not_None orb];
    rewrite ?recurse_returns; cbv zeta; cbn [world trace];
    repeat match goal with
           | |- context [ollama_chat ?e0 ?m ?h ?w0] =>
               destruct (ollama_chat e0 m h w0)
           end; unfold ret; cbn [finish];
    eexists _, _, _; (split; [reflexivity |]); cbn [trace];
    rewrite <- ?app_assoc; reflexivity.
Qed.

End Engine.

Import Scripted MoreWorlds.

Lemma transport_failure_is_terminal_witness :
  current_messages env hist "q" false
    (snd (log (EvTurn false) (start world_down)))
  = (Ok [mkMessage system (enhanced_system_message (content sys) "CTX");
         mkMessage user "q"],
     mkSt world_down [EvTurn false; EvRetrieve "q"])
  /\ interact_with_model env model_name 1 1 hist "q" false (start world_down)
     = (Some (Ok (hist ++ [mkMessage assistant
                             "Error conectando con Ollama: connection refused"])%list),
        mkSt world_down
          [EvTurn false; EvRetrieve "q";
           EvChat [mkMessage system
                     (enhanced_system_message (content sys) "CTX");
                   mkMessage user "q"]]).
Proof.
  split; [reflexivity |].
  apply (transport_failure_is_terminal env model_name 0 0 hist "q" false
           (start world_down)
           (mkSt world_down [EvTurn false; EvRetrieve "q"])
           [mkMessage system (enhanced_system_message (content sys) "CTX");
            mkMessage user "q"]
           "connection refused" world_down); reflexivity.
Defined.

(** A script that calls [sys.exit()]: the [SystemExit] passes the
    handlers of the executor and of the turn, and the turn is left by
    it. *)
Example script_exit_leaves_the_turn :
  interact_with_model env model_name 2 1 hist "q" false
    (start world_script_exits)
  = (Some (Raise SystemExit),
     mkSt (after_python (after_chat world_script_exits))
       [EvTurn false; EvRetrieve "q"; EvChat hist; EvPython "print(1)"]).
Proof. reflexivity. Qed.

(** A script that raises an [Exception]: the executor turns it into a
    text, which is reported to the model like an output. *)
Example script_error_is_reported :
  fst (interact_with_model env model_name 2 1 hist "q" false
         (start world_script_fails))
  = Some (Ok [sys; mkMessage user "q"; mkMessage assistant script_only;
              mkMessage user
                ("Resultado de la ejecuci" ++ o_acute ++ "n:" ++ NL
                 ++ "Error: division by zero");
              mkMessage assistant "sorry"]).
Proof. reflexivity. Qed.

Lemma returned_history_forms_witness :
  interact_with_model env model_name 2 1 hist "q" false (start world_run)
  = (Some (Ok [sys; mkMessage user "q"; mkMessage assistant script_and_shell;
               mkMessage user
                 ("Resultado de la ejecuci" ++ o_acute ++ "n:" ++ NL
                  ++ "1" ++ NL);
               mkMessage assistant "done"]),
     mkSt (after_chat (after_python (after_chat world_run)))
       [EvTurn false; EvRetrieve "q"; EvChat hist; EvPython "print(1)";
        EvTurn true;
        EvChat [sys; mkMessage user "q"; mkMessage assistant script_and_shell;
                mkMessage user
                  ("Resultado de la ejecuci" ++ o_acute ++ "n:" ++ NL
                   ++ "1" ++ NL)]])
  /\ nested_turn hist
       [sys; mkMessage user "q"; mkMessage assistant script_and_shell;
        mkMessage user
          ("Resultado de la ejecuci" ++ o_acute ++ "n:" ++ NL ++ "1" ++ NL);
        mkMessage assistant "done"].
Proof.
  split; [reflexivity |].
  destruct (returned_history_forms env model_name 0 0 hist "q"
              (start world_run) _ _ eq_refl) as [[H | [H | H]] _].
  - destruct H as [a H]. discriminate H.
  - destruct H as (a & c & _ & H). discriminate H.
  - exact H.
Defined.

Lemma broken_stream_is_dropped_witness :
  current_messages env hist "q" false
    (snd (log (EvTurn false) (start world_broken_stream)))
  = (Ok hist, mkSt world_broken_stream [EvTurn false; EvRetrieve "q"])
  /\ ollama_chat env model_name hist world_broken_stream
     = (ChatStream [Some script_only] (Some "reset by peer"),
        after_chat world_broken_stream)
  /\ interact_with_model env model_name 1 1 hist "q" false
       (start world_broken_stream)
     = (Some (Ok (hist ++ [mkMessage assistant "Error: reset by peer"])%list),
        mkSt (after_chat world_broken_stream)
          [EvTurn false; EvRetrieve "q"; EvChat hist]).
Proof.
  split; [reflexivity |]. split; [reflexivity |].
  apply (broken_stream_is_dropped env model_name 0 0 hist "q" false
           (start world_broken_stream)
           (mkSt world_broken_stream [EvTurn false; EvRetrieve "q"])
           hist [Some script_only] "reset by peer"
           (after_chat world_broken_stream)); reflexivity.
Defined.

Lemma failed_prompt_ends_the_turn_witness :
  model_answers env model_name hist "q" (start world_prompt_fails)
  = Some (hist, script_and_shell, answered world_prompt_fails)
  /\ extract_code_blocks script_and_shell = (["ls"], ["print(1)"])
  /\ ask_python env "print(1)" (world (answered world_prompt_fails))
     = (PyPromptRaised "EOF", after_python (after_chat world_prompt_fails))
  /\ interact_with_model env model_name 1 1 hist "q" false
       (start world_prompt_fails)
     = (Some (Ok (hist ++ [mkMessage assistant script_and_shell])%list),
        mkSt (after_python (after_chat world_prompt_fails))
          (trace (answered world_prompt_fails) ++ [EvPython "print(1)"])%list).
Proof.
  split; [reflexivity |]. split; [reflexivity |]. split; [reflexivity |].
  exact (failed_prompt_ends_the_turn env model_name 0 0 hist "q"
           (start world_prompt_fails) hist script_and_shell
           (answered world_prompt_fails) ["ls"] "print(1)" [] "EOF"
           (after_python (after_chat world_prompt_fails))
           eq_refl eq_refl eq_refl).
Defined.

Lemma prose_response_ends_the_turn_witness :
  model_answers env model_name hist "q" (start world_prose)
  = Some (hist, "Use the ls command.", answered world_prose)
  /\ contains fence "Use the ls command." = false
  /\ interact_with_model env model_name 1 1 hist "q" false (start world_prose)
     = (Some (Ok (hist ++ [mkMessage assistant "Use the ls command."])%list),
        answered world_prose).
Proof.
  split; [reflexivity |]. split; [reflexivity |].
  exact (prose_response_ends_the_turn env model_name 0 0 hist "q"
           (start world_prose) hist "Use the ls command."
           (answered world_prose) eq_refl eq_refl).
Defined.

Lemma silent_script_goes_on_to_shell_witness :
  model_answers env model_name hist "q" (start world_silent_script)
  = Some (hist, script_and_shell, answered world_silent_script)
  /\ ask_python env "print(1)" (world (answered world_silent_script))
     = (PyRun (Ok EmptyString),
        after_python (after_chat world_silent_script))
  /\ exists r st' evs,
       interact_with_model env model_name 2 1 hist "q" false
         (start world_silent_script) = (Some r, st')
       /\ trace st'
          = (trace (answered world_silent_script)
             ++ EvPython "print(1)" :: EvBash (clean_command "ls") :: evs)%list.
Proof.
  split; [reflexivity |]. split; [reflexivity |].
  exact (silent_script_goes_on_to_shell env model_name 0 0 hist "q"
           (start world_silent_script) hist script_and_shell
           (answered world_silent_script) "ls" [] "print(1)" []
           (after_python (after_chat world_silent_script))
           eq_refl eq_refl eq_refl).
Defined.

End EngineMore.

(* ===================================================================== *)
(** * The session driver *)
(* ===================================================================== *)

Module DriverFacts.
Import PyStr Model Utils Assistant Notions TextNotions TurnNotions.
Import Driver SessionNotions.
Import PyStrFacts ExtractorFacts EngineFacts ExtractorMore EngineMore.

Section Run.
Context {W : Type} (env : Env W) (denv : DriverEnv W) (docs_dir : string).

Lemma on_interrupt_keeps (s : Session) (st : St W) :
  exists n st',
    on_interrupt denv s st = (Some (n, s), st')
    /\ trace st' = trace st
    /\ match n with
       | Escapes x => raised_in_loop env denv x
       | Continue | Break => True
       end.
Proof.
  unfold on_interrupt, bind, ask, ret.
  destruct (confirm denv exit_question (world st)) as [[[|] | x] w] eqn:E;
    eexists _, _; (split; [reflexivity |]); (split; [reflexivity |]);
    try exact I.
  left. exists (world st). now rewrite E.
Qed.

(** An exception raised inside the [try] leaves the session as it is. *)
Lemma handlers_keep (x : Exc) (s : Session) (st : St W) :
  (x = SystemExit -> raised_in_loop env denv SystemExit) ->
  exists n st',
    handlers denv x s st = (Some (n, s), st')
    /\ trace st' = trace st
    /\ match n with
       | Escapes y => raised_in_loop env denv y
       | Continue | Break => True
       end.
Proof.
  intros Hx. destruct x as [e | |]; cbn [handlers].
  - unfold ret. now eexists _, _.
  - apply on_interrupt_keeps.
  - unfold ret. eexists _, _. split; [reflexivity |].
    split; [reflexivity | now apply Hx].
Qed.

Lemma handle_line_command (depth passes : nat) (s : Session)
    (user_input : string) (st : St W) :
  is_driver_command user_input = true ->
  exists n s' st',
    handle_line env denv docs_dir depth passes s user_input st
    = (Some (n, s'), st')
    /\ history s' = history s /\ trace st' = trace st
    /\ (session_model s' = session_model s
        \/ (startswith "/model " (lower user_input) = true
            /\ session_model s' = strip (drop 7 user_input)
            /\ truthy (strip (drop 7 user_input)) = true))
    /\ match n with
       | Escapes x => raised_in_loop env denv x
       | Continue | Break => True
       end.
Proof.
  unfold is_driver_command, handle_line. intros H.
  destruct (String.eqb (lower user_input) "/exit");
    [unfold ret; eexists _, _, _; repeat split; auto |].
  destruct (String.eqb (lower user_input) "/help");
    [unfold ret; eexists _, _, _; repeat split; auto |].
  destruct (startswith "/ihtml " (lower user_input)).
  { cbv zeta. destruct (truthy (strip (drop 7 user_input)));
      unfold bind, ask, ret;
      [destruct (add_html_from_url denv _ (world st)) |];
      eexists _, _, _; repeat split; auto. }
  destruct (startswith "/model " (lower user_input)).
  { cbv zeta. destruct (truthy (strip (drop 7 user_input))) eqn:E;
      unfold ret; eexists _, _, _; repeat split; auto. }
  destruct (String.eqb (lower user_input) "/rag").
  { unfold bind, ask, ret.
    destruct (path_exists denv docs_dir (world st)) as [[|] w]; cbn [world];
      [destruct (index_documents denv docs_dir w) |];
      eexists _, _, _; repeat split; auto. }
  destruct (String.eqb (lower user_input) "/clear_rag"); [| discriminate H].
  unfold bind, ask, ret.
  destruct (confirm denv clear_question (world st)) as [[[|] | x] w] eqn:E;
    cbn [world]; [destruct (clear_database denv w) | |];
    try (eexists _, _, _; repeat split; auto; fail).
  destruct (handlers_keep x s (mkSt w (trace st))) as (n & st' & E' & Ht & Hn).
  { intros ->. right. split; [reflexivity |]. left.
    exists (world st). now rewrite E. }
  exists n, s, st'. repeat split; auto.
Qed.

(** X18: an input that the driver handles itself (one of the six command
    tests, without regard to case) never reaches the model: the history
    stays as it is and the trace of the engine gains no event; the model
    name changes only by [/model] followed by a name that is not blank. *)
Theorem driver_commands_bypass_the_engine (depth passes : nat) (s : Session)
    (user_input : string) (st : St W)
    (Hcmd : is_driver_command user_input = true) :
  exists n s' st',
    run_step env denv docs_dir depth passes s (Line user_input) st
    = (Some (n, s'), st')
    /\ history s' = history s /\ trace st' = trace st
    /\ (session_model s' = session_model s
        \/ (startswith "/model " (lower user_input) = true
            /\ session_model s' = strip (drop 7 user_input)
            /\ truthy (strip (drop 7 user_input)) = true)).
Proof.
  cbn [run_step].
  destruct (handle_line_command depth passes s user_input st Hcmd)
    as (n & s' & st' & E & Hh & Ht & Hm & _).
  now exists n, s', st'.
Qed.

Lemma led_by_augmented (sys : string) (msgs : list Message)
    (context : string) (more : list Message) :
  led_by sys msgs = true ->
  led_by sys (augmented msgs context ++ more) = true.
Proof.
  destruct msgs as [|m rest]; [discriminate |]. cbn [led_by augmented app].
  intros H. apply andb_prop in H as [_ H]. cbn [role content is_system andb].
  unfold enhanced_system_message, startswith in *. now apply prefix_app_r.
Qed.

Lemma led_by_app (sys : string) (msgs more : list Message) :
  led_by sys msgs = true -> led_by sys (msgs ++ more) = true.
Proof. destruct msgs as [|m rest]; [discriminate | trivial]. Qed.

Lemma tl_app_nonempty {A} (l more : list A) :
  l <> [] -> tl (l ++ more) = (tl l ++ more)%list.
Proof. destruct l; [contradiction | reflexivity]. Qed.

Lemma tl_augmented (msgs : list Message) (context : string) :
  tl (augmented msgs context) = tl msgs.
Proof. now destruct msgs. Qed.

(** A line that the driver does not handle itself becomes a turn on the
    history with the user message appended; the handlers take over when
    the turn is left by an exception. *)
Lemma handle_line_query (depth passes : nat) (s : Session) (u : string)
    (st : St W) :
  is_driver_command u = false ->
  handle_line env denv docs_dir depth passes s u st
  = let msgs := (history s ++ [mkMessage user u])%list in
    let (r, st1) :=
      interact_with_model env (session_model s) depth passes msgs u false st in
    match r with
    | None => (None, st1)
    | Some (Ok h) => (Some (Continue, mkSession (session_model s) h), st1)
    | Some (Raise x) =>
        handlers denv x (mkSession (session_model s) msgs) st1
    end.
Proof.
  intros Hc. unfold is_driver_command in Hc. unfold handle_line.
  repeat match type of Hc with
         | (_ || _) = false =>
             let H := fresh "H" in
             apply orb_false_elim in Hc as [Hc H]; rewrite H
         end.
  rewrite Hc. cbv zeta. unfold bind.
  destruct (interact_with_model env (session_model s) depth passes _ u false st)
    as [[[h | x]|] st1]; reflexivity.
Qed.

(** A query on a history led by a system message: the pass ends, the
    history is still led by it, and behind the first message it was only
    appended to, the user message first. *)
Lemma query_invariant (sys : string) (d p : nat) (s : Session) (u : string)
    (st : St W) :
  is_driver_command u = false ->
  led_by sys (history s) = true ->
  exists n s' st' evs suffix,
    handle_line env denv docs_dir (S (S d)) (S p) s u st = (Some (n, s'), st')
    /\ led_by sys (history s') = true
    /\ session_model s' = session_model s
    /\ tl (history s')
       = (tl (history s) ++ mkMessage user u :: suffix)%list
    /\ trace st' = (trace st ++ evs)%list
    /\ filter is_retrieve_event evs = retrievals u
    /\ match n with
       | Escapes x => raised_in_loop env denv x
       | Continue | Break => True
       end.
Proof.
  intros Hc Hled. rewrite (handle_line_query _ _ s u st Hc). cbv zeta.
  assert (Hne : history s <> [])
    by (destruct (history s); [discriminate Hled | discriminate]).
  set (msgs := (history s ++ [mkMessage user u])%list).
  assert (Hmsgs : msgs <> [])
    by (unfold msgs; destruct (history s); discriminate).
  assert (Hled' : led_by sys msgs = true) by now apply led_by_app.
  assert (Htl : forall more,
             tl (msgs ++ more)
             = (tl (history s) ++ mkMessage user u :: more)%list).
  { intros more. unfold msgs. rewrite <- app_assoc.
    now apply tl_app_nonempty. }
  destruct (top_level_anatomy env (session_model s) d p msgs u st)
    as (r & st1 & evs & E & Ht & Hf & Hr).
  rewrite E.
  assert (Hraise : forall x,
             (x = SystemExit ->
              script_raises env (session_model s) msgs u st x st1) ->
             exists n s' st' evs suffix,
               handlers denv x (mkSession (session_model s) msgs) st1
               = (Some (n, s'), st')
               /\ led_by sys (history s') = true
               /\ session_model s' = session_model s
               /\ tl (history s')
                  = (tl (history s) ++ mkMessage user u :: suffix)%list
               /\ trace st' = (trace st ++ evs)%list
               /\ filter is_retrieve_event evs = retrievals u
               /\ match n with
                  | Escapes x => raised_in_loop env denv x
                  | Continue | Break => True
                  end).
  { intros x Hx.
    destruct (handlers_keep x (mkSession (session_model s) msgs) st1)
      as (n & st' & E' & Ht' & Hn).
    { intros ->.
      destruct (Hx eq_refl)
        as (cur & full & st2 & bs & code & ps & w3 & _ & _ & Hask & _).
      right. split; [reflexivity |]. right.
      exists code, (world st2). now rewrite Hask. }
    exists n, (mkSession (session_model s) msgs), st', evs, [].
    split; [exact E' |]. cbn [history session_model].
    split; [exact Hled' |]. split; [reflexivity |].
    split; [rewrite <- (app_nil_r msgs) at 1; apply Htl |].
    split; [now rewrite Ht' |]. split; [exact Hf | exact Hn]. }
  destruct r as [h | [e | |]].
  - destruct Hr as [_ [[a ->] | [(a & c & _ & ->) | (a & x & a' & ->)]]];
      eexists Continue, _, st1, evs, _;
      (split; [reflexivity |]); cbn [history session_model].
    + split; [now apply led_by_app |]. split; [reflexivity |].
      split; [apply Htl |]. now repeat split.
    + split; [now apply led_by_augmented |]. split; [reflexivity |].
      split; [| now repeat split].
      rewrite tl_app_nonempty by (destruct msgs; [contradiction | discriminate]).
      rewrite tl_augmented, <- (Htl [mkMessage assistant a]).
      symmetry. now apply tl_app_nonempty.
    + split; [now apply led_by_app |]. split; [reflexivity |].
      split; [apply Htl |]. now repeat split.
  - apply Hraise. discriminate.
  - apply Hraise. discriminate.
  - apply Hraise. intros _. apply Hr.
Qed.

Lemma run_step_invariant (sys : string) (d p : nat) (s : Session)
    (input : UserInput) (st : St W) :
  led_by sys (history s) = true ->
  exists n s' st',
    run_step env denv docs_dir (S (S d)) (S p) s input st
    = (Some (n, s'), st')
    /\ led_by sys (history s') = true
    /\ (exists suffix, tl (history s') = (tl (history s) ++ suffix)%list)
    /\ match n with
       | Escapes x => raised_in_loop env denv x
       | Continue | Break => True
       end.
Proof.
  intros Hled. destruct input as [u |]; cbn [run_step].
  - destruct (is_driver_command u) eqn:Hc.
    + destruct (handle_line_command (S (S d)) (S p) s u st Hc)
        as (n & s' & st' & E & Hh & _ & _ & Hn).
      exists n, s', st'. split; [exact E |]. rewrite Hh.
      split; [exact Hled |]. split; [| exact Hn].
      exists []. now rewrite app_nil_r.
    + destruct (query_invariant sys d p s u st Hc Hled)
        as (n & s' & st' & evs & suffix & E & Hl & _ & Hs & _ & _ & Hn).
      exists n, s', st'. split; [exact E |]. split; [exact Hl |].
      split; [| exact Hn]. eexists. exact Hs.
  - destruct (on_interrupt_keeps s st) as (n & st' & E & _ & Hn).
    exists n, s, st'. split; [exact E |]. split; [exact Hled |].
    split; [| exact Hn]. exists []. now rewrite app_nil_r.
Qed.

Lemma run_loop_invariant (sys : string) (d p : nat)
    (inputs : list UserInput) :
  forall (s : Session) (st : St W),
    led_by sys (history s) = true ->
    exists n s' st',
      run_loop env denv docs_dir (S (S d)) (S p) s inputs st
      = (Some (n, s'), st')
      /\ led_by sys (history s') = true
      /\ (exists suffix, tl (history s') = (tl (history s) ++ suffix)%list)
      /\ match n with
         | Escapes x => raised_in_loop env denv x
         | Continue | Break => True
         end.
Proof.
  induction inputs as [|input more IH]; intros s st Hled; cbn [run_loop].
  - exists Continue, s, st. split; [reflexivity |].
    split; [exact Hled |]. split; [| exact I].
    exists []. now rewrite app_nil_r.
  - unfold bind.
    destruct (run_step_invariant sys d p s input st Hled)
      as (n & s1 & st1 & E & Hl & [suffix Hs] & Hn).
    rewrite E. destruct n as [| | x].
    + destruct (IH s1 st1 Hl)
        as (n' & s' & st' & E' & Hl' & [suffix' Hs'] & Hn').
      exists n', s', st'. split; [exact E' |]. split; [exact Hl' |].
      split; [| exact Hn'].
      exists (suffix ++ suffix')%list. now rewrite Hs', Hs, app_assoc.
    + unfold ret. exists Break, s1, st1. split; [reflexivity |].
      split; [exact Hl |]. split; [now exists suffix | exact I].
    + unfold ret. exists (Escapes x), s1, st1. split; [reflexivity |].
      split; [exact Hl |]. split; [now exists suffix | exact Hn].
Qed.

(** X19: the history of a session keeps its system message in front and
    only grows behind it.  From a history that starts with a system
    message whose text begins with [sys], after any inputs the loop has
    come to an end or waits for input (a call depth of two is enough for
    every turn), the history still starts with a system message whose text
    begins with [sys], and the messages behind the first are the former
    ones followed by new ones. *)
Theorem session_history_invariant (sys : string) (d p : nat)
    (inputs : list UserInput) (s : Session) (st : St W)
    (Hled : led_by sys (history s) = true) :
  exists n s' st',
    run_loop env denv docs_dir (S (S d)) (S p) s inputs st
    = (Some (n, s'), st')
    /\ led_by sys (history s') = true
    /\ exists suffix, tl (history s') = (tl (history s) ++ suffix)%list.
Proof.
  destruct (run_loop_invariant sys d p inputs s st Hled)
    as (n & s' & st' & E & Hl & Hs & _).
  now exists n, s', st'.
Qed.

(** A turn on a system command: the model is called at once, with the
    history as it was given, and nothing is retrieved. *)
Lemma command_turn_trace (model : string) (d p : nat) (msgs : list Message)
    (q : string) (st : St W) :
  is_system_command q = true ->
  exists r st' evs,
    interact_with_model env model (S (S d)) (S p) msgs q false st
    = (Some r, st')
    /\ trace st' = (trace st ++ EvTurn false :: EvChat msgs :: evs)%list
    /\ filter is_retrieve_event evs = [].
Proof.
  intros Hq.
  change (interact_with_model env model (S (S d)) (S p))
    with (interact_with_model_body env model
            (interact_with_model env model (S d) (S p)) (S p)).
  unfold interact_with_model_body, bind. cbn [log].
  unfold current_messages. rewrite Hq. cbn [negb]. unfold ret at 1.
  rewrite while_pass. unfold iteration, bind, call. cbn [world trace].
  destruct (ollama_chat env model msgs (world st))
    as [[e | chunks [e|]] w2]; unfold ret; rewrite ?while_done; cbn [negb].
  - eexists _, _, []. split; [reflexivity |]. cbn [trace].
    split; [now rewrite <- app_assoc | reflexivity].
  - eexists _, _, []. split; [reflexivity |]. cbn [trace].
    split; [now rewrite <- app_assoc | reflexivity].
  - match goal with
    | |- context [process_code _ _ _ ?full ?st2] =>
        destruct (process_code_total env model d p msgs full st2)
          as (f & st3 & evs3 & E3 & Ht3 & Hf3 & _)
    end.
    rewrite E3. apply follow_up_no_retrieval in Hf3.
    cbn [trace] in Ht3. rewrite <- !app_assoc in Ht3. cbn [app] in Ht3.
    destruct f as [| e | h | x]; rewrite ?while_done;
      eexists _, _, evs3; (split; [reflexivity |]);
      (split; [exact Ht3 | exact Hf3]).
Qed.

(** X20: a line that begins with a command token but is not one of the
    forms the driver handles (a command without its argument, or with
    text behind it) is sent to the model as a query, and no retrieval is
    made for it: the turn engine is entered and the model is called at
    once with the history followed by the line as a user message, which
    stays in the history, and no retrieval event follows. *)
Theorem malformed_command_goes_to_the_model (d p : nat) (s : Session)
    (user_input : string) (st : St W)
    (Hdriver : is_driver_command user_input = false)
    (Hengine : is_system_command user_input = true)
    (Hhistory : history s <> []) :
  exists n s' st' evs suffix,
    run_step env denv docs_dir (S (S d)) (S p) s (Line user_input) st
    = (Some (n, s'), st')
    /\ session_model s' = session_model s
    /\ tl (history s')
       = (tl (history s) ++ mkMessage user user_input :: suffix)%list
    /\ trace st'
       = (trace st
          ++ EvTurn false
             :: EvChat (history s ++ [mkMessage user user_input])
             :: evs)%list
    /\ filter is_retrieve_event evs = [].
Proof.
  cbn [run_step]. rewrite (handle_line_query _ _ s user_input st Hdriver).
  cbv zeta.
  set (msgs := (history s ++ [mkMessage user user_input])%list).
  assert (Htl : forall more,
             tl (msgs ++ more)
             = (tl (history s) ++ mkMessage user user_input :: more)%list).
  { intros more. unfold msgs. rewrite <- app_assoc.
    now apply tl_app_nonempty. }
  destruct (command_turn_trace (session_model s) d p msgs user_input st
              Hengine) as (r & st1 & evs & E & Ht & Hf).
  destruct (top_level_anatomy env (session_model s) d p msgs user_input st)
    as (r' & st1' & evs' & E' & _ & _ & Hr).
  rewrite E in E'. injection E' as <- <-. rewrite E.
  destruct r as [h | x].
  - assert (Hs : exists suffix,
               tl h = (tl (history s)
                       ++ mkMessage user user_input :: suffix)%list).
    { destruct Hr as [_ [[a ->] | [(a & c & _ & ->) | (a & y & a' & ->)]]].
      - eexists. apply Htl.
      - exists [mkMessage assistant a].
        rewrite tl_app_nonempty
          by (unfold msgs; destruct (history s); discriminate).
        rewrite tl_augmented, <- (Htl [mkMessage assistant a]).
        symmetry. apply tl_app_nonempty.
        unfold msgs; destruct (history s); discriminate.
      - eexists. apply Htl. }
    destruct Hs as [suffix Hs].
    exists Continue, (mkSession (session_model s) h), st1, evs, suffix.
    split; [reflexivity |]. cbn [history session_model].
    split; [reflexivity |]. split; [exact Hs |]. split; [exact Ht | exact Hf].
  - destruct (handlers_keep x (mkSession (session_model s) msgs) st1)
      as (n & st' & En & Htn & _).
    { intros ->. destruct Hr as [_ Hs].
      destruct Hs
        as (cur & full & st2 & bs & code & ps & w3 & _ & _ & Hask & _).
      right. split; [reflexivity |]. right.
      exists code, (world st2). now rewrite Hask. }
    exists n, (mkSession (session_model s) msgs), st', evs, [].
    split; [exact En |]. cbn [history session_model].
    split; [reflexivity |].
    split; [rewrite <- (app_nil_r msgs) at 1; apply Htl |].
    split; [now rewrite Htn | exact Hf].
Qed.

(** X28: what leaves a script reaches the driver.  When the response to a
    query carries a script, the user has it run and the script raises an
    exception that is no [Exception], the turn ends there and the response
    is not kept: the history holds the query as its last message.  A
    [SystemExit] leaves [run] at once, whatever lines would follow; a
    [KeyboardInterrupt] brings up the exit prompt. *)
Theorem script_exception_reaches_the_driver (d p : nat) (s : Session)
    (u : string) (st st1 : St W) (x : Exc)
    (Hdriver : is_driver_command u = false)
    (Hraise : script_raises env (session_model s)
                (history s ++ [mkMessage user u])%list u st x st1) :
  let asked :=
    mkSession (session_model s) (history s ++ [mkMessage user u])%list in
  (x = SystemExit ->
   run_step env denv docs_dir (S d) (S p) s (Line u) st
   = (Some (Escapes SystemExit, asked), st1)
   /\ forall more,
        run_loop env denv docs_dir (S d) (S p) s (Line u :: more) st
        = (Some (Escapes SystemExit, asked), st1))
  /\ (x = KeyboardInterrupt ->
      run_step env denv docs_dir (S d) (S p) s (Line u) st
      = on_interrupt denv asked st1).
Proof.
  cbv zeta.
  assert (Hstep : is_Exception x = false ->
                  run_step env denv docs_dir (S d) (S p) s (Line u) st
                  = handlers denv x
                      (mkSession (session_model s)
                         (history s ++ [mkMessage user u])%list) st1).
  { intros Hx. cbn [run_step]. rewrite (handle_line_query _ _ s u st Hdriver).
    cbv zeta.
    now rewrite (script_raises_result env (session_model s) d p _ u st st1 x
                   Hraise Hx). }
  split; intros ->; specialize (Hstep eq_refl); [| exact Hstep].
  split; [exact Hstep |].
  intros more. cbn [run_loop]. unfold bind. now rewrite Hstep.
Qed.



End Run.

Import Scripted MoreWorlds.

Lemma malformed_command_goes_to_the_model_witness :
  is_driver_command "/ihtml" = false /\ is_system_command "/ihtml" = true
  /\ exists n s' st' evs suffix,
       run_step env obliging docs 2 1 (mkSession model_name [sys])
         (Line "/ihtml") (start world_context)
       = (Some (n, s'), st')
       /\ session_model s' = model_name
       /\ tl (history s') = ([] ++ mkMessage user "/ihtml" :: suffix)%list
       /\ trace st'
          = ([] ++ EvTurn false
                   :: EvChat [sys; mkMessage user "/ihtml"] :: evs)%list
       /\ filter is_retrieve_event evs = [].
Proof.
  split; [reflexivity |]. split; [reflexivity |].
  refine (malformed_command_goes_to_the_model env obliging docs 0 0
            (mkSession model_name [sys]) "/ihtml" (start world_context)
            eq_refl eq_refl _).
  discriminate.
Defined.

(** A script that calls [sys.exit()] ends the session in the middle of
    the turn: the loop is left, the next line is not read, and the history
    holds the query but not the response. *)
Example script_exit_leaves_run :
  run_loop env obliging docs 2 1 (mkSession model_name [sys])
    [Line "q"; Line "again"] (start world_script_exits)
  = (Some (Escapes SystemExit,
           mkSession model_name [sys; mkMessage user "q"]),
     mkSt (after_python (after_chat world_script_exits))
       [EvTurn false; EvRetrieve "q"; EvChat hist; EvPython "print(1)"]).
Proof. reflexivity. Qed.

(** A script that raises [KeyboardInterrupt] brings up the exit prompt;
    when the user stays, the next line is read. *)
Example script_interrupt_asks_to_exit :
  fst (run_loop env staying docs 2 1 (mkSession model_name [sys])
         [Line "q"; Line "/exit"] (start world_script_interrupts))
  = Some (Break, mkSession model_name [sys; mkMessage user "q"]).
Proof. reflexivity. Qed.

Lemma script_exception_reaches_the_driver_witness :
  is_driver_command "q" = false
  /\ script_raises env model_name hist "q" (start world_script_exits)
       SystemExit
       (mkSt (after_python (after_chat world_script_exits))
          [EvTurn false; EvRetrieve "q"; EvChat hist; EvPython "print(1)"])
  /\ run_loop env obliging docs 1 1 (mkSession model_name [sys])
       [Line "q"; Line "again"] (start world_script_exits)
     = (Some (Escapes SystemExit, mkSession model_name hist),
        mkSt (after_python (after_chat world_script_exits))
          [EvTurn false; EvRetrieve "q"; EvChat hist; EvPython "print(1)"]).
Proof.
  assert (H : script_raises env model_name hist "q"
                (start world_script_exits) SystemExit
                (mkSt (after_python (after_chat world_script_exits))
                   [EvTurn false; EvRetrieve "q"; EvChat hist;
                    EvPython "print(1)"])).
  { exists hist, script_only, (answered world_script_exits), [], "print(1)",
      [], (after_python (after_chat world_script_exits)).
    repeat split; reflexivity. }
  split; [reflexivity |]. split; [exact H |].
  exact (proj2 (proj1 (script_exception_reaches_the_driver env obliging docs
                         0 0 (mkSession model_name [sys]) "q"
                         (start world_script_exits) _ SystemExit
                         eq_refl H)
                  eq_refl)
           [Line "again"]).
Defined.

Lemma session_history_invariant_witness :
  led_by (content sys) hist = true
  /\ exists n s' st',
       run_loop env obliging docs 2 1 (mkSession model_name hist)
         [Line "/help"; Line "q"; Interrupt] (start world_context)
       = (Some (n, s'), st')
       /\ led_by (content sys) (history s') = true
       /\ exists suffix, tl (history s') = (tl hist ++ suffix)%list.
Proof.
  split; [reflexivity |].
  exact (session_history_invariant env obliging docs (content sys) 0 0
           [Line "/help"; Line "q"; Interrupt] (mkSession model_name hist)
           (start world_context) eq_refl).
Defined.

Lemma driver_commands_bypass_the_engine_witness :
  is_driver_command "/MODEL  llama3 " = true
  /\ exists n s' st',
       run_step env obliging docs 2 1 (mkSession model_name hist)
         (Line "/MODEL  llama3 ") (start world_context)
       = (Some (n, s'), st')
       /\ history s' = hist /\ trace st' = []
       /\ (session_model s' = model_name
           \/ (startswith "/model " (lower "/MODEL  llama3 ") = true
               /\ session_model s' = strip (drop 7 "/MODEL  llama3 ")
               /\ truthy (strip (drop 7 "/MODEL  llama3 ")) = true)).
Proof.
  split; [reflexivity |].
  exact (driver_commands_bypass_the_engine env obliging docs 2 1
           (mkSession model_name hist) "/MODEL  llama3 "
           (start world_context) eq_refl).
Defined.

End DriverFacts.

(* ===================================================================== *)
(** * Retrieval *)
(* ===================================================================== *)

Module RagFacts.
Import PyStr Model Utils Assistant Notions TextNotions TurnNotions Rag.
Import PyStrFacts ExtractorFacts EngineFacts ExtractorMore.

Section Retrieval.
Context {W Store Score : Type}.
Context (search : Store -> string -> nat -> Result (list (Document * Score))).
Context (relevance : Score -> Result Z).
Context (env : Env W) (store_of : W -> option Store).



(** The loop over the results comes to its end exactly when the
    percentage of every score can be computed; it then gives the fragments
    of the results, one for each and in their order. *)
Lemma context_parts_rounded (results : list (Document * Score)) :
  forall idx,
    match context_parts relevance idx results with
    | Ok parts =>
        all_rounded relevance results = true
        /\ Forall2 (fragment_of relevance) parts results
    | Raise _ => all_rounded relevance results = false
    end.
Proof.
  induction results as [|[doc score] more IH]; intros idx;
    cbn [context_parts all_rounded forallb snd]; [now split |].
  destruct (relevance score) as [percent | e] eqn:Er; [| reflexivity].
  specialize (IH (S idx)). fold (all_rounded relevance more).
  destruct (context_parts relevance (S idx) more) as [parts | e].
  - destruct IH as [-> HF]. split; [reflexivity |].
    constructor; [| exact HF]. now exists idx, percent.
  - exact IH.
Qed.



Lemma contains_here (x b : string) : contains x (x ++ b) = true.
Proof.
  destruct (x ++ b) eqn:E; cbn [contains]; rewrite <- E;
    now rewrite prefix_app_self.
Qed.

Lemma contains_refl (x : string) : contains x x = true.
Proof.
  pose proof (contains_here x EmptyString) as H.
  now rewrite append_empty_r in H.
Qed.

Lemma contains_app_l (x a b : string) :
  contains x a = true -> contains x (a ++ b) = true.
Proof.
  induction a as [|c a IH].
  - cbn [contains]. rewrite orb_false_r. intros H.
    destruct x; [| discriminate H]. now destruct b.
  - change (String c a ++ b) with (String c (a ++ b)). cbn [contains].
    intros H. apply orb_prop in H as [H | H].
    + change (String c (a ++ b)) with (String c a ++ b).
      now rewrite (prefix_app_r x (String c a) b H).
    + rewrite (IH H). apply orb_true_r.
Qed.

Lemma contains_app_r (x a b : string) :
  contains x b = true -> contains x (a ++ b) = true.
Proof.
  intros H. induction a as [|c a IH]; [exact H |].
  change (String c a ++ b) with (String c (a ++ b)). cbn [contains].
  rewrite IH. apply orb_true_r.
Qed.

Lemma contains_concat (x sep : string) (parts : list string) (part : string) :
  In part parts -> contains x part = true ->
  contains x (String.concat sep parts) = true.
Proof.
  intros Hin Hx. induction parts as [|p more IH]; [destruct Hin |].
  cbn [String.concat]. destruct more as [|p' more'].
  - destruct Hin as [-> | []]. exact Hx.
  - destruct Hin as [-> | Hin].
    + now apply contains_app_l.
    + apply contains_app_r, contains_app_r. now apply IH.
Qed.

Lemma fragment_in_parts (parts : list string)
    (results : list (Document * Score)) (hit : Document * Score) :
  Forall2 (fragment_of relevance) parts results -> In hit results ->
  exists part, In part parts /\ fragment_of relevance part hit.
Proof.
  induction 1 as [| part h parts' more Hp HF IH]; intros Hin;
    [destruct Hin |].
  destruct Hin as [-> | Hin].
  - exists part. split; [now left | exact Hp].
  - destruct (IH Hin) as (part' & Hin' & Hp'). exists part'.
    split; [now right | exact Hp'].
Qed.

(** X23: when the context is built, no chunk that the search returned is
    lost.  If the percentage of every returned score can be computed, then
    for each returned chunk its text, its source (or the word that stands
    for an unknown source) and its percentage followed by the percent sign
    occur in the context. *)
Theorem every_hit_is_in_the_context (vector_store : option Store)
    (q : string) (doc : Document) (score : Score)
    (Hin : In (doc, score) (hits search vector_store q))
    (Hround : all_rounded relevance (hits search vector_store q) = true) :
  contains (page_content doc)
    (get_relevant_context search relevance vector_store q) = true
  /\ contains (source_of doc)
       (get_relevant_context search relevance vector_store q) = true
  /\ exists percent,
       relevance score = Ok percent
       /\ contains (str_of_Z percent ++ "%")
            (get_relevant_context search relevance vector_store q) = true.
Proof.
  unfold get_relevant_context, hits in *.
  destruct vector_store as [store|]; [| destruct Hin].
  destruct (search store q 5) as [results | e]; [| destruct Hin].
  destruct results as [|r more]; [destruct Hin |].
  pose proof (context_parts_rounded (r :: more) 0) as H.
  destruct (context_parts relevance 0 (r :: more)) as [parts | e];
    [| congruence].
  destruct H as [_ HF].
  destruct (fragment_in_parts parts (r :: more) (doc, score) HF Hin)
    as (part & Hpart & idx & percent & Hp & ->).
  cbn [fst snd] in Hp.
  split; [| split; [| exists percent; split; [exact Hp |]]];
    apply (contains_concat _ separator _ _ Hpart); unfold fragment;
    cbv zeta.
  - apply contains_app_r, contains_app_r, contains_refl.
  - apply contains_app_l.
    do 5 apply contains_app_r. apply contains_here.
  - apply contains_app_l.
    do 3 apply contains_app_r.
    match goal with
    | |- contains _ (?a ++ "% | Fuente: " ++ ?b) = true =>
        change (a ++ "% | Fuente: " ++ b) with (a ++ "%" ++ " | Fuente: " ++ b);
        rewrite <- (append_assoc a "%")
    end.
    apply contains_here.
Qed.

End Retrieval.


Lemma every_hit_is_in_the_context_witness :
  In (mkDocument "Ollama serves models." None, Some 58%Z)
    (hits search_all (Some two_chunks) "q")
  /\ all_rounded round_percent (hits search_all (Some two_chunks) "q") = true
  /\ get_relevant_context search_all round_percent (Some two_chunks) "q"
     = "[Fragmento 1 | Relevancia: 91% | Fuente: notes.md]" ++ NL
       ++ "Chroma keeps vectors." ++ separator
       ++ "[Fragmento 2 | Relevancia: 58% | Fuente: desconocida]" ++ NL
       ++ "Ollama serves models."
  /\ contains "Ollama serves models."
       (get_relevant_context search_all round_percent (Some two_chunks) "q")
     = true.
Proof.
  split; [right; now left |]. split; [reflexivity |].
  split; [reflexivity |].
  exact (proj1 (every_hit_is_in_the_context search_all round_percent
                  (Some two_chunks) "q"
                  (mkDocument "Ollama serves models." None) (Some 58%Z)
                  (or_intror (or_introl eq_refl)) eq_refl)).
Defined.

(** One score that is not a number empties the whole context. *)
Example nan_score_empties_the_context :
  get_relevant_context search_all round_percent (Some nan_chunk) "q"
  = EmptyString.
Proof. reflexivity. Qed.

End RagFacts.

(* ===================================================================== *)
(** * Indexing *)
(* ===================================================================== *)

Module IndexingFacts.
Import PyStr Model Utils Driver Rag Indexing.
Import PyStrFacts ExtractorMore.

Section Methods.
Context {W Store Score : Type} (renv : RagEnv W Store).
Context (search : Store -> string -> nat -> Result (list (Document * Score))).
Context (relevance : Score -> Result Z).

Lemma store_documents_law (vs : option Store) (documents : list Document)
    (st : St W) :
  has_store (snd (fst (store_documents renv vs documents st)))
  = has_store vs || fst (fst (store_documents renv vs documents st)).
Proof.
  unfold store_documents, bind, ask, ret. destruct vs as [store|].
  - destruct (chroma_add_documents renv store documents (world st))
      as [[u | e] w]; cbn [world trace]; [| reflexivity].
    destruct (chroma_persist renv store w) as [[u' | e] w']; reflexivity.
  - destruct (chroma_from_documents renv documents (world st))
      as [[store | e] w]; reflexivity.
Qed.

(** Whether there is a store after one operation: there was one before,
    or an indexing operation reported success. *)
Lemma operate_law (vs : option Store) (op : Operation) (st : St W) :
  has_store (snd (fst (operate renv vs op st)))
  = has_store vs || (fst (fst (operate renv vs op st)) && is_indexing op).
Proof.
  destruct op as [dir | url |]; cbn [operate is_indexing];
    rewrite ?andb_true_r, ?andb_false_r, ?orb_false_r.
  - unfold bind, index_documents, bind, ask, ret.
    destruct (os_path_exists renv dir (world st)) as [[|] w];
      cbn [negb world trace fst snd]; [| now rewrite orb_false_r].
    destruct (os_listdir renv dir w) as [[[|f files] | e] w1];
      cbn [negb nonempty world trace fst snd];
      try now rewrite orb_false_r.
    destruct (scan_files renv dir (f :: files) false [] _)
      as [[[|] [|doc docs]] st2];
      cbn [negb nonempty fst snd]; try now rewrite orb_false_r.
    pose proof (store_documents_law vs (doc :: docs) st2) as H.
    destruct (store_documents renv vs (doc :: docs) st2) as [[ok vs'] st3].
    exact H.
  - unfold add_html_from_url, bind, ask, ret.
    destruct (load_html_from_url renv url (world st))
      as [[[|doc docs] | e] w]; cbn [negb nonempty fst snd];
      try now rewrite orb_false_r.
    apply store_documents_law.
  - unfold clear_database, bind, ask, ret. destruct vs as [store|];
      [| reflexivity].
    destruct (chroma_open renv (world st)) as [[store' | e] w];
      cbn [world trace]; [| reflexivity].
    destruct (chroma_persist renv store' w) as [[u | e] w']; reflexivity.
Qed.

Lemma operate_all_law (ops : list Operation) :
  forall (vs : option Store) (st : St W),
    has_store (snd (fst (operate_all renv vs ops st)))
    = has_store vs
      || existsb (fun p => fst p && is_indexing (snd p))
           (combine (fst (fst (operate_all renv vs ops st))) ops).
Proof.
  induction ops as [|op more IH]; intros vs st; cbn [operate_all].
  - unfold ret. cbn. now rewrite orb_false_r.
  - unfold bind. pose proof (operate_law vs op st) as H1.
    destruct (operate renv vs op st) as [[ok vs1] st1]. cbn [fst snd] in *.
    pose proof (IH vs1 st1) as H2.
    destruct (operate_all renv vs1 more st1) as [[flags vs2] st2].
    unfold ret. cbn [fst snd combine existsb] in *.
    now rewrite H2, H1, orb_assoc.
Qed.

(** X24: the retrieval system has a store exactly when it had one before
    or an indexing operation ([index_documents], [add_html_from_url])
    reported success since; clearing neither creates nor drops it.  So
    [get_relevant_context] can return a text that is not empty only if
    there was a store at the start or an indexing operation has reported
    success. *)
Theorem store_exists_iff_indexing_succeeded (ops : list Operation)
    (vs : option Store) (st : St W) (q : string) :
  has_store (snd (fst (operate_all renv vs ops st)))
  = has_store vs
    || existsb (fun p => fst p && is_indexing (snd p))
         (combine (fst (fst (operate_all renv vs ops st))) ops)
  /\ implb
       (truthy (get_relevant_context search relevance
                  (snd (fst (operate_all renv vs ops st))) q))
       (has_store vs
        || existsb (fun p => fst p && is_indexing (snd p))
             (combine (fst (fst (operate_all renv vs ops st))) ops))
     = true.
Proof.
  split; [apply operate_all_law |].
  rewrite <- operate_all_law.
  destruct (snd (fst (operate_all renv vs ops st))); [| reflexivity].
  apply implb_true_r.
Qed.

Lemma load_file_unsupported (filename filepath : string) (st : St W) :
  is_pdf filename || is_text filename = false ->
  load_file renv filename filepath st = ([], st).
Proof.
  intros H. apply orb_false_elim in H as [Hp Ht].
  unfold load_file. now rewrite Hp, Ht.
Qed.

Lemma scan_files_unsupported (dir : string) (files : list string) :
  forallb (fun f => negb (is_pdf f || is_text f)) files = true ->
  forall found documents st,
    snd (fst (scan_files renv dir files found documents st)) = documents.
Proof.
  induction files as [|f more IH]; intros H found documents st;
    [reflexivity |].
  cbn [forallb] in H. apply andb_prop in H as [Hf Hmore].
  apply negb_true_iff in Hf. cbn [scan_files]. cbv zeta. unfold bind, ask.
  destruct (os_path_isfile renv (path_join dir f) (world st)) as [[|] w].
  - rewrite (load_file_unsupported f _ _ Hf), app_nil_r. now apply IH.
  - now apply IH.
Qed.

(** X25: a directory none of whose entries ends in [.pdf], [.md] or
    [.txt] (in any case of the letters) is not indexed: whatever the
    entries are, [index_documents] reports no success, unless
    [os.listdir] raises, and the store stays the one it was. *)
Theorem unsupported_files_are_not_indexed (vs : option Store)
    (dir : string) (st : St W)
    (Hfiles : forall w files w',
        os_listdir renv dir w = (Ok files, w') ->
        forallb (fun f => negb (is_pdf f || is_text f)) files = true) :
  snd (fst (index_documents renv vs dir st)) = vs
  /\ fst (fst (index_documents renv vs dir st)) <> Ok true.
Proof.
  unfold index_documents, bind, ask, ret.
  destruct (os_path_exists renv dir (world st)) as [[|] w];
    cbn [negb world trace fst snd]; [| split; [reflexivity | discriminate]].
  destruct (os_listdir renv dir w) as [[files | e] w1] eqn:El;
    cbn [world trace fst snd]; [| split; [reflexivity | discriminate]].
  destruct (nonempty files); cbn [negb fst snd];
    [| split; [reflexivity | discriminate]].
  pose proof (scan_files_unsupported dir files (Hfiles w files w1 El)
                false [] (mkSt w1 (trace st))) as Hscan.
  destruct (scan_files renv dir files false [] _) as [[found docs] st2].
  cbn [fst snd] in Hscan. subst docs.
  destruct found; cbn [negb nonempty fst snd];
    split; (reflexivity || discriminate).
Qed.

Lemma lower_app (a b : string) : lower (a ++ b) = lower a ++ lower b.
Proof. induction a as [|c a IH]; simpl; [reflexivity | now rewrite IH]. Qed.

(** X26: a file is recognised by the end of its name without regard to
    case.  In a directory whose one entry is a regular file with any
    spelling of the ending [.pdf], when the PDF loader returns chunks and
    there is no store yet, [index_documents] hands the chunks to the
    library, reports success and keeps the store that was created. *)
Theorem pdf_in_any_case_is_indexed (dir name ext : string)
    (docs : list Document) (store : Store) (st : St W)
    (Hext : lower ext = ".pdf")
    (Hdir : forall w, fst (os_path_exists renv dir w) = true)
    (Hlist : forall w, fst (os_listdir renv dir w) = Ok [name ++ ext])
    (Hfile : forall w,
        fst (os_path_isfile renv (path_join dir (name ++ ext)) w) = true)
    (Hload : forall w,
        fst (load_pdf renv (path_join dir (name ++ ext)) w) = Ok docs)
    (Hdocs : nonempty docs = true)
    (Hcreate : forall w, fst (chroma_from_documents renv docs w) = Ok store) :
  fst (index_documents renv None dir st) = (Ok true, Some store).
Proof.
  assert (Hpdf : is_pdf (name ++ ext) = true).
  { unfold is_pdf. rewrite lower_app, Hext. apply endswith_app. }
  unfold index_documents, bind, ask, ret.
  pose proof (Hdir (world st)) as H1.
  destruct (os_path_exists renv dir (world st)) as [b w1].
  cbn [fst] in H1. subst b. cbn [negb world trace].
  pose proof (Hlist w1) as H2.
  destruct (os_listdir renv dir w1) as [l w2]. cbn [fst] in H2. subst l.
  cbn [nonempty negb world trace scan_files]. cbv zeta. unfold bind, ask.
  cbn [world trace].
  pose proof (Hfile w2) as H3.
  destruct (os_path_isfile renv (path_join dir (name ++ ext)) w2) as [b w3].
  cbn [fst] in H3. subst b. unfold load_file. rewrite Hpdf.
  unfold bind, ask, ret. cbn [world trace].
  pose proof (Hload w3) as H4.
  destruct (load_pdf renv (path_join dir (name ++ ext)) w3) as [r w4].
  cbn [fst] in H4. subst r. cbn [app negb]. rewrite Hdocs. cbn [negb].
  unfold store_documents, bind, ask, ret. cbn [world trace].
  pose proof (Hcreate w4) as H5.
  destruct (chroma_from_documents renv docs w4) as [r w5].
  cbn [fst] in H5. subst r. reflexivity.
Qed.

End Methods.

Lemma unsupported_files_are_not_indexed_witness :
  (forall w files w',
      os_listdir other_files "./documents" w = (Ok files, w') ->
      forallb (fun f => negb (is_pdf f || is_text f)) files = true)
  /\ snd (fst (index_documents other_files None "./documents" (mkSt tt [])))
     = None
  /\ fst (fst (index_documents other_files None "./documents" (mkSt tt [])))
     <> Ok true.
Proof.
  assert (H : forall w files w',
             os_listdir other_files "./documents" w = (Ok files, w') ->
             forallb (fun f => negb (is_pdf f || is_text f)) files = true).
  { intros w files w' E. cbn in E. injection E as <- _. reflexivity. }
  split; [exact H |].
  exact (unsupported_files_are_not_indexed other_files None "./documents"
           (mkSt tt []) H).
Defined.

Lemma pdf_in_any_case_is_indexed_witness :
  lower ".PDF" = ".pdf"
  /\ fst (index_documents one_report None "./documents" (mkSt tt []))
     = (Ok true,
        Some [mkDocument "page one" (Some "./documents/Report.PDF")]).
Proof.
  split; [reflexivity |].
  apply (pdf_in_any_case_is_indexed one_report "./documents" "Report" ".PDF"
           [mkDocument "page one" (Some "./documents/Report.PDF")]);
    reflexivity.
Defined.

End IndexingFacts.
